(** * The libuavcan DSDL compiler (dsdlc.py): a shallow embedding

    The development follows [libuavcan/dsdl_compiler/dsdlc.py]: the type
    mapper [type_to_cpp_type], the dependency collector [fields_includes],
    the constant pass [inject_constant_info], the whitespace normalisation
    at the end of [generate_one_type], and the file placement of
    [type_output_filename] and [run_generator].

    Python [str] values are modelled as [string]: sequences of characters
    with code points below 256.  The character classes of [str.splitlines],
    [str.rstrip] and [float] are written out for that range.

    The Mako template and the file system are parameters: a function that
    gives the rendered text or the exception that the template raises,
    and a function that gives the exception that an operation raises, if
    any, after the operations that went through before it.  What
    [argparse] and [dsdl.parse_namespace] do is an input of [main]. *)

From Stdlib Require Import ZArith Ascii String DecimalString DecimalZ.
From stdpp Require Import gmap strings list.

Open Scope string_scope.

(** ** Python string operations used by the compiler *)

Module Py.

Definition LF : ascii := "010"%char.
Definition CR : ascii := "013"%char.

(** [sep.join(ls)] *)
Fixpoint join (sep : string) (ls : list string) : string :=
  match ls with
  | [] => ""
  | [l] => l
  | l :: ls' => l ++ sep ++ join sep ls'
  end.

(** [s.split(c)] for a one-character separator: the pieces between the
    occurrences of [c]; never the empty list. *)
Fixpoint split (c : ascii) (s : string) : list string :=
  match s with
  | "" => [""]
  | String d s' =>
      if Ascii.eqb d c then "" :: split c s'
      else match split c s' with
           | [] => [String d ""]
           | p :: ps => String d p :: ps
           end
  end.

(** The scan of [s.replace(old, new)] for a non-empty [old]: left to
    right, occurrences do not overlap.  [skip] counts the characters of a
    matched occurrence that are still to be passed over. *)
Fixpoint replace_from (old new : string) (skip : nat) (s : string) : string :=
  match s with
  | "" => ""
  | String c s' =>
      match skip with
      | S k => replace_from old new k s'
      | O =>
          if String.prefix old s
          then new ++ replace_from old new (String.length old - 1) s'
          else String c (replace_from old new 0 s')
      end
  end.

(** With an empty [old], Python puts [new] before every character and at
    the end. *)
Fixpoint intersperse (new s : string) : string :=
  match s with
  | "" => new
  | String c s' => new ++ String c (intersperse new s')
  end.

(** [s.replace(old, new)] *)
Definition replace (old new s : string) : string :=
  match old with
  | "" => intersperse new s
  | _ => replace_from old new 0 s
  end.

(** ['%d' % n] for an integer [n] *)
Definition fmt_d (n : Z) : string := NilEmpty.string_of_int (Z.to_int n).

(** [old in s], as a substring test *)
Fixpoint occurs (old s : string) : bool :=
  String.prefix old s ||
  match s with
  | "" => false
  | String _ s' => occurs old s'
  end.

(** [s.startswith(p)] and [s.endswith(p)] *)
Definition startswith (s p : string) : bool := String.prefix p s.

Fixpoint endswith (s p : string) : bool :=
  String.eqb s p ||
  match s with
  | "" => false
  | String _ s' => endswith s' p
  end.

(** [c.isspace()] for a character below 256 *)
Definition isspace (c : ascii) : bool :=
  let n := N_of_ascii c in
  ((9 <=? n) && (n <=? 13) || (28 <=? n) && (n <=? 32)
   || (n =? 133) || (n =? 160))%N.

(** The line boundaries of [str.splitlines] below 256 *)
Definition is_linebreak (c : ascii) : bool :=
  let n := N_of_ascii c in
  ((10 <=? n) && (n <=? 13) || (28 <=? n) && (n <=? 30) || (n =? 133))%N.

(** [s.splitlines()]: the lines of [s] without their terminators; a
    carriage return directly before a line feed belongs to the same
    terminator; a terminator at the very end opens no further line. *)
Fixpoint splitlines (s : string) : list string :=
  match s with
  | "" => []
  | String c s' =>
      if is_linebreak c then
        if Ascii.eqb c CR && String.prefix (String LF "") s'
        then splitlines s'
        else "" :: splitlines s'
      else match splitlines s' with
           | [] => [String c ""]
           | l :: ls => String c l :: ls
           end
  end.

(** [s.rstrip()] *)
Fixpoint rstrip (s : string) : string :=
  match s with
  | "" => ""
  | String c s' =>
      match rstrip s' with
      | "" => if isspace c then "" else String c ""
      | r => String c r
      end
  end.

(** *** [float(s)]: which strings are accepted

    CPython first maps every character from 127 on to a blank (white
    space), a decimal digit (none below 256) or a question mark, where it
    stops; then strips the blanks of the C locale at both ends, takes out
    underscores that stand between two digits, and parses a decimal number
    or, case-insensitively, [inf], [infinity] or [nan]. *)

Definition is_digit (c : ascii) : bool :=
  let n := N_of_ascii c in ((48 <=? n) && (n <=? 57))%N.

Definition c_isspace (c : ascii) : bool :=
  let n := N_of_ascii c in ((9 <=? n) && (n <=? 13) || (n =? 32))%N.

Definition tolower (c : ascii) : ascii :=
  let n := N_of_ascii c in
  if ((65 <=? n) && (n <=? 90))%N then ascii_of_N (n + 32) else c.

Fixpoint lower (s : string) : string :=
  match s with
  | "" => ""
  | String c s' => String (tolower c) (lower s')
  end.

Fixpoint transform_to_ascii (s : string) : string :=
  match s with
  | "" => ""
  | String c s' =>
      if (N_of_ascii c <? 127)%N then String c (transform_to_ascii s')
      else if isspace c then String " " (transform_to_ascii s')
      else "?"
  end.

Fixpoint lstrip_c (s : string) : string :=
  match s with
  | "" => ""
  | String c s' => if c_isspace c then lstrip_c s' else s
  end.

Fixpoint rstrip_c (s : string) : string :=
  match s with
  | "" => ""
  | String c s' =>
      match rstrip_c s' with
      | "" => if c_isspace c then "" else String c ""
      | r => String c r
      end
  end.

(** Underscores are dropped; each must follow a digit and precede one. *)
Fixpoint drop_underscores (prev : ascii) (s : string) : option string :=
  match s with
  | "" => if Ascii.eqb prev "_" then None else Some ""
  | String c s' =>
      if Ascii.eqb c "_" then
        if is_digit prev then drop_underscores c s' else None
      else if Ascii.eqb prev "_" && negb (is_digit c) then None
      else String c <$> drop_underscores c s'
  end.

Definition drop_sign (s : string) : string :=
  match s with
  | String c s' => if Ascii.eqb c "+" || Ascii.eqb c "-" then s' else s
  | "" => ""
  end.

(** The leading digits of [s]: how many, and what follows them. *)
Fixpoint span_digits (s : string) : nat * string :=
  match s with
  | String c s' =>
      if is_digit c then let '(n, r) := span_digits s' in (S n, r)
      else (O, s)
  | "" => (O, "")
  end.

(** sign, digits, optional fraction, optional exponent, and nothing else;
    at least one digit in the mantissa and in a present exponent *)
Definition is_decimal_number (s : string) : bool :=
  let '(n_int, r1) := span_digits (drop_sign s) in
  let '(n_frac, r2) :=
    match r1 with
    | String "." r => span_digits r
    | _ => (O, r1)
    end in
  match (n_int + n_frac)%nat with
  | O => false
  | S _ =>
      match r2 with
      | "" => true
      | String e r3 =>
          if Ascii.eqb e "e" || Ascii.eqb e "E" then
            let '(n_exp, r4) := span_digits (drop_sign r3) in
            negb (Nat.eqb n_exp 0) && String.eqb r4 ""
          else false
      end
  end.

Definition is_inf_or_nan (s : string) : bool :=
  let w := lower (drop_sign s) in
  String.eqb w "inf" || String.eqb w "infinity" || String.eqb w "nan".

(** [float(s)] returns (true) or raises [ValueError] (false). *)
Definition float_accepts (s : string) : bool :=
  match drop_underscores "000" (rstrip_c (lstrip_c (transform_to_ascii s))) with
  | None => false
  | Some s' => is_decimal_number s' || is_inf_or_nan s'
  end.

(** *** [os.path] on a POSIX platform *)

Definition os_path_sep : string := "/".

(** [os.path.join(a, b)] *)
Definition os_path_join (a b : string) : string :=
  if startswith b "/" then b
  else if String.eqb a "" || endswith a "/" then a ++ b
  else a ++ "/" ++ b.

Definition os_path_isabs (p : string) : bool := startswith p "/".

Fixpoint repeat_string (s : string) (n : nat) : string :=
  match n with
  | O => ""
  | S n' => s ++ repeat_string s n'
  end.

(** One round of the loop of [os.path.normpath] over the components. *)
Definition normpath_step (initial_slashes : nat) (new_comps : list string)
    (comp : string) : list string :=
  if String.eqb comp "" || String.eqb comp "." then new_comps
  else if negb (String.eqb comp "..")
          || (Nat.eqb initial_slashes 0 && bool_decide (new_comps = []))
          || bool_decide (last new_comps = Some "..")
  then new_comps ++ [comp]
  else removelast new_comps.

(** [os.path.normpath(path)] *)
Definition os_path_normpath (path : string) : string :=
  if String.eqb path "" then "." else
  let initial_slashes :=
    if startswith path "/" then
      if startswith path "//" && negb (startswith path "///") then 2%nat
      else 1%nat
    else 0%nat in
  let comps := split "/" path in
  let new_comps := fold_left (normpath_step initial_slashes) comps [] in
  let path' := repeat_string "/" initial_slashes ++ join "/" new_comps in
  if String.eqb path' "" then "." else path'.

(** [os.path.abspath(path)] in the working directory [cwd] *)
Definition os_path_abspath (cwd path : string) : string :=
  os_path_normpath (if os_path_isabs path then path else os_path_join cwd path).

(** [p[:p.rfind('/') + 1]] *)
Fixpoint head_to_last_slash (p : string) : string :=
  match p with
  | "" => ""
  | String c p' =>
      if occurs "/" p then String c (head_to_last_slash p') else ""
  end.

Fixpoint rstrip_slashes (s : string) : string :=
  match s with
  | "" => ""
  | String c s' =>
      match rstrip_slashes s' with
      | "" => if Ascii.eqb c "/" then "" else String c ""
      | r => String c r
      end
  end.

(** [os.path.dirname(p)] *)
Definition os_path_dirname (p : string) : string :=
  let head := head_to_last_slash p in
  if negb (String.eqb head "")
     && negb (String.eqb head (repeat_string "/" (String.length head)))
  then rstrip_slashes head else head.

End Py.

(** ** The type graph handed over by the DSDL parser *)

Inductive PrimitiveKind :=
  KIND_BOOLEAN | KIND_UNSIGNED_INT | KIND_SIGNED_INT | KIND_FLOAT.

Inductive CastMode := CAST_MODE_SATURATED | CAST_MODE_TRUNCATED.

Inductive ArrayMode := MODE_STATIC | MODE_DYNAMIC.

(** Modelled from the spec: the category tag of [pyuavcan.dsdl] types,
    which is not part of these sources.  The three categories the compiler
    knows, and any other value, kept with the text that ['%s'] prints for
    it. *)
Inductive Category :=
| CATEGORY_PRIMITIVE
| CATEGORY_ARRAY
| CATEGORY_COMPOUND
| CATEGORY_OTHER (shown : string).

(** Modelled from the spec: the attributes of a primitive type of
    [pyuavcan.dsdl]. *)
Record PrimitiveType := {
  kind : PrimitiveKind;
  bitlen : Z;
  cast_mode : CastMode;
}.

(** Modelled from the spec: the type objects of [pyuavcan.dsdl], with the
    attributes that [dsdlc.py] reads from each.  A compound type that
    occurs as the type of a field is read through its [full_name] only. *)
Inductive SchemaType :=
| Primitive (p : PrimitiveType)
| Array (value_type : SchemaType) (mode : ArrayMode) (max_size : Z)
| Compound (full_name : string)
| Foreign (shown : string).

Definition category (t : SchemaType) : Category :=
  match t with
  | Primitive _ => CATEGORY_PRIMITIVE
  | Array _ _ _ => CATEGORY_ARRAY
  | Compound _ => CATEGORY_COMPOUND
  | Foreign shown => CATEGORY_OTHER shown
  end.

Definition recognized (c : Category) : bool :=
  match c with
  | CATEGORY_OTHER _ => false
  | _ => true
  end.

(** The type under the arrays of [t]. *)
Fixpoint innermost (t : SchemaType) : SchemaType :=
  match t with
  | Array value_type _ _ => innermost value_type
  | _ => t
  end.

(** ** Exceptions and results *)

(** The exceptions of the compiler itself, and any other exception, as
    the file system, the template and the parser raise them, by its class
    and its text. *)
Inductive Exception :=
| DsdlCompilerException (msg : string)
| ValueError (literal : string)
| AssertionError
| OtherException (class_name text : string).

Inductive Result (A : Type) :=
| Ok (a : A)
| Raise (e : Exception).
Arguments Ok {A} a.
Arguments Raise {A} e.

#[global] Instance Result_ret : MRet Result := @Ok.

#[global] Instance Result_bind : MBind Result := fun A B k r =>
  match r with
  | Ok a => k a
  | Raise e => Raise e
  end.

Definition succeeds {A} (r : Result A) : bool :=
  match r with Ok _ => true | Raise _ => false end.

(** ** [type_to_cpp_type] *)

Definition cast_mode_cpp (m : CastMode) : string :=
  match m with
  | CAST_MODE_SATURATED => "::uavcan::CastModeSaturate"
  | CAST_MODE_TRUNCATED => "::uavcan::CastModeTruncate"
  end.

Definition signedness_cpp (k : PrimitiveKind) : string :=
  match k with
  | KIND_SIGNED_INT => "::uavcan::SignednessSigned"
  | _ => "::uavcan::SignednessUnsigned"
  end.

Definition array_mode_cpp (m : ArrayMode) : string :=
  match m with
  | MODE_STATIC => "::uavcan::ArrayModeStatic"
  | MODE_DYNAMIC => "::uavcan::ArrayModeDynamic"
  end.

Fixpoint type_to_cpp_type (t : SchemaType) : Result string :=
  match t with
  | Primitive p =>
      match kind p with
      | KIND_FLOAT =>
          Ok ("::uavcan::FloatSpec<" ++ Py.fmt_d (bitlen p) ++ ", "
                ++ cast_mode_cpp (cast_mode p) ++ ">")
      | _ =>
          Ok ("::uavcan::IntegerSpec<" ++ Py.fmt_d (bitlen p) ++ ", "
                ++ signedness_cpp (kind p) ++ ", "
                ++ cast_mode_cpp (cast_mode p) ++ ">")
      end
  | Array value_type mode max_size =>
      value_type' ← type_to_cpp_type value_type;
      Ok ("::uavcan::Array<" ++ value_type' ++ ", " ++ array_mode_cpp mode
            ++ ", " ++ Py.fmt_d max_size ++ ">")
  | Compound full_name =>
      Ok ("::" ++ Py.replace "." "::" full_name)
  | Foreign shown =>
      Raise (DsdlCompilerException ("Unknown type category: " ++ shown))
  end.

(** ** Attributes, constants and compound types *)

(** Modelled from the spec: a field of [pyuavcan.dsdl].  [attr_cpp_type]
    is the attribute [cpp_type] that the compiler attaches; it is unset in
    the input. *)
Record Attribute := {
  attr_name : string;
  attr_type : SchemaType;
  attr_cpp_type : option string;
}.

(** Modelled from the spec: a constant of [pyuavcan.dsdl]; its type is
    primitive.  [value] is read for the kinds other than float only.  The
    last three attributes are attached by the compiler. *)
Record Constant := {
  const_name : string;
  const_type : PrimitiveType;
  string_value : string;
  value : Z;
  const_cpp_type : option string;
  cpp_use_enum : option bool;
  cpp_value : option string;
}.

Inductive CompoundKind := KIND_SERVICE | KIND_MESSAGE.

(** Modelled from the spec: what a message and what a service holds. *)
Inductive CompoundBody :=
| Message (fields : list Attribute) (constants : list Constant)
| Service (request_fields : list Attribute) (request_constants : list Constant)
          (response_fields : list Attribute) (response_constants : list Constant).

(** Modelled from the spec: a top-level compound type of [pyuavcan.dsdl]. *)
Record CompoundType := {
  full_name : string;
  default_dtid : option Z;
  body : CompoundBody;
}.

Definition compound_kind (t : CompoundType) : CompoundKind :=
  match body t with
  | Message _ _ => KIND_MESSAGE
  | Service _ _ _ _ => KIND_SERVICE
  end.

(** A top-level compound type, seen as the type of a field. *)
Definition as_type (t : CompoundType) : SchemaType := Compound (full_name t).

Definition set_attr_cpp_type (v : string) (a : Attribute) : Attribute :=
  {| attr_name := attr_name a; attr_type := attr_type a;
     attr_cpp_type := Some v |}.

Definition set_const_cpp_type (v : string) (c : Constant) : Constant :=
  {| const_name := const_name c; const_type := const_type c;
     string_value := string_value c; value := value c;
     const_cpp_type := Some v; cpp_use_enum := cpp_use_enum c;
     cpp_value := cpp_value c |}.

Definition set_cpp_use_enum (b : bool) (c : Constant) : Constant :=
  {| const_name := const_name c; const_type := const_type c;
     string_value := string_value c; value := value c;
     const_cpp_type := const_cpp_type c; cpp_use_enum := Some b;
     cpp_value := cpp_value c |}.

Definition set_cpp_value (v : string) (c : Constant) : Constant :=
  {| const_name := const_name c; const_type := const_type c;
     string_value := string_value c; value := value c;
     const_cpp_type := const_cpp_type c; cpp_use_enum := cpp_use_enum c;
     cpp_value := Some v |}.

(** Attributes and constants as the parser hands them over: nothing is
    attached yet. *)
Definition parsed_field (name : string) (t : SchemaType) : Attribute :=
  {| attr_name := name; attr_type := t; attr_cpp_type := None |}.

Definition parsed_constant (name : string) (t : PrimitiveType)
    (literal : string) (v : Z) : Constant :=
  {| const_name := name; const_type := t; string_value := literal;
     value := v; const_cpp_type := None; cpp_use_enum := None;
     cpp_value := None |}.

(** ** Constants of the module *)

Definition MAX_BITLEN_FOR_ENUM : Z := 31.
Definition CPP_HEADER_EXTENSION : string := "hpp".

(** ** [type_output_filename] *)

Definition type_output_filename (t : SchemaType) : Result string :=
  match t with
  | Compound full_name =>
      Ok (Py.replace "." Py.os_path_sep full_name ++ "." ++ CPP_HEADER_EXTENSION)
  | _ => Raise AssertionError
  end.

(** ** [fields_includes], local to [generate_one_type] *)

Definition is_compound (t : SchemaType) : bool :=
  match category t with
  | CATEGORY_COMPOUND => true
  | _ => false
  end.

Definition fields_includes (fields : list Attribute) : Result (gset string) :=
  names ← mapM (fun x => type_output_filename (attr_type x))
               (List.filter (fun x => is_compound (attr_type x)) fields);
  Ok (list_to_set names).

(** The include that one field contributes, if any. *)
Definition include_of (x : Attribute) : option string :=
  match attr_type x with
  | Compound full_name =>
      Some (Py.replace "." Py.os_path_sep full_name ++ "." ++ CPP_HEADER_EXTENSION)
  | _ => None
  end.

(** ** [inject_cpp_types], local to [generate_one_type] *)

Definition inject_cpp_types (attributes : list Attribute)
  : Result (list Attribute) :=
  mapM (fun a => v ← type_to_cpp_type (attr_type a);
                 Ok (set_attr_cpp_type v a)) attributes.

Definition inject_cpp_types_const (constants : list Constant)
  : Result (list Constant) :=
  mapM (fun c => v ← type_to_cpp_type (Primitive (const_type c));
                 Ok (set_const_cpp_type v c)) constants.

(** ** [inject_constant_info], local to [generate_one_type] *)

(** A dictionary literal with distinct keys, and [d[k]] guarded by
    [k in d]. *)
Fixpoint dict_get (k : string) (d : list (string * string)) : option string :=
  match d with
  | [] => None
  | (k', v) :: d' => if String.eqb k k' then Some v else dict_get k d'
  end.

Definition numeric_limits (c : Constant) : string :=
  "::std::numeric_limits<typename ::uavcan::StorageType<typename ConstantTypes::"
    ++ const_name c ++ ">::Type>".

Definition numeric_limits_inf (c : Constant) : string :=
  numeric_limits c ++ "::infinity()".

Definition special_values (c : Constant) : list (string * string) :=
  [ ("inf", numeric_limits_inf c);
    ("+inf", numeric_limits_inf c);
    ("-inf", "-" ++ numeric_limits_inf c);
    ("nan", numeric_limits c ++ "::quiet_NaN()") ].

(** The body of the loop for one constant: the constant as the body
    leaves it, and the exception it raises, if any. *)
Definition inject_constant_info_step (c : Constant)
  : Constant * option Exception :=
  match kind (const_type c) with
  | KIND_FLOAT =>
      let c := set_cpp_use_enum false c in
      match dict_get (string_value c) (special_values c) with
      | Some v => (set_cpp_value v c, None)
      | None =>
          if Py.float_accepts (string_value c)
          then (set_cpp_value (string_value c) c, None)
          else (c, Some (ValueError (string_value c)))
      end
  | _ =>
      let c := set_cpp_use_enum
                 ((0 <=? value c)%Z
                  && (bitlen (const_type c) <=? MAX_BITLEN_FOR_ENUM)%Z) c in
      (set_cpp_value (string_value c) c, None)
  end.

(** The loop: it stops at the first exception; the constants after that
    one are left as they were. *)
Fixpoint inject_constant_info (constants : list Constant)
  : list Constant * option Exception :=
  match constants with
  | [] => ([], None)
  | c :: cs =>
      match inject_constant_info_step c with
      | (c', Some e) => (c' :: cs, Some e)
      | (c', None) =>
          let '(cs', e) := inject_constant_info cs in (c' :: cs', e)
      end
  end.

Definition to_result {A} (r : A * option Exception) : Result A :=
  match r with
  | (_, Some e) => Raise e
  | (a, None) => Ok a
  end.

(** ** The whitespace normalisation that ends [generate_one_type] *)

Definition NL : string := String Py.LF "".

(** ['\n'.join(x.rstrip() for x in text.splitlines())] *)
Definition strip_lines (text : string) : string :=
  Py.join NL (List.map Py.rstrip (Py.splitlines text)).

(** The two chained [replace] calls on runs of line feeds *)
Definition collapse_blank_lines (text : string) : string :=
  Py.replace (NL ++ NL ++ NL) (NL ++ NL)
    (Py.replace (NL ++ NL ++ NL ++ NL) (NL ++ NL) text).

(** [text.replace('{\n\n ', '{\n ')] *)
Definition close_up_brace (text : string) : string :=
  Py.replace ("{" ++ NL ++ NL ++ " ") ("{" ++ NL ++ " ") text.

Definition normalize (text : string) : string :=
  close_up_brace (collapse_blank_lines (strip_lines text)).

(** Notions for the statements about the normalisation: the number of
    line feeds that [s] starts with; the first character; whether a line
    holds a line boundary; and the texts that [strip_lines] leaves as they
    are: [LF] is their only line boundary, the character before an [LF] is
    an [LF] or no white space, and the last character is no white
    space. *)
Fixpoint lead (s : string) : nat :=
  match s with
  | String c s' => if Ascii.eqb c Py.LF then S (lead s') else O
  | "" => O
  end.

Definition first_char (s : string) : option ascii :=
  match s with
  | String c _ => Some c
  | "" => None
  end.

Fixpoint no_linebreak (s : string) : bool :=
  match s with
  | String c s' => negb (Py.is_linebreak c) && no_linebreak s'
  | "" => true
  end.

Fixpoint tidy (s : string) : bool :=
  match s with
  | "" => true
  | String c s' =>
      (Ascii.eqb c Py.LF || negb (Py.is_linebreak c))
      && match s' with
         | "" => negb (Py.isspace c)
         | String d _ =>
             negb (Ascii.eqb d Py.LF) || Ascii.eqb c Py.LF
             || negb (Py.isspace c)
         end
      && tidy s'
  end.

(** ** [generate_one_type] and [run_generator] *)

(** The compound type as the template sees it: the type with the
    attributes attached to its fields and constants, and the attributes
    attached to the type itself. *)
Record Annotated := {
  annotated : CompoundType;
  short_name : string;
  cpp_includes : gset string;
  cpp_namespace_components : list string;
  has_default_dtid : bool;
  cpp_kind : string;
}.

Definition with_body (t : CompoundType) (b : CompoundBody) : CompoundType :=
  {| full_name := full_name t; default_dtid := default_dtid t; body := b |}.

Definition cpp_kind_of (k : CompoundKind) : string :=
  match k with
  | KIND_MESSAGE => "::uavcan::DataTypeKindMessage"
  | KIND_SERVICE => "::uavcan::DataTypeKindService"
  end.

(** What the file system is asked to do: [os.makedirs(path,
    exist_ok=True)], and [open(path, 'w')] with the [write] of the text
    and the closing of the file. *)
Inductive FsOp :=
| Makedirs (path : string)
| WriteFile (path text : string).

(** The paths of the files written, in order. *)
Definition written_paths (ops : list FsOp) : list string :=
  omap (fun op => match op with
                  | WriteFile path _ => Some path
                  | Makedirs _ => None
                  end) ops.

Section Generator.

(** The Mako template [data_type_template.hpp], loaded and rendered for a
    type: the text, or the exception that the template raises. *)
Variable render : Annotated -> Result string.

(** The file system: the exception that an operation raises, if any, after
    the operations that went through before it. *)
Variable fs : list FsOp -> FsOp -> option Exception.

Definition generate_one_type (t : CompoundType) : Result string :=
  let short_name := List.last (Py.split "." (full_name t)) "" in
  cpp_includes ←
    match body t with
    | Message fields _ => fields_includes fields
    | Service request_fields _ response_fields _ =>
        fields_includes (request_fields ++ response_fields)
    end;
  let cpp_namespace_components := removelast (Py.split "." (full_name t)) in
  let has_default_dtid :=
    match default_dtid t with Some _ => true | None => false end in
  body1 ←
    match body t with
    | Message fields constants =>
        fields ← inject_cpp_types fields;
        constants ← inject_cpp_types_const constants;
        Ok (Message fields constants)
    | Service request_fields request_constants
              response_fields response_constants =>
        request_fields ← inject_cpp_types request_fields;
        request_constants ← inject_cpp_types_const request_constants;
        response_fields ← inject_cpp_types response_fields;
        response_constants ← inject_cpp_types_const response_constants;
        Ok (Service request_fields request_constants
                    response_fields response_constants)
    end;
  body2 ←
    match body1 with
    | Message fields constants =>
        constants ← to_result (inject_constant_info constants);
        Ok (Message fields constants)
    | Service request_fields request_constants
              response_fields response_constants =>
        request_constants ← to_result (inject_constant_info request_constants);
        response_constants ← to_result (inject_constant_info response_constants);
        Ok (Service request_fields request_constants
                    response_fields response_constants)
    end;
  text ← render {| annotated := with_body t body2;
                   short_name := short_name;
                   cpp_includes := cpp_includes;
                   cpp_namespace_components := cpp_namespace_components;
                   has_default_dtid := has_default_dtid;
                   cpp_kind := cpp_kind_of (compound_kind t) |};
  Ok (normalize text).

(** The loop of [run_generator] over the types, with [dest_dir] already
    absolute and after the operations [log]: the operations that went
    through in the loop, and the first exception, which ends it.  An
    operation that raises is not among them. *)
Fixpoint run_generator_loop (dest_dir : string) (log : list FsOp)
    (types : list CompoundType) : list FsOp * option Exception :=
  match types with
  | [] => ([], None)
  | t :: ts =>
      match type_output_filename (as_type t) with
      | Raise e => ([], Some e)
      | Ok name =>
          let file_path := Py.os_path_join dest_dir name in
          let dir_path := Py.os_path_dirname file_path in
          match fs log (Makedirs dir_path) with
          | Some e => ([], Some e)
          | None =>
              match generate_one_type t with
              | Raise e => ([Makedirs dir_path], Some e)
              | Ok text =>
                  match fs (log ++ [Makedirs dir_path])
                           (WriteFile file_path text) with
                  | Some e => ([Makedirs dir_path], Some e)
                  | None =>
                      let '(ops, e) :=
                        run_generator_loop dest_dir
                          (log ++ [Makedirs dir_path;
                                   WriteFile file_path text]) ts in
                      (Makedirs dir_path :: WriteFile file_path text :: ops, e)
                  end
              end
          end
      end
  end.

(** [run_generator(types, dest_dir)], started in the working directory
    [cwd]: the operations that went through, and the exception that the
    [except] clause hands to [die], if any. *)
Definition run_generator (cwd : string) (types : list CompoundType)
    (dest_dir : string) : list FsOp * option Exception :=
  let dest_dir := Py.os_path_abspath cwd dest_dir in
  match fs [] (Makedirs dest_dir) with
  | Some e => ([], Some e)
  | None =>
      let '(ops, e) := run_generator_loop dest_dir [Makedirs dest_dir] types in
      (Makedirs dest_dir :: ops, e)
  end.

End Generator.

(** ** The rest of the script: logging, parsing, the main program *)

Inductive LogLevel := WARNING | INFO | DEBUG.

(** The numbers of the levels in [logging]. *)
Definition level_number (l : LogLevel) : Z :=
  match l with
  | WARNING => 30
  | INFO => 20
  | DEBUG => 10
  end.

(** [d.get(k, default)] for a dictionary literal with integer keys *)
Fixpoint dict_get_default {A} (k : Z) (d : list (Z * A)) (default : A) : A :=
  match d with
  | [] => default
  | (k', v) :: d' => if (k =? k')%Z then v else dict_get_default k d' default
  end.

(** [configure_logging(verbosity)]: the level handed to
    [logging.basicConfig]; [verbosity] is [None] without a [-v] flag. *)
Definition configure_logging (verbosity : option Z) : LogLevel :=
  let key :=
    match verbosity with
    | None => 0%Z
    | Some v => if (v =? 0)%Z then 0%Z else v
    end in
  dict_get_default key [(0%Z, WARNING); (1%Z, INFO); (2%Z, DEBUG)] DEBUG.

Definition DEFAULT_OUTDIR : string := "./dsdlc_output".

(** What [die] prints: a text, or [str(ex)] of an exception. *)
Inductive DieMessage :=
| Text (s : string)
| StrOf (e : Exception).

(** What [argparser.parse_args()] does with the command line: it ends the
    script itself, with status 0 after the help text and with status 2
    after a usage message, or it returns the options.  [verbose] is the
    count of the [-v] flags, [None] without one; [outdir] is the
    [--outdir] option, for which [DEFAULT_OUTDIR] stands in. *)
Inductive CommandLine :=
| ArgparseExit (status : Z)
| Args (verbose : option Z) (outdir : option string).

(** Modelled from the spec: what [dsdl.parse_namespace] does for the
    source directory and the search directories of the command line.  It
    raises a [DsdlException], of which [str(ex)] is [errtext]; or an
    exception of another class, which [run_parser] does not catch; or it
    returns the types. *)
Inductive Parsed :=
| DsdlException (errtext : string)
| ParserException (e : Exception)
| Types (types : list CompoundType).

(** How a run of the script ends: the exit status; what [die] printed if
    it was called; the exception that nothing caught, which ends the
    script with a traceback; the level that [configure_logging] set, if it
    was called; and the file system operations that went through. *)
Record Run := {
  exit_status : Z;
  died : option DieMessage;
  uncaught : option Exception;
  log_level : option LogLevel;
  fs_ops : list FsOp;
}.

(** [die(text)], with the logging at [level] and after the operations
    [ops] *)
Definition die (msg : DieMessage) (level : LogLevel) (ops : list FsOp) : Run :=
  {| exit_status := 1; died := Some msg; uncaught := None;
     log_level := Some level; fs_ops := ops |}.

Section Main.

Variable render : Annotated -> Result string.
Variable fs : list FsOp -> FsOp -> option Exception.

(** The script, started in the working directory [cwd]. *)
Definition main (cwd : string) (command_line : CommandLine) (parsed : Parsed)
  : Run :=
  match command_line with
  | ArgparseExit status =>
      {| exit_status := status; died := None; uncaught := None;
         log_level := None; fs_ops := [] |}
  | Args verbose outdir =>
      let level := configure_logging verbose in
      match parsed with
      | DsdlException errtext => die (Text errtext) level []
      | ParserException e =>
          {| exit_status := 1; died := None; uncaught := Some e;
             log_level := Some level; fs_ops := [] |}
      | Types [] => die (Text "No type definitions were found") level []
      | Types types =>
          let '(ops, e) :=
            run_generator render fs cwd types
              (match outdir with Some d => d | None => DEFAULT_OUTDIR end) in
          match e with
          | Some ex => die (StrOf ex) level ops
          | None =>
              {| exit_status := 0; died := None; uncaught := None;
                 log_level := Some level; fs_ops := ops |}
          end
      end
  end.

End Main.

(** ** Notions for the statements about the code *)

(** How often [c] occurs in [s]. *)
Fixpoint count_char (c : ascii) (s : string) : nat :=
  match s with
  | "" => O
  | String d s' => if Ascii.eqb d c then S (count_char c s') else count_char c s'
  end.

(** The characters of [s] that are no white space. *)
Fixpoint nonspace (s : string) : string :=
  match s with
  | "" => ""
  | String c s' => if Py.isspace c then nonspace s' else String c (nonspace s')
  end.

(** As [tidy], but the text may end in a line feed. *)
Fixpoint stripped (s : string) : bool :=
  match s with
  | "" => true
  | String c s' =>
      (Ascii.eqb c Py.LF || negb (Py.is_linebreak c))
      && match s' with
         | "" => Ascii.eqb c Py.LF || negb (Py.isspace c)
         | String d _ =>
             negb (Ascii.eqb d Py.LF) || Ascii.eqb c Py.LF
             || negb (Py.isspace c)
         end
      && stripped s'
  end.

(** The fields and the constants of a type, of both halves for a
    service. *)
Definition all_fields (t : CompoundType) : list Attribute :=
  match body t with
  | Message fields _ => fields
  | Service request_fields _ response_fields _ =>
      request_fields ++ response_fields
  end.

Definition all_constants (t : CompoundType) : list Constant :=
  match body t with
  | Message _ constants => constants
  | Service _ request_constants _ response_constants =>
      request_constants ++ response_constants
  end.

(** Whether [inject_constant_info] takes the literal of [c]. *)
Definition literal_ok (c : Constant) : bool :=
  match kind (const_type c) with
  | KIND_FLOAT =>
      match dict_get (string_value c) (special_values c) with
      | Some _ => true
      | None => Py.float_accepts (string_value c)
      end
  | _ => true
  end.

(** Whether [type_to_cpp_type] maps the type of [x]. *)
Definition mappable (t : SchemaType) : bool :=
  recognized (category (innermost t)).

(** [generate_one_type] up to the call of the template: the annotated
    type that the template is rendered for. *)
Definition annotated_with (t : CompoundType) (includes : gset string)
    (b : CompoundBody) : Annotated :=
  {| annotated := with_body t b;
     short_name := List.last (Py.split "." (full_name t)) "";
     cpp_includes := includes;
     cpp_namespace_components := removelast (Py.split "." (full_name t));
     has_default_dtid :=
       match default_dtid t with Some _ => true | None => false end;
     cpp_kind := cpp_kind_of (compound_kind t) |}.

Definition annotate (t : CompoundType) : Result Annotated :=
  match body t with
  | Message fields constants =>
      includes ← fields_includes fields;
      fields ← inject_cpp_types fields;
      constants ← inject_cpp_types_const constants;
      constants ← to_result (inject_constant_info constants);
      Ok (annotated_with t includes (Message fields constants))
  | Service request_fields request_constants
            response_fields response_constants =>
      includes ← fields_includes (request_fields ++ response_fields);
      request_fields ← inject_cpp_types request_fields;
      request_constants ← inject_cpp_types_const request_constants;
      response_fields ← inject_cpp_types response_fields;
      response_constants ← inject_cpp_types_const response_constants;
      request_constants ← to_result (inject_constant_info request_constants);
      response_constants ← to_result (inject_constant_info response_constants);
      Ok (annotated_with t includes
            (Service request_fields request_constants
                     response_fields response_constants))
  end.

(** The path that [run_generator] computes for the file of [t] under the
    absolute destination directory. *)
Definition file_path_of (dest_dir : string) (t : CompoundType) : string :=
  Py.os_path_join dest_dir
    (Py.replace "." Py.os_path_sep (full_name t) ++ "." ++ CPP_HEADER_EXTENSION).

(** What [run_generator] asks of the file system when nothing raises. *)
Definition full_run (render : Annotated -> Result string) (root : string)
    (types : list CompoundType) : list FsOp :=
  Makedirs root
    :: List.concat
         (List.map (fun t =>
                      match generate_one_type render t with
                      | Ok text =>
                          [Makedirs (Py.os_path_dirname (file_path_of root t));
                           WriteFile (file_path_of root t) text]
                      | Raise _ => []
                      end) types).

(** A component of a dotted name: not empty, without a dot and without a
    path separator. *)
Definition is_component (s : string) : bool :=
  negb (String.eqb s "")
  && Nat.eqb (count_char "." s) 0 && Nat.eqb (count_char "/" s) 0.

(** ** The example types of the specification *)

Definition uint8 : PrimitiveType :=
  {| kind := KIND_UNSIGNED_INT; bitlen := 8; cast_mode := CAST_MODE_SATURATED |}.

(** The message [ns.Foo] with one field of type [uint8] and the constant
    [A = 5]. *)
Definition ns_Foo : CompoundType :=
  {| full_name := "ns.Foo"; default_dtid := None;
     body := Message [parsed_field "x" (Primitive uint8)]
                     [parsed_constant "A" uint8 "5" 5] |}.

(** A message with a field of type [ns.Foo]. *)
Definition ns_Uses_Foo : CompoundType :=
  {| full_name := "ns.UsesFoo"; default_dtid := None;
     body := Message [parsed_field "foo" (Compound "ns.Foo")] [] |}.

(** * Properties *)

#[local] Arguments String.append !s1 s2 : simpl nomatch.

(** ** Strings *)

Lemma append_cancel_l (p a b : string) : p ++ a = p ++ b -> a = b.
Proof. induction p as [|x p IH]; simpl; [done | intros [= H]; auto]. Qed.

Lemma append_length (a b : string) :
  String.length (a ++ b) = (String.length a + String.length b)%nat.
Proof. induction a as [|x a IH]; simpl; [done | by rewrite IH]. Qed.

Lemma append_cancel_r (a b q : string) : a ++ q = b ++ q -> a = b.
Proof.
  revert b. induction a as [|x a IH]; intros [|y b] H; simpl in *.
  - done.
  - apply (f_equal String.length) in H. simpl in H.
    rewrite append_length in H. lia.
  - apply (f_equal String.length) in H. simpl in H.
    rewrite append_length in H. lia.
  - injection H as -> H. f_equal. by apply IH.
Qed.

Lemma prefix_nil (s : string) : String.prefix "" s = true.
Proof. by destruct s. Qed.

Lemma prefix_cons (a b : ascii) (s1 s2 : string) :
  String.prefix (String a s1) (String b s2)
  = Ascii.eqb a b && String.prefix s1 s2.
Proof.
  simpl. destruct (ascii_dec a b) as [->|Hne].
  - by rewrite Ascii.eqb_refl.
  - by rewrite (proj2 (Ascii.eqb_neq a b)).
Qed.

Lemma fmt_d_inj (n m : Z) : Py.fmt_d n = Py.fmt_d m -> n = m.
Proof.
  unfold Py.fmt_d. intros H.
  apply (f_equal NilEmpty.int_of_string) in H.
  rewrite !NilEmpty.isi in H.
  injection H as H.
  by apply DecimalZ.to_int_inj.
Qed.

Lemma split_nonempty (c : ascii) (s : string) : Py.split c s <> [].
Proof.
  induction s as [|d s IH]; simpl; [done |].
  destruct (Ascii.eqb d c); [done |].
  by destruct (Py.split c s).
Qed.

Lemma join_cons_char (sep : string) (d : ascii) (p : string) (ps : list string) :
  Py.join sep (String d p :: ps) = String d (Py.join sep (p :: ps)).
Proof. by destruct ps. Qed.

(** Replacing a single character is joining the pieces between its
    occurrences. *)
Lemma replace_char_join_split (c : ascii) (new s : string) :
  Py.replace (String c "") new s = Py.join new (Py.split c s).
Proof.
  unfold Py.replace.
  induction s as [|d s IH]; [done |].
  cbn [Py.replace_from Py.split String.length Nat.sub].
  rewrite prefix_cons, prefix_nil, andb_true_r, (Ascii.eqb_sym c d), IH.
  destruct (Ascii.eqb d c) eqn:Hdc;
    destruct (Py.split c s) eqn:E; try by apply split_nonempty in E.
  - reflexivity.
  - by rewrite join_cons_char.
Qed.

Lemma append_assoc (a b c : string) : (a ++ b) ++ c = a ++ (b ++ c).
Proof. induction a as [|x a IH]; cbn [String.append]; [done | by rewrite IH]. Qed.

Lemma count_char_app (c : ascii) (a b : string) :
  count_char c (a ++ b) = (count_char c a + count_char c b)%nat.
Proof.
  induction a as [|d a IH]; [done |].
  simpl String.append. cbn [count_char]. destruct (Ascii.eqb d c); lia.
Qed.

Lemma count_char_cons (c d : ascii) (s : string) :
  count_char c (String d s)
  = ((if Ascii.eqb d c then 1 else 0) + count_char c s)%nat.
Proof. cbn [count_char]. by destruct (Ascii.eqb d c). Qed.

Ltac count_chars :=
  repeat (rewrite count_char_cons || rewrite count_char_app).

Lemma string_of_uint_count (c : ascii) (d : Decimal.uint) :
  Py.is_digit c = false -> count_char c (NilEmpty.string_of_uint d) = O.
Proof.
  intros Hc.
  induction d as [|d IH|d IH|d IH|d IH|d IH|d IH|d IH|d IH|d IH|d IH];
    [done | ..]; cbn [NilEmpty.string_of_uint count_char]; rewrite IH;
    match goal with
    | |- (if Ascii.eqb ?a c then _ else _) = _ =>
        destruct (Ascii.eqb_spec a c) as [<- |]; [done | done]
    end.
Qed.

Lemma fmt_d_count (c : ascii) (n : Z) :
  Py.is_digit c = false -> c <> "-"%char -> count_char c (Py.fmt_d n) = O.
Proof.
  intros Hc Hm. unfold Py.fmt_d, NilEmpty.string_of_int.
  destruct (Z.to_int n) as [d | d].
  - by apply string_of_uint_count.
  - cbn [count_char]. rewrite (proj2 (Ascii.eqb_neq "-" c)) by congruence.
    by apply string_of_uint_count.
Qed.

Lemma split_at_first (c : ascii) (a b x y : string) :
  count_char c a = O -> count_char c b = O ->
  a ++ String c x = b ++ String c y -> a = b /\ x = y.
Proof.
  revert b. induction a as [|d a IH]; intros [|e b] Ha Hb H;
    simpl String.append in H; cbn [count_char] in Ha, Hb.
  - by injection H as ->.
  - injection H as <- _. by rewrite Ascii.eqb_refl in Hb.
  - injection H as -> _. by rewrite Ascii.eqb_refl in Ha.
  - injection H as -> H.
    destruct (Ascii.eqb e c); [done |].
    destruct (IH b Ha Hb H) as [-> ->]. done.
Qed.

(** As [split_at_first], at the last occurrence. *)
Lemma split_at_last (c : ascii) (a b x y : string) :
  count_char c x = O -> count_char c y = O ->
  a ++ String c x = b ++ String c y -> a = b /\ x = y.
Proof.
  intros Hx Hy. revert b. induction a as [|d a IH]; intros [|e b] H;
    simpl String.append in H.
  - by injection H as ->.
  - injection H as <- ->. rewrite count_char_app, count_char_cons in Hx.
    rewrite Ascii.eqb_refl in Hx. lia.
  - injection H as -> <-. rewrite count_char_app, count_char_cons in Hy.
    rewrite Ascii.eqb_refl in Hy. lia.
  - injection H as -> H. destruct (IH b H) as [-> ->]. done.
Qed.

(** ** The type mapper *)

Lemma type_to_cpp_type_array (value_type : SchemaType) (mode : ArrayMode)
    (max_size : Z) :
  type_to_cpp_type (Array value_type mode max_size) =
    match type_to_cpp_type value_type with
    | Ok d => Ok ("::uavcan::Array<" ++ d ++ ", " ++ array_mode_cpp mode
                    ++ ", " ++ Py.fmt_d max_size ++ ">")
    | Raise e => Raise e
    end.
Proof. reflexivity. Qed.

Lemma type_to_cpp_type_primitive (p : PrimitiveType) :
  succeeds (type_to_cpp_type (Primitive p)) = true.
Proof. simpl. by destruct (kind p). Qed.

Lemma succeeds_Ok {A} (r : Result A) : succeeds r = true -> exists a, r = Ok a.
Proof. destruct r; [eauto | done]. Qed.

(** A type of a recognized category on which the mapper raises: an array
    whose element type has none of the three categories. *)
Lemma type_to_cpp_type_array_of_foreign :
  recognized (category (Array (Foreign "7") MODE_STATIC 1)) = true
  /\ type_to_cpp_type (Array (Foreign "7") MODE_STATIC 1)
     = Raise (DsdlCompilerException "Unknown type category: 7").
Proof. split; reflexivity. Qed.

(** C6, as the code has it: the mapper raises [DsdlCompilerException]
    with the unknown category in its message exactly when the type under
    the arrays of [t] has none of the three categories; for a primitive, a
    compound, and an array over one of them it returns a descriptor. *)
Theorem type_to_cpp_type_unknown_category (t : SchemaType) :
  match category (innermost t) with
  | CATEGORY_OTHER shown =>
      type_to_cpp_type t
      = Raise (DsdlCompilerException ("Unknown type category: " ++ shown))
  | _ => succeeds (type_to_cpp_type t) = true
  end.
Proof.
  induction t as [p | value_type IH mode max_size | full_name | shown].
  - apply type_to_cpp_type_primitive.
  - rewrite type_to_cpp_type_array. cbn [innermost].
    destruct (category (innermost value_type));
      try (apply succeeds_Ok in IH as [d ->]; reflexivity).
    by rewrite IH.
  - reflexivity.
  - reflexivity.
Qed.

(** The three parameters of an array descriptor can be read off it. *)
Lemma array_descriptor_inj (d1 d2 : string) (m1 m2 : ArrayMode) (n1 n2 : Z) :
  "::uavcan::Array<" ++ d1 ++ ", " ++ array_mode_cpp m1 ++ ", "
    ++ Py.fmt_d n1 ++ ">"
  = "::uavcan::Array<" ++ d2 ++ ", " ++ array_mode_cpp m2 ++ ", "
      ++ Py.fmt_d n2 ++ ">" ->
  d1 = d2 /\ m1 = m2 /\ n1 = n2.
Proof.
  intros H. apply append_cancel_l in H.
  assert (forall d M F,
            d ++ ", " ++ M ++ ", " ++ F ++ ">"
            = (d ++ ", " ++ M ++ ",") ++ String " " (F ++ ">")) as Hshape
    by (intros; by rewrite !append_assoc).
  rewrite !Hshape in H.
  apply split_at_last in H as [H Hn];
    try (rewrite count_char_app, fmt_d_count; done).
  apply append_cancel_r, fmt_d_inj in Hn as ->.
  assert (forall d M, d ++ ", " ++ M ++ "," = (d ++ ",") ++ String " " (M ++ ","))
    as Hshape' by (intros; by rewrite !append_assoc).
  rewrite !Hshape' in H.
  apply split_at_last in H as [Hd Hm]; [| by destruct m1 | by destruct m2].
  apply append_cancel_r in Hd as ->.
  by destruct m1, m2.
Qed.

(** C8: an array maps to the array descriptor over the descriptor of its
    element type, the name of its mode and [max_size] printed as it is;
    the three can be read off the descriptor, so that arrays that differ
    in the element descriptor, in the mode or in [max_size] have different
    descriptors.  A compound maps to its name components joined by [::],
    from the global scope. *)
Theorem type_to_cpp_type_array_compound (value_type : SchemaType)
    (mode : ArrayMode) (max_size : Z) (full_name : string) :
  type_to_cpp_type (Array value_type mode max_size)
  = match type_to_cpp_type value_type with
    | Ok d => Ok ("::uavcan::Array<" ++ d ++ ", "
                    ++ match mode with
                       | MODE_STATIC => "::uavcan::ArrayModeStatic"
                       | MODE_DYNAMIC => "::uavcan::ArrayModeDynamic"
                       end
                    ++ ", " ++ Py.fmt_d max_size ++ ">")
    | Raise e => Raise e
    end
  /\ (forall value_type' mode' max_size',
        succeeds (type_to_cpp_type value_type) = true ->
        type_to_cpp_type (Array value_type' mode' max_size')
        = type_to_cpp_type (Array value_type mode max_size) ->
        type_to_cpp_type value_type' = type_to_cpp_type value_type
        /\ mode' = mode /\ max_size' = max_size)
  /\ type_to_cpp_type (Compound full_name)
     = Ok ("::" ++ Py.join "::" (Py.split "." full_name)).
Proof.
  split; [reflexivity | split].
  - intros value_type' mode' max_size' [d Hd]%succeeds_Ok.
    rewrite !type_to_cpp_type_array, Hd.
    destruct (type_to_cpp_type value_type') as [d' |]; [| done].
    intros [= H].
    by destruct (array_descriptor_inj d' d mode' mode max_size' max_size
                   (f_equal (String.append "::uavcan::Array<") H))
      as (-> & -> & ->).
  - cbn [type_to_cpp_type].
    by rewrite (replace_char_join_split "." "::" full_name).
Qed.

Lemma type_to_cpp_type_array_compound_witness :
  type_to_cpp_type (Array (Compound "ns.X") MODE_DYNAMIC 4)
  = Ok "::uavcan::Array<::ns::X, ::uavcan::ArrayModeDynamic, 4>"
  /\ (type_to_cpp_type (Compound "ns.X") = type_to_cpp_type (Compound "ns.X")
      /\ MODE_DYNAMIC = MODE_DYNAMIC /\ 4 = 4)%Z
  /\ type_to_cpp_type (Compound "a.b.Foo") = Ok "::a::b::Foo".
Proof.
  destruct (type_to_cpp_type_array_compound
              (Compound "ns.X") MODE_DYNAMIC 4 "a.b.Foo") as (H1 & H2 & H3).
  split; [exact H1 | split; [| exact H3]].
  apply (H2 (Compound "ns.X") MODE_DYNAMIC 4%Z); reflexivity.
Defined.

(** ** The constant pass *)

Lemma inject_constant_info_step_integer (c : Constant) :
  kind (const_type c) <> KIND_FLOAT ->
  inject_constant_info_step c
  = (set_cpp_value (string_value c)
       (set_cpp_use_enum ((0 <=? value c)%Z
                          && (bitlen (const_type c) <=? MAX_BITLEN_FOR_ENUM)%Z) c),
     None).
Proof. unfold inject_constant_info_step. by destruct (kind (const_type c)). Qed.

Lemma inject_constant_info_step_float (c : Constant) :
  kind (const_type c) = KIND_FLOAT ->
  inject_constant_info_step c
  = match dict_get (string_value c) (special_values c) with
    | Some v => (set_cpp_value v (set_cpp_use_enum false c), None)
    | None =>
        if Py.float_accepts (string_value c)
        then (set_cpp_value (string_value c) (set_cpp_use_enum false c), None)
        else (set_cpp_use_enum false c, Some (ValueError (string_value c)))
    end.
Proof. unfold inject_constant_info_step. by intros ->. Qed.

(** Over constants that are not floats the loop runs to its end. *)
Lemma inject_constant_info_integers (cs : list Constant) :
  Forall (fun c => kind (const_type c) <> KIND_FLOAT) cs ->
  inject_constant_info cs
  = (List.map (fun c => fst (inject_constant_info_step c)) cs, None).
Proof.
  induction 1 as [|c cs Hc _ IH]; [done |].
  cbn [inject_constant_info List.map].
  rewrite IH, (inject_constant_info_step_integer c Hc). reflexivity.
Qed.

(** The loop goes on behind a list of constants on which it raises
    nothing. *)
Lemma inject_constant_info_app (before after : list Constant) :
  snd (inject_constant_info before) = None ->
  inject_constant_info (before ++ after)
  = ((fst (inject_constant_info before)
        ++ fst (inject_constant_info after))%list,
     snd (inject_constant_info after)).
Proof.
  induction before as [|b before IH]; intros Hb.
  - cbn. by destruct (inject_constant_info after).
  - cbn [app inject_constant_info] in *.
    destruct (inject_constant_info_step b) as [b' [e |]]; [done |].
    destruct (inject_constant_info before) as [bs e]. cbn [fst snd] in *.
    by rewrite (IH Hb).
Qed.

Lemma inject_constant_info_length (constants : list Constant) :
  length (fst (inject_constant_info constants)) = length constants.
Proof.
  induction constants as [|c cs IH]; [done |]. cbn [inject_constant_info].
  destruct (inject_constant_info_step c) as [c' [e |]]; [done |].
  destruct (inject_constant_info cs) as [cs' e]. cbn [fst length] in *.
  by rewrite IH.
Qed.

(** What the loop does with the constant that it gets to. *)
Lemma inject_constant_info_reaches (before : list Constant) (c : Constant)
    (after : list Constant) :
  snd (inject_constant_info before) = None ->
  fst (inject_constant_info (before ++ c :: after)) !! length before
  = Some (fst (inject_constant_info_step c))
  /\ snd (inject_constant_info (before ++ [c]))
     = snd (inject_constant_info_step c).
Proof.
  intros Hb. rewrite !(inject_constant_info_app before) by done.
  cbn [fst snd]. split.
  - rewrite lookup_app_r by (rewrite inject_constant_info_length; lia).
    rewrite inject_constant_info_length, Nat.sub_diag.
    cbn [inject_constant_info].
    destruct (inject_constant_info_step c) as [c' [e |]]; [done |].
    by destruct (inject_constant_info after).
  - cbn [inject_constant_info].
    by destruct (inject_constant_info_step c) as [c' [e |]].
Qed.

(** C4: the pass gives a constant of boolean or integer kind that it gets
    to the flag [cpp_use_enum], raises nothing at it, and the flag is true
    exactly when the value is not negative and the bit length is at most
    31; so it is true for bit length 31 and value 0, false for bit length
    32 and value 0, and false for value -1. *)
Theorem cpp_use_enum_integer (before : list Constant) (c : Constant)
    (after : list Constant) :
  snd (inject_constant_info before) = None ->
  kind (const_type c) <> KIND_FLOAT ->
  exists c',
    fst (inject_constant_info (before ++ c :: after)) !! length before
    = Some c'
    /\ snd (inject_constant_info (before ++ [c])) = None
    /\ (exists b, cpp_use_enum c' = Some b
          /\ (b = true <-> (0 <= value c /\ bitlen (const_type c) <= 31)%Z))
    /\ (value c = 0%Z -> bitlen (const_type c) = 31%Z ->
        cpp_use_enum c' = Some true)
    /\ (value c = 0%Z -> bitlen (const_type c) = 32%Z ->
        cpp_use_enum c' = Some false)
    /\ (value c = (-1)%Z -> cpp_use_enum c' = Some false).
Proof.
  intros Hb Hk.
  destruct (inject_constant_info_reaches before c after Hb) as [H1 H2].
  rewrite (inject_constant_info_step_integer c Hk) in H1, H2.
  eexists. split; [exact H1 | split; [exact H2 |]].
  cbn [fst snd set_cpp_value set_cpp_use_enum cpp_use_enum].
  unfold MAX_BITLEN_FOR_ENUM.
  split; [| split; [| split]].
  - eexists; split; [reflexivity |].
    rewrite andb_true_iff, Z.leb_le, Z.leb_le. reflexivity.
  - by intros -> ->.
  - by intros -> ->.
  - by intros ->.
Qed.

Lemma cpp_use_enum_integer_witness :
  exists c',
    fst (inject_constant_info
           [ parsed_constant "A" uint8 "5" 5;
             parsed_constant "B"
               {| kind := KIND_SIGNED_INT; bitlen := 31;
                  cast_mode := CAST_MODE_SATURATED |} "0" 0;
             parsed_constant "C" uint8 "7" 7 ]) !! 1%nat = Some c'
    /\ cpp_use_enum c' = Some true.
Proof.
  destruct (cpp_use_enum_integer
              [parsed_constant "A" uint8 "5" 5]
              (parsed_constant "B"
                 {| kind := KIND_SIGNED_INT; bitlen := 31;
                    cast_mode := CAST_MODE_SATURATED |} "0" 0)
              [parsed_constant "C" uint8 "7" 7])
    as (c' & H1 & _ & _ & H2 & _).
  - reflexivity.
  - discriminate.
  - exists c'. split; [exact H1 | apply H2; reflexivity].
Defined.

Lemma dict_get_special_values (c : Constant) (literal : string) :
  dict_get literal (special_values c)
  = if String.eqb literal "inf" then Some (numeric_limits_inf c)
    else if String.eqb literal "+inf" then Some (numeric_limits_inf c)
    else if String.eqb literal "-inf" then Some ("-" ++ numeric_limits_inf c)
    else if String.eqb literal "nan" then Some (numeric_limits c ++ "::quiet_NaN()")
    else None.
Proof. reflexivity. Qed.

(** C5: the pass gives a constant of kind float that it gets to the flag
    [cpp_use_enum] false, whatever the literal is; for the literals [inf]
    and [+inf] the value is the same infinity expression, for [-inf] that
    expression behind a minus sign, for [nan] the quiet-NaN expression, and
    nothing is raised at them. *)
Theorem float_constant_special_values (before : list Constant) (c : Constant)
    (after : list Constant) :
  snd (inject_constant_info before) = None ->
  kind (const_type c) = KIND_FLOAT ->
  exists c',
    fst (inject_constant_info (before ++ c :: after)) !! length before
    = Some c'
    /\ cpp_use_enum c' = Some false
    /\ (string_value c = "inf" \/ string_value c = "+inf" ->
        c' = set_cpp_value (numeric_limits_inf c) (set_cpp_use_enum false c)
        /\ snd (inject_constant_info (before ++ [c])) = None)
    /\ (string_value c = "-inf" ->
        c' = set_cpp_value ("-" ++ numeric_limits_inf c)
               (set_cpp_use_enum false c)
        /\ snd (inject_constant_info (before ++ [c])) = None)
    /\ (string_value c = "nan" ->
        c' = set_cpp_value (numeric_limits c ++ "::quiet_NaN()")
               (set_cpp_use_enum false c)
        /\ snd (inject_constant_info (before ++ [c])) = None).
Proof.
  intros Hb Hk.
  destruct (inject_constant_info_reaches before c after Hb) as [H1 H2].
  rewrite (inject_constant_info_step_float c Hk) in H1, H2.
  eexists. split; [exact H1 |]. rewrite H2. clear H1 H2.
  split; [| split; [| split]].
  - destruct (dict_get _ _); [reflexivity |].
    by destruct (Py.float_accepts _).
  - by intros [-> | ->].
  - by intros ->.
  - by intros ->.
Qed.

Lemma float_constant_special_values_witness :
  exists c',
    fst (inject_constant_info
           [ parsed_constant "A" uint8 "5" 5;
             parsed_constant "B"
               {| kind := KIND_FLOAT; bitlen := 32;
                  cast_mode := CAST_MODE_SATURATED |} "+inf" 0 ]) !! 1%nat
    = Some c'
    /\ cpp_use_enum c' = Some false
    /\ cpp_value c'
       = Some "::std::numeric_limits<typename ::uavcan::StorageType<typename ConstantTypes::B>::Type>::infinity()".
Proof.
  destruct (float_constant_special_values
              [parsed_constant "A" uint8 "5" 5]
              (parsed_constant "B"
                 {| kind := KIND_FLOAT; bitlen := 32;
                    cast_mode := CAST_MODE_SATURATED |} "+inf" 0) [])
    as (c' & H1 & H2 & H3 & _).
  - reflexivity.
  - reflexivity.
  - exists c'. split; [exact H1 | split; [exact H2 |]].
    destruct (H3 (or_intror eq_refl)) as [-> _]. reflexivity.
Defined.

(** C3 at the failing input: the literal of a float constant is looked up
    in the table as it is written, so only the four keys in lower case are
    found, and for a literal that is not found and that [float] refuses the
    pass stops with [ValueError]; but [float] takes [inf] and [nan] in any
    case, so at the literal [INF] the pass raises nothing and hands [INF]
    on as the value. *)
Theorem float_constant_literal (before : list Constant) (c : Constant)
    (after : list Constant) :
  snd (inject_constant_info before) = None ->
  kind (const_type c) = KIND_FLOAT ->
  (is_Some (dict_get (string_value c) (special_values c))
   <-> string_value c ∈ ["inf"; "+inf"; "-inf"; "nan"])
  /\ (dict_get (string_value c) (special_values c) = None ->
      Py.float_accepts (string_value c) = false ->
      inject_constant_info (before ++ c :: after)
      = ((fst (inject_constant_info before)
            ++ set_cpp_use_enum false c :: after)%list,
         Some (ValueError (string_value c))))
  /\ (string_value c = "INF" ->
      dict_get (string_value c) (special_values c) = None
      /\ fst (inject_constant_info (before ++ c :: after)) !! length before
         = Some (set_cpp_value "INF" (set_cpp_use_enum false c))
      /\ snd (inject_constant_info (before ++ [c])) = None).
Proof.
  intros Hb Hk. split; [| split].
  - rewrite dict_get_special_values.
    generalize (string_value c). intros literal.
    rewrite !elem_of_cons, elem_of_nil.
    destruct (String.eqb_spec literal "inf");
      [split; [tauto | intros _; by eexists] |].
    destruct (String.eqb_spec literal "+inf");
      [split; [tauto | intros _; by eexists] |].
    destruct (String.eqb_spec literal "-inf");
      [split; [tauto | intros _; by eexists] |].
    destruct (String.eqb_spec literal "nan");
      [split; [tauto | intros _; by eexists] |].
    split; [intros [? [=]] | intros [?|[?|[?|[?|[]]]]]; congruence].
  - intros Hd Hf. rewrite (inject_constant_info_app before) by done.
    cbn [inject_constant_info].
    rewrite (inject_constant_info_step_float c Hk), Hd, Hf. reflexivity.
  - intros Hs.
    destruct (inject_constant_info_reaches before c after Hb) as [H1 H2].
    rewrite (inject_constant_info_step_float c Hk), Hs in H1, H2.
    rewrite Hs. by repeat split.
Qed.

Lemma float_constant_literal_witness :
  let inf := parsed_constant "B" {| kind := KIND_FLOAT; bitlen := 32;
                                    cast_mode := CAST_MODE_SATURATED |}
               "INF" 0 in
  fst (inject_constant_info [parsed_constant "A" uint8 "5" 5; inf]) !! 1%nat
  = Some (set_cpp_value "INF" (set_cpp_use_enum false inf))
  /\ snd (inject_constant_info [parsed_constant "A" uint8 "5" 5; inf]) = None.
Proof.
  apply (proj2 (proj2 (proj2 (float_constant_literal
           [parsed_constant "A" uint8 "5" 5]
           (parsed_constant "B" {| kind := KIND_FLOAT; bitlen := 32;
                                   cast_mode := CAST_MODE_SATURATED |} "INF" 0)
           [] eq_refl eq_refl)) eq_refl)).
Defined.

(** ** The dependency collector *)

Lemma include_of_filter (x : Attribute) :
  if is_compound (attr_type x)
  then exists inc, include_of x = Some inc
                   /\ type_output_filename (attr_type x) = Ok inc
  else include_of x = None.
Proof.
  unfold is_compound, include_of.
  destruct (attr_type x); cbn [category]; eauto.
Qed.

Lemma fields_includes_eq (fields : list Attribute) :
  fields_includes fields = Ok (list_to_set (omap include_of fields)).
Proof.
  unfold fields_includes.
  assert (mapM (fun x => type_output_filename (attr_type x))
               (List.filter (fun x => is_compound (attr_type x)) fields)
          = Ok (omap include_of fields)) as ->; [| reflexivity].
  induction fields as [|x fields IH]; [reflexivity |].
  cbn [List.filter].
  change (omap include_of (x :: fields))
    with (match include_of x with
          | Some inc => inc :: omap include_of fields
          | None => omap include_of fields
          end).
  pose proof (include_of_filter x) as Hx.
  destruct (is_compound (attr_type x)).
  - destruct Hx as (inc & -> & Hinc).
    cbn [mapM]. by rewrite Hinc, IH.
  - by rewrite Hx.
Qed.

Lemma include_of_Some (x : Attribute) (inc : string) :
  include_of x = Some inc
  <-> exists full_name,
        attr_type x = Compound full_name
        /\ type_output_filename (Compound full_name) = Ok inc.
Proof.
  unfold include_of. split.
  - destruct (attr_type x); try done. intros [= <-]. eauto.
  - intros (fn & -> & [= <-]). reflexivity.
Qed.

(** C1 at the failing input: a field whose type is an array contributes
    nothing, whatever its element type is, while a field of the compound
    type itself contributes the include of that type. *)
Theorem fields_includes_skips_arrays (name : string) (value_type : SchemaType)
    (mode : ArrayMode) (max_size : Z) (fields : list Attribute) :
  fields_includes (parsed_field name (Array value_type mode max_size) :: fields)
  = fields_includes fields
  /\ fields_includes
       [parsed_field "arr" (Array (Compound "ns.X") MODE_DYNAMIC 4)] = Ok ∅
  /\ fields_includes [parsed_field "x" (Compound "ns.X")] = Ok {["ns/X.hpp"]}.
Proof.
  rewrite !fields_includes_eq. split; [reflexivity | split; reflexivity].
Qed.

(** C7: the collector returns a set, which holds the include of each
    compound type among the fields once however many fields have that
    type, and which is the same for every order of the fields; two fields
    of compound type [ns.X] and a primitive one give the one include of
    [ns.X]. *)
Theorem fields_includes_set (fields fields' : list Attribute) :
  fields ≡ₚ fields' ->
  exists S : gset string,
    fields_includes fields = Ok S
    /\ fields_includes fields' = Ok S
    /\ NoDup (elements S)
    /\ (forall inc, inc ∈ elements S <->
          exists x full_name,
            x ∈ fields /\ attr_type x = Compound full_name
            /\ type_output_filename (Compound full_name) = Ok inc)
    /\ fields_includes
         [ parsed_field "FieldA" (Compound "ns.X");
           parsed_field "FieldB" (Compound "ns.X");
           parsed_field "FieldC"
             (Primitive {| kind := KIND_UNSIGNED_INT; bitlen := 8;
                           cast_mode := CAST_MODE_SATURATED |}) ]
       = Ok {["ns/X.hpp"]}.
Proof.
  intros Hperm. exists (list_to_set (omap include_of fields)).
  split; [apply fields_includes_eq |].
  split; [rewrite fields_includes_eq; apply (f_equal Ok);
          apply list_to_set_perm_L; by rewrite Hperm |].
  split; [apply NoDup_elements |].
  split.
  - intros inc. rewrite elem_of_elements, elem_of_list_to_set, list_elem_of_omap.
    split.
    + intros (x & Hx & (fn & ? & ?)%include_of_Some). eauto.
    + intros (x & fn & Hx & ? & ?). exists x. split; [done |].
      apply include_of_Some. eauto.
  - rewrite fields_includes_eq. apply (f_equal Ok).
    apply set_eq. intros inc.
    rewrite elem_of_list_to_set, elem_of_singleton.
    cbn [omap list_omap parsed_field include_of attr_type].
    change (Py.replace "." Py.os_path_sep "ns.X" ++ "." ++ CPP_HEADER_EXTENSION)
      with "ns/X.hpp".
    rewrite !elem_of_cons, elem_of_nil. tauto.
Qed.

Lemma fields_includes_set_witness :
  exists S : gset string,
    fields_includes [ parsed_field "a" (Compound "ns.X");
                      parsed_field "b" (Compound "ns.Y") ] = Ok S
    /\ fields_includes [ parsed_field "b" (Compound "ns.Y");
                         parsed_field "a" (Compound "ns.X") ] = Ok S.
Proof.
  destruct (fields_includes_set
              [ parsed_field "a" (Compound "ns.X");
                parsed_field "b" (Compound "ns.Y") ]
              [ parsed_field "b" (Compound "ns.Y");
                parsed_field "a" (Compound "ns.X") ]
              (perm_swap _ _ _)) as (S & H1 & H2 & _).
  exists S. split; assumption.
Defined.

(** ** The file writer *)

Section Writer.

Variable render : Annotated -> Result string.
Variable fs : list FsOp -> FsOp -> option Exception.

(** Where [run_generator] places the file of a type. *)
Lemma type_output_filename_compound (t : CompoundType) :
  type_output_filename (as_type t)
  = Ok (Py.join Py.os_path_sep (Py.split "." (full_name t))
          ++ "." ++ CPP_HEADER_EXTENSION).
Proof.
  unfold as_type, type_output_filename.
  by rewrite (replace_char_join_split "." Py.os_path_sep).
Qed.

(** One round of the loop. *)
Lemma run_generator_loop_cons (root : string) (log : list FsOp)
    (t : CompoundType) (ts : list CompoundType) :
  run_generator_loop render fs root log (t :: ts)
  = let file_path := file_path_of root t in
    let dir_path := Py.os_path_dirname file_path in
    match fs log (Makedirs dir_path) with
    | Some e => ([], Some e)
    | None =>
        match generate_one_type render t with
        | Raise e => ([Makedirs dir_path], Some e)
        | Ok text =>
            match fs (log ++ [Makedirs dir_path]) (WriteFile file_path text) with
            | Some e => ([Makedirs dir_path], Some e)
            | None =>
                (Makedirs dir_path :: WriteFile file_path text
                   :: fst (run_generator_loop render fs root
                             (log ++ [Makedirs dir_path;
                                      WriteFile file_path text]) ts),
                 snd (run_generator_loop render fs root
                        (log ++ [Makedirs dir_path;
                                 WriteFile file_path text]) ts))
            end
        end
    end.
Proof.
  cbn [run_generator_loop as_type type_output_filename]. cbn zeta.
  fold (file_path_of root t).
  destruct (fs log _); [done |].
  destruct (generate_one_type render t); [| done].
  destruct (fs (log ++ _) _); [done |].
  by destruct (run_generator_loop _ _ _ _ _).
Qed.

Lemma run_generator_eq (cwd : string) (types : list CompoundType)
    (dest_dir : string) :
  run_generator render fs cwd types dest_dir
  = let root := Py.os_path_abspath cwd dest_dir in
    match fs [] (Makedirs root) with
    | Some e => ([], Some e)
    | None =>
        (Makedirs root :: fst (run_generator_loop render fs root
                                 [Makedirs root] types),
         snd (run_generator_loop render fs root [Makedirs root] types))
    end.
Proof.
  unfold run_generator. cbn zeta. destruct (fs [] _); [done |].
  by destruct (run_generator_loop _ _ _ _ _).
Qed.

Lemma file_path_of_eq (root : string) (t : CompoundType) :
  file_path_of root t
  = Py.os_path_join root
      (Py.join Py.os_path_sep (Py.split "." (full_name t))
         ++ "." ++ CPP_HEADER_EXTENSION).
Proof.
  unfold file_path_of. by rewrite (replace_char_join_split "." Py.os_path_sep).
Qed.

Lemma run_generator_loop_paths (root : string) (log : list FsOp)
    (types : list CompoundType) :
  exists k,
    written_paths (fst (run_generator_loop render fs root log types))
    = List.map (fun t => Py.os_path_join root
                           (Py.join Py.os_path_sep (Py.split "." (full_name t))
                              ++ "." ++ CPP_HEADER_EXTENSION))
        (take k types)
    /\ (snd (run_generator_loop render fs root log types) = None ->
        k = length types).
Proof.
  revert log. induction types as [|t ts IH]; intros log.
  - exists 0%nat. by split.
  - rewrite run_generator_loop_cons. cbn zeta.
    destruct (fs log _); [by exists 0%nat |].
    destruct (generate_one_type render t) as [text | e];
      [| by exists 0%nat].
    destruct (fs (log ++ _) _); [by exists 0%nat |].
    destruct (IH (log ++ [Makedirs (Py.os_path_dirname (file_path_of root t));
                          WriteFile (file_path_of root t) text])%list)
      as (k & IH1 & IH2).
    exists (S k). cbn [fst snd]. split.
    + cbn [written_paths omap list_omap take List.map].
      rewrite <- file_path_of_eq. f_equal. exact IH1.
    + intros H. cbn [length]. f_equal. by apply IH2.
Qed.

Lemma run_generator_loop_writes (root : string) (log : list FsOp)
    (types : list CompoundType) (t : CompoundType) :
  snd (run_generator_loop render fs root log types) = None ->
  t ∈ types ->
  exists name text,
    type_output_filename (as_type t) = Ok name
    /\ generate_one_type render t = Ok text
    /\ WriteFile (Py.os_path_join root name) text
       ∈ fst (run_generator_loop render fs root log types).
Proof.
  revert log. induction types as [|t' ts IH]; intros log Hok Hin.
  - by apply elem_of_nil in Hin.
  - rewrite run_generator_loop_cons in *. cbn zeta in *.
    destruct (fs log _); [done |].
    destruct (generate_one_type render t') as [text | e] eqn:Htext; [| done].
    destruct (fs (log ++ _) _); [done |].
    cbn [fst snd] in *.
    apply elem_of_cons in Hin as [-> | Hin].
    + exists (Py.replace "." Py.os_path_sep (full_name t')
                ++ "." ++ CPP_HEADER_EXTENSION), text.
      repeat split; try done.
      apply elem_of_cons; right. apply elem_of_cons; by left.
    + destruct (IH _ Hok Hin) as (name' & text' & ? & ? & ?).
      exists name', text'. repeat split; try done.
      apply elem_of_cons; right. apply elem_of_cons; by right.
Qed.

End Writer.

(** The joined path lies under the root when the name starts with neither
    a dot nor a separator. *)
Lemma os_path_join_under_root (root full_name : string) :
  Py.startswith full_name "." = false ->
  Py.startswith full_name "/" = false ->
  root <> "" -> Py.endswith root "/" = false ->
  Py.os_path_join root
    (Py.join Py.os_path_sep (Py.split "." full_name)
       ++ "." ++ CPP_HEADER_EXTENSION)
  = root ++ "/" ++ Py.join "/" (Py.split "." full_name) ++ ".hpp".
Proof.
  unfold Py.startswith, Py.os_path_join. intros Hdot Hslash Hroot Hend.
  rewrite Hend, orb_false_r.
  assert (String.eqb root "" = false) as -> by by apply String.eqb_neq.
  unfold Py.startswith.
  assert (String.prefix "/"
            (Py.join Py.os_path_sep (Py.split "." full_name)
               ++ "." ++ CPP_HEADER_EXTENSION) = false) as ->; [| done].
  rewrite <- (replace_char_join_split "." Py.os_path_sep).
  destruct full_name as [|c s]; [done |].
  rewrite prefix_cons, prefix_nil, andb_true_r in Hdot, Hslash.
  unfold Py.replace. cbn [Py.replace_from].
  rewrite prefix_cons, prefix_nil, andb_true_r, Hdot.
  simpl String.append. by rewrite prefix_cons, Hslash.
Qed.

(** C9: the files are written, in the order of the types and up to the
    first exception, to the absolute destination directory joined by
    [os.path.join] with the components of [full_name], which have the path
    separator between them, and the extension; all of them when nothing
    is raised.  For a name that starts with neither a dot nor a separator
    that is the root, a separator and the relative name.  The type
    [ns.Foo] is written to [outdir/ns/Foo.hpp] under the working
    directory. *)
Theorem run_generator_file_paths (render : Annotated -> Result string)
    (fs : list FsOp -> FsOp -> option Exception)
    (cwd : string) (types : list CompoundType) (dest_dir : string) :
  (exists k,
     written_paths (fst (run_generator render fs cwd types dest_dir))
     = List.map (fun t => Py.os_path_join (Py.os_path_abspath cwd dest_dir)
                            (Py.join Py.os_path_sep
                               (Py.split "." (full_name t))
                               ++ "." ++ CPP_HEADER_EXTENSION))
         (take k types)
     /\ (snd (run_generator render fs cwd types dest_dir) = None ->
         k = length types))
  /\ (forall t root,
        Py.startswith (full_name t) "." = false ->
        Py.startswith (full_name t) "/" = false ->
        root <> "" -> Py.endswith root "/" = false ->
        Py.os_path_join root
          (Py.join Py.os_path_sep (Py.split "." (full_name t))
             ++ "." ++ CPP_HEADER_EXTENSION)
        = root ++ "/" ++ Py.join "/" (Py.split "." (full_name t)) ++ ".hpp")
  /\ (snd (run_generator render fs "/w" [ns_Foo] "outdir") = None ->
      exists text,
        fst (run_generator render fs "/w" [ns_Foo] "outdir")
        = [ Makedirs "/w/outdir"; Makedirs "/w/outdir/ns";
            WriteFile "/w/outdir/ns/Foo.hpp" text ]).
Proof.
  split; [| split].
  - rewrite run_generator_eq. cbn zeta.
    destruct (fs [] _); [by exists 0%nat |].
    destruct (run_generator_loop_paths render fs
                (Py.os_path_abspath cwd dest_dir)
                [Makedirs (Py.os_path_abspath cwd dest_dir)] types)
      as (k & H1 & H2).
    exists k. split; [exact H1 | exact H2].
  - intros t root Hdot Hslash Hroot Hend.
    by apply os_path_join_under_root.
  - rewrite run_generator_eq. cbn zeta.
    change (Py.os_path_abspath "/w" "outdir") with "/w/outdir".
    destruct (fs [] _); [done |].
    rewrite run_generator_loop_cons. cbn zeta.
    change (file_path_of "/w/outdir" ns_Foo) with "/w/outdir/ns/Foo.hpp".
    change (Py.os_path_dirname "/w/outdir/ns/Foo.hpp") with "/w/outdir/ns".
    destruct (fs [Makedirs "/w/outdir"] _); [done |].
    destruct (generate_one_type render ns_Foo) as [text |]; [| done].
    destruct (fs ([Makedirs "/w/outdir"] ++ _)%list _); [done |].
    intros _. by exists text.
Qed.

Lemma run_generator_file_paths_witness :
  written_paths (fst (run_generator (fun _ => Ok "") (fun _ _ => None) "/w"
                        [ns_Foo; ns_Uses_Foo] "../out"))
  = ["/out/ns/Foo.hpp"; "/out/ns/UsesFoo.hpp"].
Proof.
  destruct (run_generator_file_paths (fun _ => Ok "") (fun _ _ => None) "/w"
              [ns_Foo; ns_Uses_Foo] "../out") as [(k & H1 & H2) _].
  rewrite H1, (H2 eq_refl). reflexivity.
Defined.

(** C10: every include that the collector returns is the output file name
    of the compound type of one of the fields, and for each field of a
    compound type that name is in the set and is the name that
    [run_generator] joins to the destination directory when it writes the
    type of that full name. *)
Theorem includes_follow_layout (render : Annotated -> Result string)
    (fs : list FsOp -> FsOp -> option Exception)
    (cwd : string) (types : list CompoundType) (dest_dir : string)
    (fields : list Attribute) :
  exists S : gset string,
    fields_includes fields = Ok S
    /\ (forall inc, inc ∈ S ->
          exists x, x ∈ fields /\ is_compound (attr_type x) = true
                    /\ type_output_filename (attr_type x) = Ok inc)
    /\ (forall x t,
          x ∈ fields -> attr_type x = as_type t -> t ∈ types ->
          snd (run_generator render fs cwd types dest_dir) = None ->
          exists inc text,
            type_output_filename (attr_type x) = Ok inc
            /\ inc ∈ S
            /\ WriteFile (Py.os_path_join (Py.os_path_abspath cwd dest_dir) inc)
                 text
               ∈ fst (run_generator render fs cwd types dest_dir)).
Proof.
  exists (list_to_set (omap include_of fields)).
  split; [apply fields_includes_eq | split].
  - intros inc. rewrite elem_of_list_to_set, list_elem_of_omap.
    intros (x & Hx & (fn & Hfn & Hinc)%include_of_Some).
    exists x. rewrite Hfn. by repeat split.
  - intros x t Hx Ht Hin. rewrite run_generator_eq. cbn zeta.
    destruct (fs [] _); [done |]. cbn [fst snd]. intros Hok.
    destruct (run_generator_loop_writes render fs _ _ _ t Hok Hin)
      as (inc & text & Hinc & _ & Hw).
    exists inc, text. rewrite Ht. split; [exact Hinc | split].
    + rewrite elem_of_list_to_set, list_elem_of_omap.
      exists x. split; [exact Hx |].
      apply include_of_Some. exists (full_name t). by split.
    + apply elem_of_cons; by right.
Qed.

Lemma includes_follow_layout_witness :
  exists text,
    WriteFile "/w/outdir/ns/Foo.hpp" text
    ∈ fst (run_generator (fun _ => Ok "") (fun _ _ => None) "/w"
             [ns_Foo; ns_Uses_Foo] "outdir").
Proof.
  destruct (includes_follow_layout (fun _ => Ok "") (fun _ _ => None) "/w"
              [ns_Foo; ns_Uses_Foo] "outdir"
              [parsed_field "foo" (Compound "ns.Foo")])
    as (S & _ & _ & H).
  destruct (H (parsed_field "foo" (Compound "ns.Foo")) ns_Foo)
    as (inc & text & Hinc & _ & Hw).
  - apply elem_of_cons; by left.
  - reflexivity.
  - apply elem_of_cons; by left.
  - reflexivity.
  - injection Hinc as <-. exists text. exact Hw.
Defined.

(** ** [str.replace] *)

Section Replace.

Variables old new : string.
Hypothesis old_nonempty : old <> "".

Lemma replace_nonempty (s : string) :
  Py.replace old new s = Py.replace_from old new 0 s.
Proof using old_nonempty. unfold Py.replace. by destruct old. Qed.

Lemma prefix_app (p s : string) : String.prefix p (p ++ s) = true.
Proof.
  induction p as [|a p IH]; [apply prefix_nil |].
  simpl String.append. by rewrite prefix_cons, Ascii.eqb_refl.
Qed.

Lemma prefix_split (p s : string) :
  String.prefix p s = true -> exists r, s = p ++ r.
Proof.
  revert s. induction p as [|a p IH]; intros s H; [by exists s |].
  destruct s as [|b s]; [done |].
  rewrite prefix_cons in H. apply andb_true_iff in H as [Hab H].
  apply Ascii.eqb_eq in Hab as ->.
  destruct (IH s H) as [r ->]. by exists r.
Qed.

Lemma replace_from_skip (p s : string) :
  Py.replace_from old new (String.length p) (p ++ s)
  = Py.replace_from old new 0 s.
Proof.
  induction p as [|a p IH]; simpl.
  - by destruct s.
  - exact IH.
Qed.

Lemma replace_nil : Py.replace old new "" = "".
Proof using old_nonempty. by rewrite replace_nonempty. Qed.

Lemma replace_cons (c : ascii) (s : string) :
  String.prefix old (String c s) = false ->
  Py.replace old new (String c s) = String c (Py.replace old new s).
Proof using old_nonempty.
  intros H. rewrite !replace_nonempty. cbn [Py.replace_from]. by rewrite H.
Qed.

Lemma replace_app (s : string) :
  Py.replace old new (old ++ s) = new ++ Py.replace old new s.
Proof using old_nonempty.
  rewrite !replace_nonempty.
  assert (exists a old', old = String a old') as (a & old' & E)
    by (destruct old; [done | eauto]).
  assert (old ++ s = String a (old' ++ s)) as Hs by by rewrite E.
  assert (String.length old - 1 = String.length old')%nat as Hl
    by (rewrite E; simpl; lia).
  rewrite Hs. cbn [Py.replace_from].
  rewrite <- Hs, prefix_app, Hl. f_equal. apply replace_from_skip.
Qed.

(** Induction along the scan of [replace]. *)
Lemma replace_ind (P : string -> string -> Prop) :
  P "" "" ->
  (forall c s, String.prefix old (String c s) = false ->
               P s (Py.replace old new s) ->
               P (String c s) (String c (Py.replace old new s))) ->
  (forall s, P s (Py.replace old new s) ->
             P (old ++ s) (new ++ Py.replace old new s)) ->
  forall s, P s (Py.replace old new s).
Proof using old_nonempty.
  intros Hnil Hcons Happ s.
  remember (String.length s) as n eqn:Hn.
  revert s Hn. induction n as [n IH] using lt_wf_ind. intros s Hn.
  destruct s as [|c s]; [by rewrite replace_nil |].
  destruct (String.prefix old (String c s)) eqn:Hp.
  - apply prefix_split in Hp as [r Hr]. rewrite Hr, replace_app.
    apply Happ. apply (IH (String.length r)); [| done].
    rewrite Hn, Hr, append_length.
    destruct old; [done | simpl; lia].
  - rewrite (replace_cons _ _ Hp). apply Hcons; [done |].
    apply (IH (String.length s)); [| done]. rewrite Hn. simpl. lia.
Qed.

(** A text without an occurrence of [old] is left as it is. *)
Lemma replace_absent (s : string) :
  Py.occurs old s = false -> Py.replace old new s = s.
Proof using old_nonempty.
  induction s as [|c s IH]; [by rewrite replace_nil |].
  cbn [Py.occurs]. intros [Hp Ho]%orb_false_iff.
  by rewrite (replace_cons _ _ Hp), (IH Ho).
Qed.

(** The text starts as it did when [old] and [new] start alike. *)
Lemma replace_first_char (s : string) :
  first_char old = first_char new ->
  first_char (Py.replace old new s) = first_char s.
Proof using old_nonempty.
  intros Hfc.
  apply (replace_ind (fun s r => first_char r = first_char s));
    [done | done |].
  intros r _. destruct old; [done |]. by destruct new.
Qed.

End Replace.

(** ** Runs of line feeds *)

Lemma nls_S (n : nat) :
  Py.repeat_string NL (S n) = String Py.LF (Py.repeat_string NL n).
Proof. reflexivity. Qed.

Lemma nls_nonempty (n : nat) : (1 <= n)%nat -> Py.repeat_string NL n <> "".
Proof. destruct n; [lia | done]. Qed.

Lemma lead_cons (c : ascii) (s : string) :
  lead (String c s) = if Ascii.eqb c Py.LF then S (lead s) else O.
Proof. reflexivity. Qed.

Lemma prefix_nls (n : nat) (s : string) :
  String.prefix (Py.repeat_string NL n) s = (n <=? lead s)%nat.
Proof.
  revert s. induction n as [|n IH]; intros s; [apply prefix_nil |].
  rewrite nls_S. destruct s as [|c s]; [reflexivity |].
  rewrite prefix_cons, lead_cons, IH, (Ascii.eqb_sym Py.LF c).
  by destruct (Ascii.eqb c Py.LF).
Qed.

Lemma lead_nls_app (n : nat) (s : string) :
  lead (Py.repeat_string NL n ++ s) = (n + lead s)%nat.
Proof.
  induction n as [|n IH]; [reflexivity |].
  rewrite nls_S. simpl String.append. rewrite lead_cons. simpl. by rewrite IH.
Qed.

Lemma occurs_cons (p : string) (c : ascii) (s : string) :
  Py.occurs p (String c s) = String.prefix p (String c s) || Py.occurs p s.
Proof. reflexivity. Qed.

Lemma occurs_false_prefix (p s : string) :
  Py.occurs p s = false -> String.prefix p s = false.
Proof. destruct s; simpl; [by rewrite orb_false_r | by intros [? ?]%orb_false_iff]. Qed.

Lemma occurs_app_r (p a s : string) :
  Py.occurs p (a ++ s) = false -> Py.occurs p s = false.
Proof.
  induction a as [|c a IH]; [done |].
  simpl String.append. rewrite occurs_cons. intros [_ H]%orb_false_iff. auto.
Qed.

Lemma occurs_nls_cons (m : nat) (c : ascii) (s : string) :
  Py.occurs (Py.repeat_string NL m) (String c s)
  = (m <=? lead (String c s))%nat || Py.occurs (Py.repeat_string NL m) s.
Proof. by rewrite occurs_cons, prefix_nls. Qed.

(** A longer run holds the shorter ones. *)
Lemma occurs_nls_mono (m k : nat) (s : string) :
  (m <= k)%nat ->
  Py.occurs (Py.repeat_string NL m) s = false ->
  Py.occurs (Py.repeat_string NL k) s = false.
Proof.
  intros Hmk. induction s as [|c s IH].
  - cbn [Py.occurs]. rewrite !orb_false_r, !prefix_nls. cbn [lead].
    intros H%Nat.leb_gt. apply Nat.leb_gt. lia.
  - rewrite !occurs_nls_cons.
    intros [H1%Nat.leb_gt H2]%orb_false_iff.
    apply orb_false_iff. split; [apply Nat.leb_gt; lia | auto].
Qed.

(** One pass that replaces [n] line feeds by two leaves runs shorter than
    [j + 2] when the runs were shorter than [n + j]. *)
Lemma replace_nls_runs (n j : nat) (s : string) :
  (2 <= n <= j + 2)%nat ->
  Py.occurs (Py.repeat_string NL (n + j)) s = false ->
  Py.occurs (Py.repeat_string NL (j + 2))
    (Py.replace (Py.repeat_string NL n) (NL ++ NL) s) = false
  /\ (lead (Py.replace (Py.repeat_string NL n) (NL ++ NL) s) <= lead s)%nat.
Proof.
  intros Hn.
  apply (replace_ind (Py.repeat_string NL n) (NL ++ NL)
           (nls_nonempty n ltac:(lia))
           (fun s r =>
              Py.occurs (Py.repeat_string NL (n + j)) s = false ->
              Py.occurs (Py.repeat_string NL (j + 2)) r = false
              /\ (lead r <= lead s)%nat)).
  - intros _. split; [| done].
    cbn [Py.occurs]. rewrite orb_false_r, prefix_nls. apply Nat.leb_gt.
    cbn [lead]. lia.
  - intros c t Hp IH. rewrite prefix_nls in Hp. apply Nat.leb_gt in Hp.
    rewrite occurs_nls_cons. intros [_ Ht]%orb_false_iff.
    destruct (IH Ht) as [IH1 IH2].
    rewrite occurs_nls_cons, IH1, orb_false_r.
    rewrite !lead_cons in *.
    destruct (Ascii.eqb c Py.LF); (split; [apply Nat.leb_gt; lia | lia]).
  - intros t IH Ht.
    pose proof (occurs_false_prefix _ _ Ht) as Hp.
    rewrite prefix_nls, lead_nls_app in Hp. apply Nat.leb_gt in Hp.
    destruct (IH (occurs_app_r _ _ _ Ht)) as [IH1 IH2].
    set (r := Py.replace _ _ t) in *.
    change ((NL ++ NL) ++ r) with (String Py.LF (String Py.LF r)).
    rewrite lead_nls_app, !lead_cons, !Ascii.eqb_refl. split; [| lia].
    rewrite !occurs_nls_cons, IH1, !lead_cons, !Ascii.eqb_refl, orb_false_r.
    apply orb_false_iff; split; apply Nat.leb_gt; lia.
Qed.

(** ** The substitution after an opening brace *)

Lemma replace_prefix_other (old new : string) (a : ascii) (p s : string) :
  first_char old = Some a -> first_char new = Some a ->
  Py.occurs (String a "") p = false ->
  String.prefix p (Py.replace old new s) = String.prefix p s.
Proof.
  intros Hold Hnew. revert s.
  assert (old <> "") as Hne by (by destruct old).
  induction p as [|b p IH]; intros s Hp; [by rewrite !prefix_nil |].
  rewrite occurs_cons, prefix_cons, prefix_nil, andb_true_r in Hp.
  apply orb_false_iff in Hp as [Hab Hp].
  destruct s as [|c s]; [by rewrite replace_nil |].
  destruct (String.prefix old (String c s)) eqn:Hm.
  - apply prefix_split in Hm as [r Hr]. rewrite Hr, replace_app by done.
    destruct old as [|a1 old']; [done |]. destruct new as [|a2 new']; [done |].
    injection Hold as ->. injection Hnew as ->.
    simpl String.append. by rewrite !prefix_cons, (Ascii.eqb_sym b a), Hab.
  - rewrite replace_cons by done. by rewrite !prefix_cons, IH.
Qed.

Lemma close_up_brace_runs (s : string) :
  Py.occurs (Py.repeat_string NL 3) s = false ->
  Py.occurs (Py.repeat_string NL 3) (close_up_brace s) = false
  /\ (lead (close_up_brace s) <= lead s)%nat.
Proof.
  unfold close_up_brace.
  apply (replace_ind ("{" ++ NL ++ NL ++ " ") ("{" ++ NL ++ " ") ltac:(done)
           (fun s r =>
              Py.occurs (Py.repeat_string NL 3) s = false ->
              Py.occurs (Py.repeat_string NL 3) r = false
              /\ (lead r <= lead s)%nat)).
  - done.
  - intros c t _ IH. rewrite occurs_nls_cons.
    intros [Hc%Nat.leb_gt Ht]%orb_false_iff.
    destruct (IH Ht) as [IH1 IH2].
    rewrite occurs_nls_cons, IH1, orb_false_r.
    rewrite !lead_cons in *.
    destruct (Ascii.eqb c Py.LF); (split; [apply Nat.leb_gt; lia | lia]).
  - intros t IH Ht.
    destruct (IH (occurs_app_r _ _ _ Ht)) as [IH1 IH2].
    set (r := Py.replace _ _ t) in *.
    change (("{" ++ NL ++ " ") ++ r)
      with (String "{" (String Py.LF (String " " r))).
    rewrite !occurs_nls_cons, IH1. split; [reflexivity | cbn [lead]; simpl; lia].
Qed.

Lemma close_up_brace_absent (s : string) :
  Py.occurs ("{" ++ NL ++ NL ++ " ") (close_up_brace s) = false.
Proof.
  unfold close_up_brace.
  apply (replace_ind ("{" ++ NL ++ NL ++ " ") ("{" ++ NL ++ " ") ltac:(done)
           (fun s r => Py.occurs ("{" ++ NL ++ NL ++ " ") r = false)).
  - reflexivity.
  - intros c t Hp IH. rewrite occurs_cons, IH, orb_false_r.
    change ("{" ++ NL ++ NL ++ " ") with (String "{" (NL ++ NL ++ " ")) in *.
    rewrite prefix_cons in *.
    by rewrite (replace_prefix_other _ _ "{").
  - intros t IH.
    set (r := Py.replace _ _ t) in *.
    change (("{" ++ NL ++ " ") ++ r)
      with (String "{" (String Py.LF (String " " r))).
    rewrite !occurs_cons, IH. reflexivity.
Qed.

(** ** Texts that [strip_lines] leaves as they are *)

Lemma tidy_tail (c : ascii) (s : string) :
  tidy (String c s) = true -> tidy s = true.
Proof. cbn [tidy]. by intros [_ H]%andb_true_iff. Qed.

Lemma tidy_app_r (a s : string) : tidy (a ++ s) = true -> tidy s = true.
Proof.
  induction a as [|c a IH]; [done |].
  simpl String.append. intros H%tidy_tail. auto.
Qed.

Lemma tidy_cons_same (c : ascii) (s r : string) :
  first_char r = first_char s ->
  tidy (String c s) = true -> tidy r = true -> tidy (String c r) = true.
Proof.
  intros Hfc Hs Hr. cbn [tidy] in *.
  apply andb_true_iff in Hs as [Hs _]. rewrite Hr, andb_true_r.
  destruct r as [|e r], s as [|d s]; try done.
  injection Hfc as ->. exact Hs.
Qed.

Lemma tidy_lf (s : string) :
  tidy (String Py.LF s) = match s with "" => false | String _ _ => tidy s end.
Proof.
  destruct s as [|d s]; [reflexivity |].
  cbn [tidy]. rewrite Ascii.eqb_refl. cbn [orb andb].
  by rewrite orb_true_r.
Qed.

Lemma tidy_nls_app (n : nat) (s : string) :
  (1 <= n)%nat ->
  tidy (Py.repeat_string NL n ++ s)
  = match s with "" => false | String _ _ => tidy s end.
Proof.
  induction n as [|[|n] IH]; intros Hn; [lia | apply tidy_lf |].
  rewrite nls_S. simpl String.append. rewrite tidy_lf, <- IH by lia.
  by rewrite nls_S.
Qed.

Section ReplaceTidy.

Variables old new : string.
Hypothesis old_nonempty : old <> "".
Hypothesis same_first : first_char old = first_char new.
Hypothesis tidy_new :
  forall s r, first_char r = first_char s ->
              tidy (old ++ s) = true -> tidy r = true ->
              tidy (new ++ r) = true.

Lemma replace_tidy (s : string) :
  tidy s = true -> tidy (Py.replace old new s) = true.
Proof using old_nonempty same_first tidy_new.
  apply (replace_ind old new old_nonempty
           (fun s r => tidy s = true -> tidy r = true)).
  - done.
  - intros c t _ IH Ht.
    apply (tidy_cons_same c t); [by apply replace_first_char | done |].
    apply IH. by apply tidy_tail in Ht.
  - intros t IH Ht.
    apply (tidy_new t); [by apply replace_first_char | done |].
    apply IH. by apply tidy_app_r in Ht.
Qed.

End ReplaceTidy.

Lemma replace_nls_tidy (n : nat) (s : string) :
  (1 <= n)%nat ->
  tidy s = true ->
  tidy (Py.replace (Py.repeat_string NL n) (NL ++ NL) s) = true.
Proof.
  intros Hn. apply replace_tidy.
  - by apply nls_nonempty.
  - by destruct n; [lia |].
  - intros t r Hfc.
    change (NL ++ NL) with (Py.repeat_string NL 2).
    rewrite !tidy_nls_app by lia.
    destruct t, r; try done.
Qed.

Lemma close_up_brace_tidy (s : string) :
  tidy s = true -> tidy (close_up_brace s) = true.
Proof.
  apply replace_tidy; [done | done |].
  intros t r Hfc.
  change (("{" ++ NL ++ NL ++ " ") ++ t)
    with (String "{" (String Py.LF (String Py.LF (String " " t)))).
  change (("{" ++ NL ++ " ") ++ r)
    with (String "{" (String Py.LF (String " " r))).
  intros Ht Hr.
  do 3 apply tidy_tail in Ht.
  apply (tidy_cons_same " " t r Hfc) in Ht; [| done].
  cbn [tidy] in *. by rewrite Ht.
Qed.

Lemma splitlines_nonempty (c : ascii) (s : string) :
  Py.splitlines (String c s) <> [].
Proof.
  cbn [Py.splitlines].
  destruct (Py.is_linebreak c); [| by destruct (Py.splitlines s)].
  destruct (Ascii.eqb c Py.CR && String.prefix (String Py.LF "") s) eqn:E;
    [| done].
  apply andb_true_iff in E as [_ [r ->]%prefix_split]. done.
Qed.

(** [strip_lines] gives back a tidy text. *)
Lemma strip_lines_tidy (s : string) : tidy s = true -> strip_lines s = s.
Proof.
  unfold strip_lines. induction s as [|c s IH]; [done |].
  intros Ht. pose proof (tidy_tail _ _ Ht) as Hs. specialize (IH Hs).
  cbn [tidy] in Ht.
  apply andb_true_iff in Ht as [[H1 H2]%andb_true_iff _].
  cbn [Py.splitlines].
  destruct (Ascii.eqb_spec c Py.LF) as [-> | Hc].
  - change (Py.is_linebreak Py.LF) with true.
    change (Ascii.eqb Py.LF Py.CR) with false. cbn [andb].
    destruct s as [|d s]; [done |].
    destruct (Py.splitlines (String d s)) as [|l ls] eqn:E;
      [by apply splitlines_nonempty in E |].
    cbn [List.map Py.rstrip Py.join] in *. by rewrite IH.
  - cbn [orb] in H1. apply negb_true_iff in H1. rewrite H1.
    destruct s as [|d s].
    + cbn [Py.splitlines List.map Py.rstrip Py.join].
      apply negb_true_iff in H2. by rewrite H2.
    + destruct (Py.splitlines (String d s)) as [|l ls] eqn:E;
        [by apply splitlines_nonempty in E |].
      cbn [List.map] in *.
      assert (Py.rstrip (String c l) = String c (Py.rstrip l)) as ->.
      { cbn [Py.rstrip]. destruct (Py.rstrip l) as [|e r] eqn:El; [| done].
        destruct (List.map Py.rstrip ls) as [|l2 ls2]; [done |].
        injection IH as <- _. rewrite Ascii.eqb_refl in H2.
        cbn [negb orb] in H2. apply negb_true_iff in H2. by rewrite H2. }
      by rewrite join_cons_char, IH.
Qed.

Lemma splitlines_no_linebreak (x : string) :
  Forall (fun l => no_linebreak l = true) (Py.splitlines x).
Proof.
  induction x as [|c x IH]; [constructor |].
  cbn [Py.splitlines].
  destruct (Py.is_linebreak c) eqn:Hc.
  - destruct (_ && _); [done | by constructor].
  - destruct (Py.splitlines x) as [|l ls].
    + constructor; [| done]. cbn [no_linebreak]. by rewrite Hc.
    + inversion IH as [|? ? Hl Hls]; subst.
      constructor; [| done]. cbn [no_linebreak]. by rewrite Hc, Hl.
Qed.

Lemma rstrip_tidy (l : string) :
  no_linebreak l = true ->
  tidy (Py.rstrip l) = true /\ no_linebreak (Py.rstrip l) = true.
Proof.
  induction l as [|c l IH]; [done |].
  cbn [no_linebreak]. intros [Hc Hl]%andb_true_iff.
  destruct (IH Hl) as [IH1 IH2].
  cbn [Py.rstrip]. destruct (Py.rstrip l) as [|e r] eqn:E.
  - destruct (Py.isspace c) eqn:Hs; [done |].
    cbn [tidy no_linebreak]. by rewrite Hc, Hs, orb_true_r.
  - cbn [no_linebreak] in IH2. apply andb_true_iff in IH2 as [He IH2].
    assert (Ascii.eqb e Py.LF = false) as Hne.
    { apply Ascii.eqb_neq. intros ->. done. }
    split.
    + change (tidy (String c (String e r)))
        with ((Ascii.eqb c Py.LF || negb (Py.is_linebreak c))
              && (negb (Ascii.eqb e Py.LF) || Ascii.eqb c Py.LF
                  || negb (Py.isspace c))
              && tidy (String e r)).
      by rewrite Hc, Hne, IH1, orb_true_r.
    + cbn [no_linebreak]. by rewrite Hc, He, IH2.
Qed.

Lemma endswith_app (a b p : string) :
  Py.endswith (a ++ b) p = false -> Py.endswith b p = false.
Proof.
  induction a as [|c a IH]; [done |].
  simpl String.append. cbn [Py.endswith]. intros [_ H]%orb_false_iff. auto.
Qed.

Lemma tidy_line_app (l rest : string) :
  tidy l = true -> no_linebreak l = true ->
  rest <> "" -> tidy rest = true ->
  tidy (l ++ String Py.LF rest) = true.
Proof.
  intros Hl Hn Hne Hr. induction l as [|c l IH].
  - simpl String.append. rewrite tidy_lf. by destruct rest.
  - simpl String.append. cbn [tidy no_linebreak] in *.
    apply andb_true_iff in Hl as [[H1 H2]%andb_true_iff Hl].
    apply andb_true_iff in Hn as [Hc Hn].
    rewrite (IH Hl Hn), H1, andb_true_r. cbn [andb].
    destruct l as [|d l]; simpl String.append.
    + by rewrite H2, orb_true_r.
    + exact H2.
Qed.

Lemma join_tidy (lines : list string) :
  Forall (fun l => tidy l = true /\ no_linebreak l = true) lines ->
  Py.endswith (Py.join NL lines) NL = false ->
  tidy (Py.join NL lines) = true.
Proof.
  induction 1 as [|l lines [Hl Hn] _ IH]; [done |].
  destruct lines as [|l2 lines]; [done |].
  change (Py.join NL (l :: l2 :: lines))
    with (l ++ NL ++ Py.join NL (l2 :: lines)).
  set (rest := Py.join NL (l2 :: lines)) in *.
  intros He. apply endswith_app in He.
  change (NL ++ rest) with (String Py.LF rest) in *.
  assert (rest <> "") as Hne by (intros E; by rewrite E in He).
  apply tidy_line_app; try done.
  apply IH. cbn [Py.endswith] in He. by apply orb_false_iff in He as [_ He].
Qed.

(** [strip_lines] gives a tidy text, unless its last line is blank. *)
Lemma strip_lines_is_tidy (x : string) :
  Py.endswith (strip_lines x) NL = false -> tidy (strip_lines x) = true.
Proof.
  apply join_tidy. apply Forall_map.
  eapply Forall_impl; [apply splitlines_no_linebreak |].
  intros l Hl. by apply rstrip_tidy.
Qed.

(** ** The normalisation *)

(** The fixed points of [normalize]: tidy texts without three line feeds
    in a row and without a blank line after an opening brace. *)
Lemma normalize_fixed (y : string) :
  tidy y = true ->
  Py.occurs (Py.repeat_string NL 3) y = false ->
  Py.occurs ("{" ++ NL ++ NL ++ " ") y = false ->
  normalize y = y.
Proof.
  intros Ht H3 Hb. unfold normalize, collapse_blank_lines, close_up_brace.
  rewrite (strip_lines_tidy y Ht).
  change (NL ++ NL ++ NL ++ NL) with (Py.repeat_string NL 4).
  change (NL ++ NL ++ NL) with (Py.repeat_string NL 3).
  rewrite (replace_absent (Py.repeat_string NL 4)) by
    (done || by apply (occurs_nls_mono 3 4); [lia |]).
  rewrite (replace_absent (Py.repeat_string NL 3)) by done.
  by rewrite replace_absent.
Qed.

(** Six line feeds between two words are brought down to three, not to
    two, and a second round removes one more; a blank last line loses its
    line feed in a second round. *)
Lemma normalize_not_idempotent :
  let x := "a" ++ Py.repeat_string NL 6 ++ "b" in
  let x' := "a" ++ NL ++ NL in
  normalize x = "a" ++ NL ++ NL ++ NL ++ "b"
  /\ normalize (normalize x) = "a" ++ NL ++ NL ++ "b"
  /\ normalize (normalize x) <> normalize x
  /\ Py.occurs (NL ++ NL ++ NL) (normalize x) = true
  /\ normalize x' = "a" ++ NL
  /\ normalize (normalize x') = "a"
  /\ normalize (normalize x') <> normalize x'.
Proof. repeat split; try reflexivity; by vm_compute. Qed.

(** C2, as the code has it: the normalisation strips the lines, replaces
    four line feeds by two and then three by two, in one pass each, and
    makes the substitution after an opening brace once.  When the text
    with its lines stripped has no six line feeds in a row and does not
    end in a line feed, the normalised text has no three line feeds in a
    row and a second round leaves it as it is. *)
Theorem normalize_idempotent (x : string) :
  Py.occurs (Py.repeat_string NL 6) (strip_lines x) = false ->
  Py.endswith (strip_lines x) NL = false ->
  normalize (normalize x) = normalize x
  /\ Py.occurs (NL ++ NL ++ NL) (normalize x) = false.
Proof.
  intros H6 Hend.
  pose proof (strip_lines_is_tidy x Hend) as Ht0.
  unfold normalize at 2 3. unfold collapse_blank_lines.
  change (NL ++ NL ++ NL ++ NL) with (Py.repeat_string NL 4).
  change (NL ++ NL ++ NL) with (Py.repeat_string NL 3).
  set (s0 := strip_lines x) in *.
  destruct (replace_nls_runs 4 2 s0 ltac:(lia) H6) as [H4 _].
  pose proof (replace_nls_tidy 4 s0 ltac:(lia) Ht0) as Ht1.
  set (s1 := Py.replace (Py.repeat_string NL 4) (NL ++ NL) s0) in *.
  destruct (replace_nls_runs 3 1 s1 ltac:(lia) H4) as [H3 _].
  pose proof (replace_nls_tidy 3 s1 ltac:(lia) Ht1) as Ht2.
  set (s2 := Py.replace (Py.repeat_string NL 3) (NL ++ NL) s1) in *.
  destruct (close_up_brace_runs s2 H3) as [H3' _].
  split; [| exact H3'].
  apply normalize_fixed; [by apply close_up_brace_tidy | exact H3' |].
  apply close_up_brace_absent.
Qed.

Lemma normalize_idempotent_witness :
  let x := "struct {" ++ NL ++ "  " ++ NL ++ " int a; " ++ NL
             ++ Py.repeat_string NL 4 ++ "};" ++ NL in
  normalize x = "struct {" ++ NL ++ " int a;" ++ NL ++ NL ++ "};"
  /\ normalize (normalize x) = normalize x.
Proof.
  split; [reflexivity |].
  refine (proj1 (normalize_idempotent _ _ _)); reflexivity.
Defined.

(** * Further properties of the code *)

(** ** More on the type mapper *)

Lemma replace_count (old new : string) (c : ascii) (s : string) :
  old <> "" -> count_char c old = count_char c new ->
  count_char c (Py.replace old new s) = count_char c s.
Proof.
  intros Hne Hc.
  apply (replace_ind old new Hne
           (fun s r => count_char c r = count_char c s)).
  - done.
  - intros d t _ IH. cbn [count_char]. by rewrite IH.
  - intros t IH. by rewrite !count_char_app, IH, Hc.
Qed.

(** X1: every descriptor starts at the global scope, and its angle brackets
    balance when the name of the compound type under the arrays holds
    none. *)
Theorem type_to_cpp_type_well_bracketed (t : SchemaType) (d : string) :
  type_to_cpp_type t = Ok d ->
  (forall full_name, innermost t = Compound full_name ->
     count_char "<" full_name = O /\ count_char ">" full_name = O) ->
  String.prefix "::" d = true
  /\ count_char "<" d = count_char ">" d.
Proof.
  revert d.
  induction t as [p | value_type IH mode max_size | full_name | shown];
    intros d Hd Hname.
  - cbn [type_to_cpp_type] in Hd.
    destruct (kind p), (cast_mode p); injection Hd as <-;
      (split; [reflexivity |]);
      count_chars; rewrite !fmt_d_count by done; reflexivity.
  - rewrite type_to_cpp_type_array in Hd.
    destruct (type_to_cpp_type value_type) as [d' |]; [| done].
    injection Hd as <-. destruct (IH d' eq_refl Hname) as [_ IH2].
    split; [reflexivity |].
    destruct mode; count_chars; rewrite !fmt_d_count, IH2 by done;
      cbn; lia.
  - assert (d = "::" ++ Py.replace "." "::" full_name) as ->
      by (cbn [type_to_cpp_type] in Hd; congruence).
    destruct (Hname full_name eq_refl) as [H1 H2].
    change ("::" ++ Py.replace "." "::" full_name)
      with (String ":" (String ":" (Py.replace "." "::" full_name))).
    split.
    + by rewrite !prefix_cons, prefix_nil.
    + count_chars. rewrite !replace_count, H1, H2 by done. reflexivity.
  - done.
Qed.

Lemma type_to_cpp_type_well_bracketed_witness :
  count_char "<" "::uavcan::Array<::ns::X, ::uavcan::ArrayModeDynamic, 4>"
  = count_char ">" "::uavcan::Array<::ns::X, ::uavcan::ArrayModeDynamic, 4>".
Proof.
  refine (proj2 (type_to_cpp_type_well_bracketed
                   (Array (Compound "ns.X") MODE_DYNAMIC 4) _ eq_refl _)).
  intros full_name [= <-]. split; reflexivity.
Defined.

(** X2: the mapper tells two primitive types apart by bit length, by cast
    mode and by kind, except that a boolean is mapped as an unsigned
    integer. *)
Lemma type_to_cpp_type_primitive_eq (p q : PrimitiveType) :
  type_to_cpp_type (Primitive p) = type_to_cpp_type (Primitive q)
  <-> bitlen p = bitlen q /\ cast_mode p = cast_mode q
      /\ (kind p = kind q
          \/ (kind p = KIND_BOOLEAN /\ kind q = KIND_UNSIGNED_INT)
          \/ (kind p = KIND_UNSIGNED_INT /\ kind q = KIND_BOOLEAN)).
Proof.
  destruct p as [kp bp cp], q as [kq bq cq].
  cbn [type_to_cpp_type kind bitlen cast_mode]. split.
  - intros H.
    destruct kp, kq; try discriminate H; injection H as H;
      apply split_at_first in H as [Hb H];
      try (by apply fmt_d_count);
      apply fmt_d_inj in Hb as ->;
      destruct cp, cq; cbv in H; try discriminate H;
      first [ by repeat split; left
            | by repeat split; right; left
            | by repeat split; right; right ].
  - intros (-> & -> & [-> | [[-> ->] | [-> ->]]]); reflexivity.
Qed.

(** ** More on the constant pass *)

Lemma inject_constant_info_step_ok (c : Constant) :
  literal_ok c = true -> snd (inject_constant_info_step c) = None.
Proof.
  unfold literal_ok, inject_constant_info_step.
  destruct (kind (const_type c)); try done.
  cbn [string_value set_cpp_use_enum].
  change (special_values (set_cpp_use_enum false c)) with (special_values c).
  destruct (dict_get _ _); [done |]. by intros ->.
Qed.

Lemma inject_constant_info_step_fail (c : Constant) :
  literal_ok c = false ->
  kind (const_type c) = KIND_FLOAT
  /\ inject_constant_info_step c
     = (set_cpp_use_enum false c, Some (ValueError (string_value c))).
Proof.
  unfold literal_ok, inject_constant_info_step.
  destruct (kind (const_type c)); try done.
  cbn [string_value set_cpp_use_enum].
  change (special_values (set_cpp_use_enum false c)) with (special_values c).
  destruct (dict_get _ _); [done |]. by intros ->.
Qed.

Lemma inject_constant_info_step_keeps (c : Constant) :
  let c' := fst (inject_constant_info_step c) in
  const_name c' = const_name c /\ const_type c' = const_type c
  /\ string_value c' = string_value c /\ value c' = value c
  /\ const_cpp_type c' = const_cpp_type c
  /\ is_Some (cpp_use_enum c')
  /\ (snd (inject_constant_info_step c) = None -> is_Some (cpp_value c')).
Proof.
  cbn zeta.
  destruct (kind (const_type c)) eqn:Hk;
    try (rewrite inject_constant_info_step_integer by congruence;
         cbn [fst snd set_cpp_value set_cpp_use_enum const_name const_type
              string_value value const_cpp_type cpp_use_enum cpp_value];
         by eauto 10).
  rewrite (inject_constant_info_step_float c Hk).
  destruct (dict_get (string_value c) (special_values c));
    [| destruct (Py.float_accepts (string_value c))];
    cbn [fst snd set_cpp_value set_cpp_use_enum const_name const_type
         string_value value const_cpp_type cpp_use_enum cpp_value];
    repeat split; eauto; done.
Qed.

(** X3: the pass changes nothing but the attributes it attaches: the list
    keeps its length and order, every constant keeps its name, type,
    literal, value and descriptor; and when nothing is raised every
    constant has [cpp_use_enum] and [cpp_value]. *)
Theorem inject_constant_info_keeps_input (constants : list Constant) :
  Forall2 (fun c c' =>
             const_name c' = const_name c /\ const_type c' = const_type c
             /\ string_value c' = string_value c /\ value c' = value c
             /\ const_cpp_type c' = const_cpp_type c)
    constants (fst (inject_constant_info constants))
  /\ (snd (inject_constant_info constants) = None ->
      Forall (fun c' => is_Some (cpp_use_enum c') /\ is_Some (cpp_value c'))
        (fst (inject_constant_info constants))).
Proof.
  induction constants as [|c cs [IH1 IH2]]; [by split; [constructor |] |].
  cbn [inject_constant_info].
  pose proof (inject_constant_info_step_keeps c) as Hc. cbn zeta in Hc.
  destruct (inject_constant_info_step c) as [c' [e |]]; cbn [fst snd] in *.
  - split; [| done]. constructor; [tauto |].
    clear. induction cs; constructor; auto.
  - destruct (inject_constant_info cs) as [cs' e]; cbn [fst snd] in *.
    split.
    + constructor; [tauto | done].
    + intros ->. constructor; [| by apply IH2].
      destruct Hc as (_ & _ & _ & _ & _ & H1 & H2). split; [done | by apply H2].
Qed.

Lemma inject_constant_info_keeps_input_witness :
  Forall (fun c' => is_Some (cpp_use_enum c') /\ is_Some (cpp_value c'))
    (fst (inject_constant_info
            [ parsed_constant "A" uint8 "5" 5;
              parsed_constant "B" {| kind := KIND_FLOAT; bitlen := 32;
                                     cast_mode := CAST_MODE_SATURATED |}
                "-inf" 0 ])).
Proof.
  apply (proj2 (inject_constant_info_keeps_input
                  [ parsed_constant "A" uint8 "5" 5;
                    parsed_constant "B" {| kind := KIND_FLOAT; bitlen := 32;
                                           cast_mode := CAST_MODE_SATURATED |}
                      "-inf" 0 ])).
  reflexivity.
Defined.

(** X4: the pass stops at the first float constant whose literal is neither
    in the table nor accepted by [float]: the constants before it are
    processed, that one has [cpp_use_enum] only, the ones after it are
    left as they were, and the [ValueError] of its literal is raised.
    Nothing is raised exactly when there is no such constant. *)
Theorem inject_constant_info_first_failure
    (before : list Constant) (c : Constant) (after : list Constant) :
  Forall (fun c => literal_ok c = true) before ->
  literal_ok c = false ->
  inject_constant_info (before ++ c :: after)
  = ((List.map (fun c => fst (inject_constant_info_step c)) before
        ++ set_cpp_use_enum false c :: after)%list,
     Some (ValueError (string_value c))).
Proof.
  intros Hb Hc. induction Hb as [|b before Hb _ IH].
  - cbn [app List.map inject_constant_info].
    by rewrite (proj2 (inject_constant_info_step_fail c Hc)).
  - cbn [app List.map inject_constant_info]. rewrite IH.
    pose proof (inject_constant_info_step_ok b Hb) as Hok.
    destruct (inject_constant_info_step b) as [b' e]. cbn in Hok. by subst.
Qed.

Lemma inject_constant_info_first_failure_witness :
  inject_constant_info
    [ parsed_constant "A" uint8 "5" 5;
      parsed_constant "B" {| kind := KIND_FLOAT; bitlen := 32;
                             cast_mode := CAST_MODE_SATURATED |} "1e" 0;
      parsed_constant "C" uint8 "7" 7 ]
  = ([ set_cpp_value "5" (set_cpp_use_enum true (parsed_constant "A" uint8 "5" 5));
       set_cpp_use_enum false
         (parsed_constant "B" {| kind := KIND_FLOAT; bitlen := 32;
                                 cast_mode := CAST_MODE_SATURATED |} "1e" 0);
       parsed_constant "C" uint8 "7" 7 ],
     Some (ValueError "1e")).
Proof.
  apply (inject_constant_info_first_failure
           [parsed_constant "A" uint8 "5" 5]
           (parsed_constant "B" {| kind := KIND_FLOAT; bitlen := 32;
                                   cast_mode := CAST_MODE_SATURATED |} "1e" 0)
           [parsed_constant "C" uint8 "7" 7]).
  - constructor; [reflexivity | constructor].
  - reflexivity.
Defined.

Lemma inject_constant_info_ok_iff (constants : list Constant) :
  snd (inject_constant_info constants) = None
  <-> forallb literal_ok constants = true.
Proof.
  induction constants as [|c cs IH]; [done |].
  cbn [inject_constant_info forallb].
  destruct (literal_ok c) eqn:Hc.
  - pose proof (inject_constant_info_step_ok c Hc) as Hok.
    destruct (inject_constant_info_step c) as [c' e]. cbn in Hok. subst e.
    destruct (inject_constant_info cs) as [cs' e]. exact IH.
  - rewrite (proj2 (inject_constant_info_step_fail c Hc)). done.
Qed.

(** ** [generate_one_type] *)

Lemma generate_one_type_annotate (render : Annotated -> Result string)
    (t : CompoundType) :
  generate_one_type render t
  = match annotate t with
    | Ok a =>
        match render a with
        | Ok text => Ok (normalize text)
        | Raise e => Raise e
        end
    | Raise e => Raise e
    end.
Proof.
  unfold generate_one_type, annotate.
  destruct (body t) as [fields constants | rf rc sf sc].
  - destruct (fields_includes fields); [| reflexivity].
    destruct (inject_cpp_types fields); [| reflexivity].
    destruct (inject_cpp_types_const constants) as [cs |]; [| reflexivity].
    cbn [mbind Result_bind].
    destruct (to_result (inject_constant_info cs)); reflexivity.
  - destruct (fields_includes (rf ++ sf)); [| reflexivity].
    destruct (inject_cpp_types rf); [| reflexivity].
    destruct (inject_cpp_types_const rc) as [rc' |]; [| reflexivity].
    destruct (inject_cpp_types sf); [| reflexivity].
    destruct (inject_cpp_types_const sc) as [sc' |]; [| reflexivity].
    cbn [mbind Result_bind].
    destruct (to_result (inject_constant_info rc')); [| reflexivity].
    destruct (to_result (inject_constant_info sc')); reflexivity.
Qed.

Lemma mapM_Ok {A B} (f : A -> Result B) (l : list A) (l' : list B) :
  mapM f l = Ok l' <-> Forall2 (fun x y => f x = Ok y) l l'.
Proof.
  revert l'. induction l as [|x l IH]; intros l'; cbn [mapM].
  - split; [intros [= <-]; constructor | by inversion 1].
  - destruct (f x) as [y |] eqn:Hx; cbn [mbind Result_bind].
    + destruct (mapM f l) as [k |]; cbn [mbind Result_bind].
      * split.
        -- intros [= <-]. constructor; [done | by apply IH].
        -- inversion 1 as [|? y' ? k' Hy Hk]; subst.
           rewrite Hx in Hy. injection Hy as <-.
           apply IH in Hk. by injection Hk as <-.
      * split; [done |]. inversion 1 as [|? ? ? k' _ Hk]; subst.
        by apply IH in Hk.
    + split; [done |]. inversion 1 as [|? ? ? ? Hy _]; subst.
      by rewrite Hx in Hy.
Qed.

Lemma mapM_Raise {A B} (f : A -> Result B) (l : list A) (e : Exception) :
  mapM f l = Raise e -> exists x, x ∈ l /\ f x = Raise e.
Proof.
  induction l as [|x l IH]; cbn [mapM]; [done |].
  destruct (f x) as [y |] eqn:Hx; cbn [mbind Result_bind].
  - destruct (mapM f l) as [k |]; cbn [mbind Result_bind]; [done |].
    intros [= <-]. destruct (IH eq_refl) as (x' & ? & ?).
    exists x'. split; [by apply elem_of_cons; right | done].
  - intros [= <-]. exists x. split; [by apply elem_of_cons; left | done].
Qed.

Lemma succeeds_mapM {A B} (f : A -> Result B) (l : list A) :
  succeeds (mapM f l) = forallb (fun x => succeeds (f x)) l.
Proof.
  induction l as [|x l IH]; [done |]. cbn [mapM forallb].
  destruct (f x); cbn [mbind Result_bind succeeds andb]; [| done].
  rewrite <- IH. by destruct (mapM f l).
Qed.

Lemma type_to_cpp_type_mappable (t : SchemaType) :
  succeeds (type_to_cpp_type t) = mappable t.
Proof.
  unfold mappable.
  induction t as [p | value_type IH mode max_size | full_name | shown];
    try reflexivity.
  - apply type_to_cpp_type_primitive.
  - rewrite type_to_cpp_type_array. cbn [innermost]. rewrite <- IH.
    by destruct (type_to_cpp_type value_type).
Qed.

Lemma type_to_cpp_type_Raise (t : SchemaType) (e : Exception) :
  type_to_cpp_type t = Raise e ->
  exists shown,
    innermost t = Foreign shown
    /\ e = DsdlCompilerException ("Unknown type category: " ++ shown).
Proof.
  induction t as [p | value_type IH mode max_size | full_name | shown].
  - intros H. pose proof (type_to_cpp_type_primitive p) as Hp.
    by rewrite H in Hp.
  - rewrite type_to_cpp_type_array. cbn [innermost].
    destruct (type_to_cpp_type value_type); [done |].
    intros [= <-]. by apply IH.
  - done.
  - intros [= <-]. by exists shown.
Qed.


Lemma inject_cpp_types_const_Ok (constants : list Constant) :
  exists constants',
    inject_cpp_types_const constants = Ok constants'
    /\ Forall2 (fun c c' =>
                  exists d, type_to_cpp_type (Primitive (const_type c)) = Ok d
                            /\ c' = set_const_cpp_type d c)
         constants constants'.
Proof.
  unfold inject_cpp_types_const.
  induction constants as [|c cs (cs' & IH1 & IH2)].
  - exists []. split; [done | constructor].
  - destruct (succeeds_Ok _ (type_to_cpp_type_primitive (const_type c)))
      as [d Hd].
    exists (set_const_cpp_type d c :: cs'). split.
    + cbn [mapM]. rewrite Hd, IH1. reflexivity.
    + constructor; [by exists d | done].
Qed.

Lemma inject_constant_info_Ok (constants constants' : list Constant) :
  inject_constant_info constants = (constants', None) ->
  Forall2 (fun c c' =>
             const_name c' = const_name c /\ const_type c' = const_type c
             /\ string_value c' = string_value c /\ value c' = value c
             /\ const_cpp_type c' = const_cpp_type c
             /\ is_Some (cpp_use_enum c') /\ is_Some (cpp_value c'))
    constants constants'.
Proof.
  revert constants'. induction constants as [|c cs IH]; intros cs'.
  - intros [= <-]. constructor.
  - cbn [inject_constant_info].
    pose proof (inject_constant_info_step_keeps c) as Hc. cbn zeta in Hc.
    destruct (inject_constant_info_step c) as [c' [e |]]; [done |].
    destruct (inject_constant_info cs) as [cs'' e]. intros [= <- ->].
    cbn [fst snd] in Hc. constructor; [| by apply IH].
    destruct Hc as (? & ? & ? & ? & ? & ? & H). repeat split; auto.
Qed.

Lemma inject_constant_info_Raise (constants : list Constant) (e : Exception) :
  snd (inject_constant_info constants) = Some e ->
  exists c, c ∈ constants /\ kind (const_type c) = KIND_FLOAT
            /\ literal_ok c = false /\ e = ValueError (string_value c).
Proof.
  induction constants as [|c cs IH]; [done |].
  cbn [inject_constant_info].
  destruct (literal_ok c) eqn:Hc.
  - pose proof (inject_constant_info_step_ok c Hc) as Hok.
    destruct (inject_constant_info_step c) as [c' e']. cbn in Hok. subst e'.
    destruct (inject_constant_info cs) as [cs' e']. cbn [snd] in *.
    intros H. destruct (IH H) as (c0 & ? & ?).
    exists c0. split; [by apply elem_of_cons; right | done].
  - destruct (inject_constant_info_step_fail c Hc) as [Hk ->].
    intros [= <-]. exists c. split; [by apply elem_of_cons; left | done].
Qed.

Lemma Forall2_elem_of_r {A B} (R : A -> B -> Prop) (l : list A) (l' : list B)
    (y : B) :
  Forall2 R l l' -> y ∈ l' -> exists x, x ∈ l /\ R x y.
Proof.
  induction 1 as [|x y' l l' Hxy _ IH]; intros Hy.
  - by apply elem_of_nil in Hy.
  - apply elem_of_cons in Hy as [-> | Hy].
    + exists x. split; [by apply elem_of_cons; left | done].
    + destruct (IH Hy) as (x' & ? & ?).
      exists x'. split; [by apply elem_of_cons; right | done].
Qed.

Lemma succeeds_inject_cpp_types (fields : list Attribute) :
  succeeds (inject_cpp_types fields)
  = forallb (fun x => mappable (attr_type x)) fields.
Proof.
  unfold inject_cpp_types. rewrite succeeds_mapM.
  induction fields as [|x fields IH]; [done |]. cbn [forallb].
  rewrite IH, <- type_to_cpp_type_mappable.
  by destruct (type_to_cpp_type (attr_type x)).
Qed.

Lemma inject_cpp_types_Ok (fields fields' : list Attribute) :
  inject_cpp_types fields = Ok fields' ->
  Forall2 (fun x x' =>
             exists d, type_to_cpp_type (attr_type x) = Ok d
                       /\ x' = set_attr_cpp_type d x) fields fields'.
Proof.
  unfold inject_cpp_types. intros H%mapM_Ok.
  eapply Forall2_impl; [exact H |]. cbn beta. intros x x' Hx.
  destruct (type_to_cpp_type (attr_type x)) as [d |]; [| done].
  injection Hx as <-. by exists d.
Qed.

Lemma inject_cpp_types_Raise (fields : list Attribute) (e : Exception) :
  inject_cpp_types fields = Raise e ->
  exists x shown,
    x ∈ fields /\ innermost (attr_type x) = Foreign shown
    /\ e = DsdlCompilerException ("Unknown type category: " ++ shown).
Proof.
  unfold inject_cpp_types. intros (x & Hx & H)%mapM_Raise.
  destruct (type_to_cpp_type (attr_type x)) as [d |] eqn:E; [done |].
  injection H as <-. apply type_to_cpp_type_Raise in E as (shown & ? & ?).
  by exists x, shown.
Qed.

Lemma literal_ok_typed (constants constants' : list Constant) :
  Forall2 (fun c c' =>
             exists d, type_to_cpp_type (Primitive (const_type c)) = Ok d
                       /\ c' = set_const_cpp_type d c)
    constants constants' ->
  forallb literal_ok constants' = forallb literal_ok constants.
Proof.
  induction 1 as [|c c' cs cs' (d & _ & ->) _ IH]; [done |].
  cbn [forallb]. by rewrite IH.
Qed.

Lemma succeeds_inject_constant_info (constants : list Constant) :
  succeeds (to_result (inject_constant_info constants))
  = forallb literal_ok constants.
Proof.
  pose proof (inject_constant_info_ok_iff constants) as H.
  destruct (inject_constant_info constants) as [cs [e |]]; cbn in *.
  - destruct (forallb literal_ok constants); [| done].
    by pose proof (proj2 H eq_refl).
  - symmetry. by apply H.
Qed.

Lemma annotate_succeeds (t : CompoundType) :
  succeeds (annotate t)
  = forallb (fun x => mappable (attr_type x)) (all_fields t)
    && forallb literal_ok (all_constants t).
Proof.
  unfold annotate, all_fields, all_constants.
  destruct (body t) as [fields constants | rf rc sf sc].
  - rewrite fields_includes_eq. cbn [mbind Result_bind].
    rewrite <- (succeeds_inject_cpp_types fields).
    destruct (inject_cpp_types fields); [| reflexivity].
    destruct (inject_cpp_types_const_Ok constants) as (cs & -> & Hcs).
    cbn [mbind Result_bind succeeds andb].
    rewrite <- (literal_ok_typed _ _ Hcs), <- succeeds_inject_constant_info.
    by destruct (to_result (inject_constant_info cs)).
  - rewrite fields_includes_eq. cbn [mbind Result_bind].
    rewrite !forallb_app.
    rewrite <- (succeeds_inject_cpp_types rf), <- (succeeds_inject_cpp_types sf).
    destruct (inject_cpp_types rf); [| reflexivity].
    destruct (inject_cpp_types_const_Ok rc) as (rc' & -> & Hrc).
    destruct (inject_cpp_types_const_Ok sc) as (sc' & -> & Hsc).
    destruct (inject_cpp_types sf); [| reflexivity].
    cbn [mbind Result_bind succeeds andb].
    rewrite <- (literal_ok_typed _ _ Hrc), <- (literal_ok_typed _ _ Hsc).
    rewrite <- !succeeds_inject_constant_info.
    destruct (to_result (inject_constant_info rc')); [| reflexivity].
    by destruct (to_result (inject_constant_info sc')).
Qed.

(** X5: [generate_one_type] returns a text exactly when every field has a
    type that the mapper takes, every float constant has a literal that is
    a key of the table or that [float] accepts, and the template raises
    nothing for the annotated type; with a template that never raises,
    the first two decide. *)
Theorem generate_one_type_succeeds (render : Annotated -> Result string)
    (t : CompoundType) :
  succeeds (generate_one_type render t)
  = forallb (fun x => mappable (attr_type x)) (all_fields t)
    && forallb literal_ok (all_constants t)
    && match annotate t with
       | Ok a => succeeds (render a)
       | Raise _ => false
       end
  /\ (succeeds (annotate t)
      = forallb (fun x => mappable (attr_type x)) (all_fields t)
        && forallb literal_ok (all_constants t))
  /\ ((forall a, succeeds (render a) = true) ->
      succeeds (generate_one_type render t)
      = forallb (fun x => mappable (attr_type x)) (all_fields t)
        && forallb literal_ok (all_constants t)).
Proof.
  rewrite generate_one_type_annotate, <- annotate_succeeds.
  split; [| split; [reflexivity |]].
  - destruct (annotate t) as [a |]; [| reflexivity].
    by destruct (render a).
  - intros Hr. destruct (annotate t) as [a |]; [| reflexivity].
    specialize (Hr a). by destruct (render a).
Qed.

Lemma generate_one_type_succeeds_witness :
  succeeds (generate_one_type (fun _ => Ok "") ns_Foo)
  = forallb (fun x => mappable (attr_type x)) (all_fields ns_Foo)
    && forallb literal_ok (all_constants ns_Foo).
Proof.
  apply (proj2 (proj2 (generate_one_type_succeeds (fun _ => Ok "") ns_Foo))).
  reflexivity.
Defined.

Lemma to_result_Raise {A} (r : A * option Exception) (e : Exception) :
  to_result r = Raise e -> snd r = Some e.
Proof. destruct r as [a [e' |]]; [by intros [= <-] | done]. Qed.

Lemma constant_typed_elem (constants constants' : list Constant)
    (c' : Constant) :
  Forall2 (fun c c' =>
             exists d, type_to_cpp_type (Primitive (const_type c)) = Ok d
                       /\ c' = set_const_cpp_type d c)
    constants constants' ->
  c' ∈ constants' ->
  exists c, c ∈ constants /\ const_type c = const_type c'
            /\ string_value c = string_value c'
            /\ literal_ok c = literal_ok c'.
Proof.
  intros H Hc. destruct (Forall2_elem_of_r _ _ _ _ H Hc) as (c & ? & d & _ & ->).
  by exists c.
Qed.

Lemma annotate_Raise (t : CompoundType) (e : Exception) :
  annotate t = Raise e ->
  (exists x shown,
      x ∈ all_fields t /\ innermost (attr_type x) = Foreign shown
      /\ e = DsdlCompilerException ("Unknown type category: " ++ shown))
  \/ (forallb (fun x => mappable (attr_type x)) (all_fields t) = true
      /\ exists c,
           c ∈ all_constants t /\ kind (const_type c) = KIND_FLOAT
           /\ literal_ok c = false /\ e = ValueError (string_value c)).
Proof.
  unfold annotate, all_fields, all_constants.
  destruct (body t) as [fields constants | rf rc sf sc].
  - rewrite fields_includes_eq. cbn [mbind Result_bind].
    rewrite <- (succeeds_inject_cpp_types fields).
    destruct (inject_cpp_types fields) as [fs |] eqn:Ef.
    2: { intros [= <-]. left. by apply inject_cpp_types_Raise. }
    destruct (inject_cpp_types_const_Ok constants) as (cs & -> & Hcs).
    cbn [mbind Result_bind].
    destruct (to_result (inject_constant_info cs)) eqn:Ec; [done |].
    intros [= <-]. right. split; [done |].
    apply to_result_Raise, inject_constant_info_Raise in Ec
      as (c' & Hc' & Hk & Hl & ->).
    destruct (constant_typed_elem _ _ _ Hcs Hc') as (c & ? & Ht & Hs & Ho).
    exists c. by rewrite Ht, Hs, Ho.
  - rewrite fields_includes_eq. cbn [mbind Result_bind].
    rewrite forallb_app.
    rewrite <- (succeeds_inject_cpp_types rf), <- (succeeds_inject_cpp_types sf).
    destruct (inject_cpp_types rf) as [rf' |] eqn:Erf.
    2: { intros [= <-]. left.
         apply inject_cpp_types_Raise in Erf as (x & shown & ? & ?).
         exists x, shown. split; [apply elem_of_app; by left | done]. }
    destruct (inject_cpp_types_const_Ok rc) as (rc' & -> & Hrc).
    destruct (inject_cpp_types_const_Ok sc) as (sc' & -> & Hsc).
    cbn [mbind Result_bind].
    destruct (inject_cpp_types sf) as [sf' |] eqn:Esf.
    2: { intros [= <-]. left.
         apply inject_cpp_types_Raise in Esf as (x & shown & ? & ?).
         exists x, shown. split; [apply elem_of_app; by right | done]. }
    cbn [mbind Result_bind].
    destruct (to_result (inject_constant_info rc')) eqn:Erc.
    2: { intros [= <-]. right. split; [done |].
         apply to_result_Raise, inject_constant_info_Raise in Erc
           as (c' & Hc' & Hk & Hl & ->).
         destruct (constant_typed_elem _ _ _ Hrc Hc') as (c & ? & Ht & Hs & Ho).
         exists c. rewrite Ht, Hs, Ho.
         split; [apply elem_of_app; by left | done]. }
    cbn [mbind Result_bind].
    destruct (to_result (inject_constant_info sc')) eqn:Esc; [done |].
    intros [= <-]. right. split; [done |].
    apply to_result_Raise, inject_constant_info_Raise in Esc
      as (c' & Hc' & Hk & Hl & ->).
    destruct (constant_typed_elem _ _ _ Hsc Hc') as (c & ? & Ht & Hs & Ho).
    exists c. rewrite Ht, Hs, Ho.
    split; [apply elem_of_app; by right | done].
Qed.

(** X6: what [generate_one_type] raises: the exception of the mapper for a
    field whose type, under its arrays, has an unknown category; or, when
    all fields are mapped, the [ValueError] for the literal of a float
    constant; or what the template raises for the annotated type.  The
    assertion of [type_output_filename] never fails in it: an
    [AssertionError] can only come out of the template. *)
Theorem generate_one_type_raises (render : Annotated -> Result string)
    (t : CompoundType) (e : Exception) :
  generate_one_type render t = Raise e ->
  ((exists x shown,
      x ∈ all_fields t /\ innermost (attr_type x) = Foreign shown
      /\ e = DsdlCompilerException ("Unknown type category: " ++ shown))
   \/ (forallb (fun x => mappable (attr_type x)) (all_fields t) = true
       /\ exists c,
            c ∈ all_constants t /\ kind (const_type c) = KIND_FLOAT
            /\ literal_ok c = false /\ e = ValueError (string_value c))
   \/ (exists a, annotate t = Ok a /\ render a = Raise e))
  /\ (e = AssertionError ->
      exists a, annotate t = Ok a /\ render a = Raise AssertionError).
Proof.
  rewrite generate_one_type_annotate.
  destruct (annotate t) as [a | e'] eqn:E.
  - destruct (render a) as [text | e'] eqn:Er; [done |]. intros [= ->].
    split; [right; right; by exists a | intros ->; by exists a].
  - intros [= ->]. pose proof (annotate_Raise t e E) as H. split.
    + destruct H as [H | H]; [by left | right; by left].
    + destruct H as [(? & ? & _ & _ & ->) | (_ & ? & _ & _ & _ & ->)]; done.
Qed.

Lemma generate_one_type_raises_witness :
  let t := {| full_name := "ns.Bad"; default_dtid := None;
              body := Message
                        [parsed_field "x" (Array (Foreign "9") MODE_STATIC 2)]
                        [] |} in
  let e := DsdlCompilerException "Unknown type category: 9" in
  (exists x shown,
      x ∈ all_fields t /\ innermost (attr_type x) = Foreign shown
      /\ e = DsdlCompilerException ("Unknown type category: " ++ shown))
  \/ (forallb (fun x => mappable (attr_type x)) (all_fields t) = true
      /\ exists c,
           c ∈ all_constants t /\ kind (const_type c) = KIND_FLOAT
           /\ literal_ok c = false /\ e = ValueError (string_value c))
  \/ (exists a, annotate t = Ok a /\ (fun _ => Ok "") a = Raise e).
Proof.
  apply (proj1 (generate_one_type_raises (fun _ => Ok "")
                  {| full_name := "ns.Bad"; default_dtid := None;
                     body := Message
                               [parsed_field "x"
                                  (Array (Foreign "9") MODE_STATIC 2)] [] |}
                  (DsdlCompilerException "Unknown type category: 9") eq_refl)).
Defined.

Lemma inject_constant_info_map (constants constants' : list Constant) :
  inject_constant_info constants = (constants', None) ->
  constants' = List.map (fun c => fst (inject_constant_info_step c)) constants.
Proof.
  revert constants'. induction constants as [|c cs IH]; intros cs'.
  - by intros [= <-].
  - cbn [inject_constant_info List.map].
    destruct (inject_constant_info_step c) as [c' [e |]]; [done |].
    destruct (inject_constant_info cs) as [cs'' e]. intros [= <- ->].
    cbn [fst]. f_equal. by apply IH.
Qed.

Lemma inject_constant_info_step_typed (d : string) (c : Constant) :
  fst (inject_constant_info_step (set_const_cpp_type d c))
  = set_const_cpp_type d (fst (inject_constant_info_step c)).
Proof.
  destruct (kind (const_type c)) eqn:Hk;
    try (rewrite !inject_constant_info_step_integer
           by (cbn [set_const_cpp_type const_type]; congruence);
         reflexivity).
  rewrite !inject_constant_info_step_float by done.
  change (special_values (set_const_cpp_type d c)) with (special_values c).
  cbn [set_const_cpp_type string_value].
  destruct (dict_get (string_value c) (special_values c)); [reflexivity |].
  by destruct (Py.float_accepts (string_value c)).
Qed.

Lemma to_result_Ok {A} (r : A * option Exception) (a : A) :
  to_result r = Ok a -> r = (a, None).
Proof. destruct r as [a' [e |]]; [done | by intros [= <-]]. Qed.

(** The constants that the template sees, from the constants of the
    type. *)
Lemma annotate_constants (constants typed final : list Constant) :
  Forall2 (fun c c' =>
             exists d, type_to_cpp_type (Primitive (const_type c)) = Ok d
                       /\ c' = set_const_cpp_type d c)
    constants typed ->
  to_result (inject_constant_info typed) = Ok final ->
  Forall2 (fun c c' =>
             exists d, type_to_cpp_type (Primitive (const_type c)) = Ok d
                       /\ c' = set_const_cpp_type d
                                 (fst (inject_constant_info_step c)))
    constants final.
Proof.
  intros Ht ->%to_result_Ok%inject_constant_info_map.
  induction Ht as [|c c' cs cs' (d & Hd & ->) _ IH]; [constructor |].
  cbn [List.map]. constructor; [| exact IH].
  exists d. split; [exact Hd | apply inject_constant_info_step_typed].
Qed.

Lemma annotate_Ok (t : CompoundType) (a : Annotated) :
  annotate t = Ok a ->
  exists b,
    a = annotated_with t (list_to_set (omap include_of (all_fields t))) b
    /\ compound_kind (with_body t b) = compound_kind t
    /\ Forall2 (fun x x' =>
                  exists d, type_to_cpp_type (attr_type x) = Ok d
                            /\ x' = set_attr_cpp_type d x)
         (all_fields t) (all_fields (with_body t b))
    /\ Forall2 (fun c c' =>
                  exists d, type_to_cpp_type (Primitive (const_type c)) = Ok d
                            /\ c' = set_const_cpp_type d
                                      (fst (inject_constant_info_step c)))
         (all_constants t) (all_constants (with_body t b)).
Proof.
  unfold annotate, all_fields at 1 2, all_constants at 1, compound_kind at 2.
  destruct (body t) as [fields constants | rf rc sf sc].
  - rewrite fields_includes_eq. cbn [mbind Result_bind].
    destruct (inject_cpp_types fields) as [fs |] eqn:Ef; [| done].
    destruct (inject_cpp_types_const_Ok constants) as (cs & -> & Hcs).
    cbn [mbind Result_bind].
    destruct (to_result (inject_constant_info cs)) as [cs' |] eqn:Ec; [| done].
    intros [= <-]. exists (Message fs cs'). repeat split.
    + by apply inject_cpp_types_Ok.
    + by apply (annotate_constants _ cs).
  - rewrite fields_includes_eq. cbn [mbind Result_bind].
    destruct (inject_cpp_types rf) as [rf' |] eqn:Erf; [| done].
    destruct (inject_cpp_types_const_Ok rc) as (rc' & -> & Hrc).
    destruct (inject_cpp_types_const_Ok sc) as (sc' & -> & Hsc).
    cbn [mbind Result_bind].
    destruct (inject_cpp_types sf) as [sf' |] eqn:Esf; [| done].
    cbn [mbind Result_bind].
    destruct (to_result (inject_constant_info rc')) as [rc'' |] eqn:Erc;
      [| done].
    cbn [mbind Result_bind].
    destruct (to_result (inject_constant_info sc')) as [sc'' |] eqn:Esc;
      [| done].
    intros [= <-]. exists (Service rf' rc'' sf' sc''). repeat split.
    + apply Forall2_app; by apply inject_cpp_types_Ok.
    + apply Forall2_app; [by apply (annotate_constants _ rc')
                         | by apply (annotate_constants _ sc')].
Qed.

Lemma generate_one_type_Ok (render : Annotated -> Result string)
    (t : CompoundType) (text : string) :
  generate_one_type render t = Ok text ->
  exists a raw, annotate t = Ok a /\ render a = Ok raw /\ text = normalize raw.
Proof.
  rewrite generate_one_type_annotate.
  destruct (annotate t) as [a |]; [| done].
  destruct (render a) as [raw |] eqn:Er; [| done].
  intros [= <-]. by exists a, raw.
Qed.



(** X8: what the template is rendered for: the fields in their order, each
    with the descriptor of its type attached and nothing else changed;
    the constants in their order, each with the descriptor of its type
    attached and as [inject_constant_info] leaves it. *)
Theorem generate_one_type_attributes (render : Annotated -> Result string)
    (t : CompoundType) (text : string) :
  generate_one_type render t = Ok text ->
  exists a raw,
    render a = Ok raw /\ text = normalize raw
    /\ Forall2 (fun x x' =>
                  exists d, type_to_cpp_type (attr_type x) = Ok d
                            /\ x' = set_attr_cpp_type d x)
         (all_fields t) (all_fields (annotated a))
    /\ Forall2 (fun c c' =>
                  exists d, type_to_cpp_type (Primitive (const_type c)) = Ok d
                            /\ c' = set_const_cpp_type d
                                      (fst (inject_constant_info_step c)))
         (all_constants t) (all_constants (annotated a)).
Proof.
  intros (a & raw & Ha & Hr & ->)%generate_one_type_Ok. exists a, raw.
  split; [exact Hr | split; [reflexivity |]].
  destruct (annotate_Ok t a Ha) as (b & -> & _ & Hf & Hc). by split.
Qed.

Lemma generate_one_type_attributes_witness :
  exists a,
    all_fields (annotated a)
    = [set_attr_cpp_type
         "::uavcan::IntegerSpec<8, ::uavcan::SignednessUnsigned, ::uavcan::CastModeSaturate>"
         (parsed_field "x" (Primitive uint8))].
Proof.
  destruct (generate_one_type_attributes (fun _ => Ok "") ns_Foo "" eq_refl)
    as (a & raw & _ & _ & Hf & _).
  exists a. revert Hf. generalize (all_fields (annotated a)). intros l Hf.
  inversion Hf as [|x x' xs l' (d & Hd & ->) Hnil]; subst.
  inversion Hnil; subst. injection Hd as <-. reflexivity.
Defined.

(** ** More on the normalisation *)

Lemma nonspace_app (a b : string) :
  nonspace (a ++ b) = nonspace a ++ nonspace b.
Proof.
  induction a as [|c a IH]; [done |].
  simpl String.append. cbn [nonspace]. destruct (Py.isspace c); [done |].
  simpl String.append. by rewrite IH.
Qed.

Lemma replace_nonspace (old new s : string) :
  old <> "" -> nonspace old = nonspace new ->
  nonspace (Py.replace old new s) = nonspace s.
Proof.
  intros Hne Hon.
  apply (replace_ind old new Hne (fun s r => nonspace r = nonspace s)).
  - done.
  - intros c t _ IH. cbn [nonspace]. by rewrite IH.
  - intros t IH. by rewrite !nonspace_app, IH, Hon.
Qed.

Lemma nonspace_rstrip (l : string) : nonspace (Py.rstrip l) = nonspace l.
Proof.
  induction l as [|c l IH]; [done |]. cbn [Py.rstrip nonspace].
  destruct (Py.rstrip l) as [|e r].
  - rewrite <- IH. by destruct (Py.isspace c) eqn:E; cbn [nonspace]; rewrite ?E.
  - cbn [nonspace] in *. by rewrite IH.
Qed.

Lemma linebreak_isspace (c : ascii) :
  Py.is_linebreak c = true -> Py.isspace c = true.
Proof.
  unfold Py.is_linebreak, Py.isspace. generalize (N_of_ascii c). intros n.
  rewrite !orb_true_iff, !andb_true_iff, !N.leb_le, !N.eqb_eq. lia.
Qed.

Lemma nonspace_join_cons (sep l : string) (ls : list string) :
  nonspace (Py.join sep (l :: ls))
  = nonspace l
      ++ match ls with
         | [] => ""
         | _ :: _ => nonspace sep ++ nonspace (Py.join sep ls)
         end.
Proof.
  destruct ls as [|l2 ls]; cbn [Py.join].
  - clear. induction (nonspace l) as [|c s IH]; [done |].
    simpl String.append. by rewrite <- IH.
  - by rewrite !nonspace_app.
Qed.

Lemma nonspace_join_rstrip (ls : list string) :
  nonspace (Py.join NL (List.map Py.rstrip ls)) = nonspace (Py.join "" ls).
Proof.
  induction ls as [|l ls IH]; [done |].
  cbn [List.map]. rewrite !nonspace_join_cons, nonspace_rstrip.
  destruct ls as [|l2 ls]; [done |].
  cbn [List.map] in *. by rewrite IH.
Qed.

Lemma nonspace_splitlines (x : string) :
  nonspace (Py.join "" (Py.splitlines x)) = nonspace x.
Proof.
  induction x as [|c x IH]; [done |]. cbn [Py.splitlines nonspace].
  destruct (Py.is_linebreak c) eqn:Hc.
  - rewrite (linebreak_isspace c Hc).
    destruct (_ && _); [exact IH |].
    rewrite nonspace_join_cons.
    destruct (Py.splitlines x); [exact IH | by rewrite <- IH].
  - destruct (Py.splitlines x) as [|l ls].
    + cbn [Py.join nonspace] in *. by rewrite <- IH.
    + rewrite nonspace_join_cons in *. rewrite <- IH.
      cbn [nonspace]. by destruct (Py.isspace c).
Qed.

(** X9: the normalisation removes and adds white space only: the characters
    that are no white space stay as they are, in their order. *)
Theorem normalize_keeps_nonspace (x : string) :
  nonspace (normalize x) = nonspace x.
Proof.
  unfold normalize, close_up_brace, collapse_blank_lines, strip_lines.
  rewrite !replace_nonspace by done.
  by rewrite nonspace_join_rstrip, nonspace_splitlines.
Qed.

Lemma stripped_tail (c : ascii) (s : string) :
  stripped (String c s) = true -> stripped s = true.
Proof. cbn [stripped]. by intros [_ H]%andb_true_iff. Qed.

Lemma stripped_app_r (a s : string) :
  stripped (a ++ s) = true -> stripped s = true.
Proof.
  induction a as [|c a IH]; [done |].
  simpl String.append. intros H%stripped_tail. auto.
Qed.

Lemma stripped_cons_same (c : ascii) (s r : string) :
  first_char r = first_char s ->
  stripped (String c s) = true -> stripped r = true ->
  stripped (String c r) = true.
Proof.
  intros Hfc Hs Hr. cbn [stripped] in *.
  apply andb_true_iff in Hs as [Hs _]. rewrite Hr, andb_true_r.
  destruct r as [|e r], s as [|d s]; try done.
  injection Hfc as ->. exact Hs.
Qed.

Lemma stripped_lf (s : string) : stripped (String Py.LF s) = stripped s.
Proof.
  cbn [stripped]. rewrite Ascii.eqb_refl. cbn [orb andb].
  destruct s; [done |]. by rewrite orb_true_r.
Qed.

Lemma stripped_nls_app (n : nat) (s : string) :
  stripped (Py.repeat_string NL n ++ s) = stripped s.
Proof.
  induction n as [|n IH]; [done |].
  rewrite nls_S. simpl String.append. by rewrite stripped_lf.
Qed.

Lemma tidy_stripped (s : string) : tidy s = true -> stripped s = true.
Proof.
  induction s as [|c s IH]; [done |]. cbn [tidy stripped].
  intros [[H1 H2]%andb_true_iff H3]%andb_true_iff.
  rewrite H1, (IH H3), andb_true_r. cbn [andb].
  destruct s; [by rewrite H2, orb_true_r | exact H2].
Qed.

Section ReplaceStripped.

Variables old new : string.
Hypothesis old_nonempty : old <> "".
Hypothesis same_first : first_char old = first_char new.
Hypothesis stripped_new :
  forall s r, first_char r = first_char s ->
              stripped (old ++ s) = true -> stripped r = true ->
              stripped (new ++ r) = true.

Lemma replace_stripped (s : string) :
  stripped s = true -> stripped (Py.replace old new s) = true.
Proof using old_nonempty same_first stripped_new.
  apply (replace_ind old new old_nonempty
           (fun s r => stripped s = true -> stripped r = true)).
  - done.
  - intros c t _ IH Ht.
    apply (stripped_cons_same c t); [by apply replace_first_char | done |].
    apply IH. by apply stripped_tail in Ht.
  - intros t IH Ht.
    apply (stripped_new t); [by apply replace_first_char | done |].
    apply IH. by apply stripped_app_r in Ht.
Qed.

End ReplaceStripped.

Lemma replace_nls_stripped (n : nat) (s : string) :
  (1 <= n)%nat ->
  stripped s = true ->
  stripped (Py.replace (Py.repeat_string NL n) (NL ++ NL) s) = true.
Proof.
  intros Hn. apply replace_stripped.
  - by apply nls_nonempty.
  - by destruct n; [lia |].
  - intros t r _ _.
    change (NL ++ NL) with (Py.repeat_string NL 2).
    by rewrite stripped_nls_app.
Qed.

Lemma close_up_brace_stripped (s : string) :
  stripped s = true -> stripped (close_up_brace s) = true.
Proof.
  apply replace_stripped; [done | done |].
  intros t r Hfc.
  change (("{" ++ NL ++ NL ++ " ") ++ t)
    with (String "{" (String Py.LF (String Py.LF (String " " t)))).
  change (("{" ++ NL ++ " ") ++ r)
    with (String "{" (String Py.LF (String " " r))).
  intros Ht Hr.
  do 3 apply stripped_tail in Ht.
  apply (stripped_cons_same " " t r Hfc) in Ht; [| done].
  cbn [stripped] in *. by rewrite Ht.
Qed.

Lemma stripped_line_app (l rest : string) :
  tidy l = true -> no_linebreak l = true -> stripped rest = true ->
  stripped (l ++ String Py.LF rest) = true.
Proof.
  intros Hl Hn Hr. induction l as [|c l IH].
  - simpl String.append. by rewrite stripped_lf.
  - simpl String.append. cbn [tidy stripped no_linebreak] in *.
    apply andb_true_iff in Hl as [[H1 H2]%andb_true_iff Hl].
    apply andb_true_iff in Hn as [Hc Hn].
    rewrite (IH Hl Hn), H1, andb_true_r. cbn [andb].
    destruct l as [|d l]; simpl String.append.
    + by rewrite H2, orb_true_r.
    + exact H2.
Qed.

Lemma join_stripped (lines : list string) :
  Forall (fun l => tidy l = true /\ no_linebreak l = true) lines ->
  stripped (Py.join NL lines) = true.
Proof.
  induction 1 as [|l lines [Hl Hn] _ IH]; [done |].
  destruct lines as [|l2 lines]; [by apply tidy_stripped |].
  change (Py.join NL (l :: l2 :: lines))
    with (l ++ String Py.LF (Py.join NL (l2 :: lines))).
  by apply stripped_line_app.
Qed.

Lemma normalize_stripped (x : string) : stripped (normalize x) = true.
Proof.
  unfold normalize, collapse_blank_lines.
  apply close_up_brace_stripped.
  apply (replace_nls_stripped 3); [lia |].
  apply (replace_nls_stripped 4); [lia |].
  apply join_stripped, Forall_map.
  eapply Forall_impl; [apply splitlines_no_linebreak |].
  intros l Hl. by apply rstrip_tidy.
Qed.

Lemma stripped_first_line (c : ascii) (s : string) (l : string)
    (ls : list string) :
  Py.splitlines (String c s) = l :: ls -> l = "" -> Py.is_linebreak c = true.
Proof.
  cbn [Py.splitlines]. destruct (Py.is_linebreak c); [done |].
  destruct (Py.splitlines s); by intros [= <- _].
Qed.

Lemma stripped_lines (y : string) :
  stripped y = true ->
  Forall (fun l => Py.rstrip l = l) (Py.splitlines y).
Proof.
  induction y as [|c y IH]; [constructor |].
  intros Hy. pose proof (stripped_tail _ _ Hy) as Hy'. specialize (IH Hy').
  cbn [stripped] in Hy.
  apply andb_true_iff in Hy as [[H1 H2]%andb_true_iff _].
  cbn [Py.splitlines].
  destruct (Ascii.eqb_spec c Py.LF) as [-> | Hc].
  - change (Py.is_linebreak Py.LF) with true.
    change (Ascii.eqb Py.LF Py.CR) with false. cbn [andb].
    by constructor.
  - cbn [orb] in H1. apply negb_true_iff in H1. rewrite H1.
    destruct y as [|d y].
    + cbn [Py.splitlines]. constructor; [| constructor].
      cbn [Py.rstrip]. cbn [orb] in H2. apply negb_true_iff in H2.
      by rewrite H2.
    + destruct (Py.splitlines (String d y)) as [|l ls] eqn:E;
        [by apply splitlines_nonempty in E |].
      inversion IH as [|? ? Hl Hls]; subst.
      constructor; [| done].
      cbn [Py.rstrip]. rewrite Hl. destruct l as [|e l]; [| done].
      pose proof (stripped_first_line _ _ _ _ E eq_refl) as Hd.
      cbn [stripped] in Hy'.
      apply andb_true_iff in Hy' as [[Hd1 _]%andb_true_iff _].
      rewrite Hd, orb_false_r in Hd1. rewrite Hd1 in H2.
      cbn [negb orb] in H2. apply negb_true_iff in H2. by rewrite H2.
Qed.

Lemma stripped_only_lf (y : string) (c : ascii) :
  stripped y = true -> Py.is_linebreak c = true -> c <> Py.LF ->
  count_char c y = O.
Proof.
  intros Hy Hc Hne. induction y as [|d y IH]; [done |].
  pose proof (stripped_tail _ _ Hy) as Hy'.
  cbn [stripped] in Hy.
  apply andb_true_iff in Hy as [[H1 _]%andb_true_iff _].
  cbn [count_char]. rewrite (IH Hy').
  destruct (Ascii.eqb_spec d c) as [-> | ?]; [| done].
  rewrite Hc, orb_false_r in H1. by apply Ascii.eqb_eq in H1.
Qed.

(** X10: in a normalised text no line ends in white space, and the line
    feed is the only line boundary. *)
Theorem normalize_lines_stripped (x : string) :
  Forall (fun l => Py.rstrip l = l) (Py.splitlines (normalize x))
  /\ (forall c, Py.is_linebreak c = true -> c <> Py.LF ->
                count_char c (normalize x) = O).
Proof.
  split.
  - apply stripped_lines, normalize_stripped.
  - intros c. apply stripped_only_lf, normalize_stripped.
Qed.

Lemma normalize_lines_stripped_witness :
  count_char Py.CR (normalize ("a " ++ String Py.CR (String Py.LF "b"))) = O.
Proof.
  apply (proj2 (normalize_lines_stripped _)); [reflexivity | discriminate].
Defined.

(** ** More on the dependency collector *)

(** X11: the includes of two lists of fields together are the union of the
    includes of each, as for the request and the response of a service;
    and there is no include exactly when no field has a compound type. *)
Theorem fields_includes_union (fields1 fields2 : list Attribute) :
  (exists S1 S2 : gset string,
     fields_includes fields1 = Ok S1 /\ fields_includes fields2 = Ok S2
     /\ fields_includes (fields1 ++ fields2) = Ok (S1 ∪ S2))
  /\ (fields_includes fields1 = Ok ∅
      <-> Forall (fun x => is_compound (attr_type x) = false) fields1).
Proof.
  split.
  - exists (list_to_set (omap include_of fields1)),
           (list_to_set (omap include_of fields2)).
    rewrite !fields_includes_eq. repeat split.
    by rewrite omap_app, list_to_set_app_L.
  - rewrite fields_includes_eq. split.
    + intros [= H]. apply Forall_forall. intros x Hx.
      pose proof (include_of_filter x) as Hf.
      destruct (is_compound (attr_type x)); [| done].
      destruct Hf as (inc & Hinc & _).
      assert (inc ∈ (∅ : gset string)) as Hin; [| by apply elem_of_empty in Hin].
      rewrite <- H, elem_of_list_to_set, list_elem_of_omap. eauto.
    + intros H. f_equal. apply set_eq. intros inc.
      rewrite elem_of_list_to_set, list_elem_of_omap. split.
      * intros (x & Hx & Hinc).
        rewrite Forall_forall in H. specialize (H x Hx).
        pose proof (include_of_filter x) as Hf. rewrite H in Hf. congruence.
      * by intros ?%elem_of_empty.
Qed.

(** ** More on the file writer *)

Lemma replace_char_cons (c : ascii) (new : string) (d : ascii) (s : string) :
  Py.replace (String c "") new (String d s)
  = (if Ascii.eqb d c then new else String d "")
      ++ Py.replace (String c "") new s.
Proof.
  unfold Py.replace. cbn [Py.replace_from String.length Nat.sub].
  rewrite prefix_cons, prefix_nil, andb_true_r, (Ascii.eqb_sym c d).
  by destruct (Ascii.eqb d c).
Qed.

(** From the file name back to the name of the type. *)
Lemma replace_char_back (c d : ascii) (s : string) :
  count_char d s = O ->
  Py.replace (String d "") (String c "") (Py.replace (String c "") (String d "") s)
  = s.
Proof.
  induction s as [|e s IH]; [done |]. cbn [count_char].
  destruct (Ascii.eqb e d) eqn:Hed; [done |]. intros Hs.
  rewrite replace_char_cons.
  destruct (Ascii.eqb e c) eqn:Hec; cbn [String.append];
    rewrite replace_char_cons.
  - rewrite Ascii.eqb_refl, (IH Hs). apply Ascii.eqb_eq in Hec as ->. done.
  - by rewrite Hed, (IH Hs).
Qed.

(** X12: two types are never written to the same file: for names without a
    path separator that do not start with a dot, the path of the file
    gives the name of the type. *)
Theorem file_path_of_inj (root : string) (t1 t2 : CompoundType) :
  count_char "/" (full_name t1) = O -> count_char "/" (full_name t2) = O ->
  Py.startswith (full_name t1) "." = false ->
  Py.startswith (full_name t2) "." = false ->
  file_path_of root t1 = file_path_of root t2 ->
  full_name t1 = full_name t2.
Proof.
  unfold file_path_of, Py.os_path_join, Py.startswith.
  intros H1 H2 Hd1 Hd2.
  assert (forall n, count_char "/" n = O -> String.prefix "." n = false ->
            String.prefix "/" (Py.replace "." Py.os_path_sep n
                                 ++ "." ++ CPP_HEADER_EXTENSION) = false) as Hp.
  { intros [|c n]; [done |]. cbn [count_char].
    rewrite prefix_cons, prefix_nil, andb_true_r, (Ascii.eqb_sym "." c).
    intros Hc Hdot. rewrite (replace_char_cons "." Py.os_path_sep), Hdot.
    cbn [String.append]. rewrite prefix_cons, (Ascii.eqb_sym "/" c).
    by destruct (Ascii.eqb c "/"). }
  rewrite (Hp _ H1 Hd1), (Hp _ H2 Hd2).
  intros H.
  assert (Py.replace "." "/" (full_name t1) = Py.replace "." "/" (full_name t2))
    as Hr.
  { destruct (String.eqb root "" || Py.endswith root "/");
      repeat apply append_cancel_l in H; by apply append_cancel_r in H. }
  rewrite <- (replace_char_back "." "/" (full_name t1)) by done.
  rewrite <- (replace_char_back "." "/" (full_name t2)) by done.
  by rewrite Hr.
Qed.

Lemma file_path_of_inj_witness :
  full_name ns_Foo
  = full_name {| full_name := "ns.Foo"; default_dtid := Some 5%Z;
                 body := Message [] [] |}.
Proof.
  apply (file_path_of_inj "/out" ns_Foo
           {| full_name := "ns.Foo"; default_dtid := Some 5%Z;
              body := Message [] [] |}); reflexivity.
Defined.

Section WriterMore.

Variable render : Annotated -> Result string.
Variable fs : list FsOp -> FsOp -> option Exception.

Lemma run_generator_loop_dirs (root : string) (log : list FsOp)
    (types : list CompoundType) (prev : FsOp) (i : nat) (path text : string) :
  (prev :: fst (run_generator_loop render fs root log types)) !! S i
  = Some (WriteFile path text) ->
  (prev :: fst (run_generator_loop render fs root log types)) !! i
  = Some (Makedirs (Py.os_path_dirname path))
  /\ exists t, t ∈ types /\ path = file_path_of root t
               /\ generate_one_type render t = Ok text.
Proof.
  revert log prev i. induction types as [|t ts IH]; intros log prev i;
    [by destruct i |].
  rewrite run_generator_loop_cons. cbn zeta.
  destruct (fs log _); [by destruct i |].
  destruct (generate_one_type render t) as [text' |] eqn:Ht.
  2: { destruct i as [|[|i]]; done. }
  destruct (fs (log ++ _) _); [destruct i as [|[|i]]; done |].
  cbn [fst].
  destruct i as [|[|i]]; [done | |].
  - intros [= <- <-]. split; [done |].
    exists t. split; [by apply elem_of_cons; left | done].
  - intros H.
    destruct (IH _ (WriteFile (file_path_of root t) text') i H)
      as (H1 & t' & ? & ? & ?).
    split; [exact H1 |].
    exists t'. split; [by apply elem_of_cons; right | done].
Qed.

(** Where the loop stops when it ends with an exception. *)
Lemma run_generator_loop_raises (root : string) (log : list FsOp)
    (types : list CompoundType) (e : Exception) :
  snd (run_generator_loop render fs root log types) = Some e ->
  exists before t after,
    types = (before ++ t :: after)%list
    /\ Forall (fun b => succeeds (generate_one_type render b) = true) before
    /\ written_paths (fst (run_generator_loop render fs root log types))
       = List.map (file_path_of root) before
    /\ (fs (log ++ fst (run_generator_loop render fs root log types))
          (Makedirs (Py.os_path_dirname (file_path_of root t))) = Some e
        \/ (last (fst (run_generator_loop render fs root log types))
            = Some (Makedirs (Py.os_path_dirname (file_path_of root t)))
            /\ (generate_one_type render t = Raise e
                \/ exists text,
                     generate_one_type render t = Ok text
                     /\ fs (log ++ fst (run_generator_loop render fs root
                                          log types))
                          (WriteFile (file_path_of root t) text) = Some e))).
Proof.
  revert log. induction types as [|t ts IH]; intros log; [done |].
  rewrite run_generator_loop_cons. cbn zeta.
  destruct (fs log _) as [e0 |] eqn:Hd.
  { intros [= ->]. exists [], t, ts. cbn [fst]. rewrite app_nil_r.
    split; [done | split; [constructor | split; [done | by left]]]. }
  destruct (generate_one_type render t) as [text |] eqn:Ht.
  2: { intros [= ->]. exists [], t, ts. cbn [fst].
       split; [done | split; [constructor | split; [done |]]].
       right. split; [done | by left]. }
  destruct (fs (log ++ _) _) as [e0 |] eqn:Hw.
  { intros [= ->]. exists [], t, ts. cbn [fst].
    split; [done | split; [constructor | split; [done |]]].
    right. split; [done |]. right. by exists text. }
  cbn [fst snd]. intros H.
  destruct (IH _ H) as (before & t' & after & -> & Hb & Hp & Hc).
  exists (t :: before), t', after.
  split; [done | split; [| split]].
  - constructor; [by rewrite Ht | exact Hb].
  - cbn [written_paths omap list_omap List.map]. f_equal. exact Hp.
  - rewrite <- !app_assoc in Hc. cbn [app] in Hc.
    destruct Hc as [Hc | [Hl Hc]]; [by left | right].
    split; [| exact Hc].
    rewrite !last_cons, Hl. done.
Qed.

(** What the loop has done when it ends without an exception. *)
Lemma run_generator_loop_done (root : string) (log : list FsOp)
    (types : list CompoundType) :
  snd (run_generator_loop render fs root log types) = None ->
  Forall (fun t => succeeds (generate_one_type render t) = true) types
  /\ Makedirs root :: fst (run_generator_loop render fs root log types)
     = full_run render root types.
Proof.
  unfold full_run. revert log. induction types as [|t ts IH]; intros log.
  - by split.
  - rewrite run_generator_loop_cons. cbn zeta.
    destruct (fs log _); [done |].
    cbn [List.map concat].
    destruct (generate_one_type render t) as [text |] eqn:Ht; [| done].
    destruct (fs (log ++ _) _); [done |].
    cbn [fst snd]. intros H. destruct (IH _ H) as [IH1 IH2].
    split; [constructor; [by rewrite Ht | exact IH1] |].
    injection IH2 as IH2. cbn [app]. by rewrite IH2.
Qed.

(** With a file system that raises nothing, the loop ends without an
    exception when every type is generated. *)
Lemma run_generator_loop_through (root : string) (log : list FsOp)
    (types : list CompoundType) :
  (forall log op, fs log op = None) ->
  Forall (fun t => succeeds (generate_one_type render t) = true) types ->
  snd (run_generator_loop render fs root log types) = None.
Proof.
  intros Hfs Hg. revert log. induction Hg as [|t ts Ht _ IH]; intros log;
    [done |].
  rewrite run_generator_loop_cons. cbn zeta. rewrite Hfs.
  destruct (generate_one_type render t); [| done]. rewrite Hfs. apply IH.
Qed.

End WriterMore.

(** X13: every file is written directly after its directory was made, holds
    the text that [generate_one_type] returns for one of the types, and
    lies where [type_output_filename] places that type; the first thing
    made is the destination directory. *)
Theorem run_generator_dirs_before_files (render : Annotated -> Result string)
    (fs : list FsOp -> FsOp -> option Exception)
    (cwd : string) (types : list CompoundType) (dest_dir : string)
    (i : nat) (path text : string) :
  fst (run_generator render fs cwd types dest_dir) !! S i
  = Some (WriteFile path text) ->
  fst (run_generator render fs cwd types dest_dir) !! i
  = Some (Makedirs (Py.os_path_dirname path))
  /\ fst (run_generator render fs cwd types dest_dir) !! O
     = Some (Makedirs (Py.os_path_abspath cwd dest_dir))
  /\ exists t, t ∈ types
               /\ path = file_path_of (Py.os_path_abspath cwd dest_dir) t
               /\ generate_one_type render t = Ok text.
Proof.
  rewrite run_generator_eq. cbn zeta. destruct (fs [] _); [done |].
  cbn [fst]. intros H.
  destruct (run_generator_loop_dirs render fs _ _ _ _ _ _ _ H) as [H1 H2].
  by repeat split.
Qed.

Lemma run_generator_dirs_before_files_witness :
  fst (run_generator (fun _ => Ok "") (fun _ _ => None) "/w" [ns_Foo] "outdir")
    !! 1%nat
  = Some (Makedirs "/w/outdir/ns").
Proof.
  apply (proj1 (run_generator_dirs_before_files (fun _ => Ok "")
                  (fun _ _ => None) "/w" [ns_Foo]
                  "outdir" 1 "/w/outdir/ns/Foo.hpp" "" eq_refl)).
Defined.

(** X14: a run of [run_generator] that ends with an exception stopped at
    the first failure.  Either the destination directory could not be made
    and nothing was done; or there is a first type at which it stopped:
    the types before it were generated and exactly their files are
    written, and the exception is that of making the directory of that
    type, or, with that directory made last, that of [generate_one_type]
    for it or that of writing its file.  No later type is touched. *)
Theorem run_generator_stops_at_first_failure
    (render : Annotated -> Result string)
    (fs : list FsOp -> FsOp -> option Exception)
    (cwd : string) (types : list CompoundType) (dest_dir : string)
    (e : Exception) :
  let root := Py.os_path_abspath cwd dest_dir in
  let r := run_generator render fs cwd types dest_dir in
  snd r = Some e ->
  (fst r = [] /\ fs [] (Makedirs root) = Some e)
  \/ exists before t after,
       types = (before ++ t :: after)%list
       /\ Forall (fun b => succeeds (generate_one_type render b) = true) before
       /\ written_paths (fst r) = List.map (file_path_of root) before
       /\ (fs (fst r) (Makedirs (Py.os_path_dirname (file_path_of root t)))
           = Some e
           \/ (last (fst r)
               = Some (Makedirs (Py.os_path_dirname (file_path_of root t)))
               /\ (generate_one_type render t = Raise e
                   \/ exists text,
                        generate_one_type render t = Ok text
                        /\ fs (fst r) (WriteFile (file_path_of root t) text)
                           = Some e))).
Proof.
  cbn zeta. rewrite run_generator_eq. cbn zeta.
  destruct (fs [] _) as [e0 |] eqn:Hroot.
  { intros [= ->]. by left. }
  cbn [fst snd]. intros H. right.
  destruct (run_generator_loop_raises render fs _ _ _ _ H)
    as (before & t & after & -> & Hb & Hp & Hc).
  exists before, t, after.
  split; [done | split; [exact Hb | split; [exact Hp |]]].
  cbn [app] in Hc. destruct Hc as [Hc | [Hl Hc]]; [by left | right].
  split; [| exact Hc]. by rewrite last_cons, Hl.
Qed.

Lemma run_generator_stops_at_first_failure_witness :
  let bad := {| full_name := "ns.Bad"; default_dtid := None;
                body := Message [parsed_field "x" (Foreign "9")] [] |} in
  let r := run_generator (fun _ => Ok "") (fun _ _ => None) "/w"
             [ns_Foo; bad; ns_Uses_Foo] "out" in
  (fst r = [] /\ None = Some (DsdlCompilerException "Unknown type category: 9"))
  \/ exists before t after,
       [ns_Foo; bad; ns_Uses_Foo] = (before ++ t :: after)%list
       /\ Forall (fun b => succeeds (generate_one_type (fun _ => Ok "") b) = true)
            before
       /\ written_paths (fst r) = List.map (file_path_of "/w/out") before
       /\ (None = Some (DsdlCompilerException "Unknown type category: 9")
           \/ (last (fst r)
               = Some (Makedirs (Py.os_path_dirname (file_path_of "/w/out" t)))
               /\ (generate_one_type (fun _ => Ok "") t
                   = Raise (DsdlCompilerException "Unknown type category: 9")
                   \/ exists text,
                        generate_one_type (fun _ => Ok "") t = Ok text
                        /\ None = Some (DsdlCompilerException
                                          "Unknown type category: 9")))).
Proof.
  apply (run_generator_stops_at_first_failure (fun _ => Ok "")
           (fun _ _ => None) "/w"
           [ ns_Foo;
             {| full_name := "ns.Bad"; default_dtid := None;
                body := Message [parsed_field "x" (Foreign "9")] [] |};
             ns_Uses_Foo ] "out"
           (DsdlCompilerException "Unknown type category: 9") eq_refl).
Defined.

(** ** The main program *)

(** X15: the exit status of the script.  When it is 0, the parser
    returned at least one type, every type was generated, and the file
    system was asked for the destination directory and then, type by type,
    for the directory and the file of each; and it is 0 when the parser
    returns at least one type, every type is generated and the file system
    raises nothing.  Otherwise it is 1: through [die] with the text of the
    parser's error, with the text for no types, or with the exception of
    [run_generator]; or by an exception of the parser that nothing
    catches.  Without types nothing is asked of the file system.  When
    [argparse] ends the script the status is its own and nothing is
    done. *)
Theorem main_exit_status (render : Annotated -> Result string)
    (fs : list FsOp -> FsOp -> option Exception) (cwd : string)
    (verbose : option Z) (outdir : option string) (parsed : Parsed) :
  let r := main render fs cwd (Args verbose outdir) parsed in
  let dest_dir := match outdir with Some d => d | None => DEFAULT_OUTDIR end in
  (exit_status r = 0%Z ->
   exists types,
     parsed = Types types /\ types <> []
     /\ Forall (fun t => succeeds (generate_one_type render t) = true) types
     /\ fs_ops r = full_run render (Py.os_path_abspath cwd dest_dir) types)
  /\ (forall types,
        parsed = Types types -> types <> [] ->
        Forall (fun t => succeeds (generate_one_type render t) = true) types ->
        (forall log op, fs log op = None) ->
        exit_status r = 0%Z)
  /\ (exit_status r = 0%Z \/ exit_status r = 1%Z)
  /\ (exit_status r = 0%Z <-> died r = None /\ uncaught r = None)
  /\ (forall types e,
        parsed = Types types -> types <> [] ->
        snd (run_generator render fs cwd types dest_dir) = Some e ->
        exit_status r = 1%Z /\ died r = Some (StrOf e)
        /\ fs_ops r = fst (run_generator render fs cwd types dest_dir))
  /\ ((forall t ts, parsed <> Types (t :: ts)) -> fs_ops r = [])
  /\ (parsed = Types [] ->
      died r = Some (Text "No type definitions were found"))
  /\ (forall err, parsed = DsdlException err -> died r = Some (Text err))
  /\ (forall ex, parsed = ParserException ex ->
        uncaught r = Some ex /\ died r = None)
  /\ (forall status,
        main render fs cwd (ArgparseExit status) parsed
        = {| exit_status := status; died := None; uncaught := None;
             log_level := None; fs_ops := [] |}).
Proof.
  cbn zeta. unfold main.
  destruct parsed as [err | ex | [|t ts]].
  1-3: cbn [die exit_status died uncaught fs_ops];
    repeat match goal with |- _ /\ _ => split end;
    try done; try (by right);
    try (by intros; simplify_eq); try (by split; [| intros []]).
  set (dest_dir := match outdir with Some d => d | None => DEFAULT_OUTDIR end).
  pose proof (run_generator_eq render fs cwd (t :: ts) dest_dir) as Heq.
  cbn zeta in Heq.
  pose proof (run_generator_loop_done render fs
                (Py.os_path_abspath cwd dest_dir)
                [Makedirs (Py.os_path_abspath cwd dest_dir)] (t :: ts))
    as Hdone.
  pose proof (fun H => run_generator_loop_through render fs
                (Py.os_path_abspath cwd dest_dir)
                [Makedirs (Py.os_path_abspath cwd dest_dir)] (t :: ts) H)
    as Hthrough.
  destruct (run_generator render fs cwd (t :: ts) dest_dir) as [ops [e |]]
    eqn:Hrun; cbn [die exit_status died uncaught fs_ops fst snd].
  - repeat match goal with |- _ /\ _ => split end;
      try done; try (by right);
      try (by intros; simplify_eq); try (by split; [| intros []]).
    + intros types [= <-] _ Hg Hfs.
      rewrite Hfs, (Hthrough Hfs Hg) in Heq. congruence.
    + intros types e0 [= <-] _. rewrite Hrun. cbn [fst snd].
      by intros [= <-].
    + intros H. by destruct (H t ts).
  - destruct (fs [] _); [done |]. injection Heq as -> Heq.
    destruct (Hdone (eq_sym Heq)) as [Hg Hfull].
    repeat match goal with |- _ /\ _ => split end;
      try done; try (by left);
      try (by intros; simplify_eq).
    + intros _. exists (t :: ts). by repeat split.
    + intros types e0 [= <-] _. by rewrite Hrun.
    + intros H. by destruct (H t ts).
Qed.

Lemma main_exit_status_witness :
  exit_status (main (fun _ => Ok "") (fun _ _ => None) "/w" (Args None None)
                 (Types [ns_Foo; ns_Uses_Foo])) = 0%Z.
Proof.
  apply (proj1 (proj2 (main_exit_status (fun _ => Ok "") (fun _ _ => None) "/w"
                         None None (Types [ns_Foo; ns_Uses_Foo])))
           [ns_Foo; ns_Uses_Foo]).
  - reflexivity.
  - discriminate.
  - repeat constructor.
  - reflexivity.
Defined.

(** ** [configure_logging] *)

Lemma configure_logging_Some (w : Z) :
  configure_logging (Some w)
  = if (w =? 0)%Z then WARNING else if (w =? 1)%Z then INFO else DEBUG.
Proof.
  unfold configure_logging. cbn [dict_get_default].
  destruct (Z.eqb_spec w 0) as [-> | H0]; [reflexivity |].
  rewrite (proj2 (Z.eqb_neq w 0) H0).
  destruct (Z.eqb_spec w 1); [reflexivity |].
  by destruct (Z.eqb_spec w 2).
Qed.

(** X16: more [-v] flags never give less output: the level falls from WARNING
    through INFO to DEBUG.  No flag is as a count of 0, and every count
    that is no key of the table, 2 and more as well as a negative one,
    gives DEBUG. *)
Theorem configure_logging_levels (v v' : Z) :
  (0 <= v <= v')%Z ->
  (level_number (configure_logging (Some v'))
   <= level_number (configure_logging (Some v)))%Z
  /\ configure_logging None = configure_logging (Some 0%Z)
  /\ (forall w, w <> 0%Z -> w <> 1%Z -> configure_logging (Some w) = DEBUG).
Proof.
  intros Hv. rewrite !configure_logging_Some. repeat split.
  - destruct (Z.eqb_spec v 0), (Z.eqb_spec v 1), (Z.eqb_spec v' 0),
      (Z.eqb_spec v' 1); cbn [level_number]; lia.
  - intros w H0 H1. rewrite configure_logging_Some.
    destruct (Z.eqb_spec w 0), (Z.eqb_spec w 1); lia || reflexivity.
Qed.

Lemma configure_logging_levels_witness :
  (level_number (configure_logging (Some 3%Z))
   <= level_number (configure_logging (Some 1%Z)))%Z.
Proof.
  apply (proj1 (configure_logging_levels 1 3 ltac:(lia))).
Defined.

(** ** The directory of a type *)

Lemma is_component_spec (s : string) :
  is_component s = true
  <-> s <> "" /\ count_char "." s = O /\ count_char "/" s = O.
Proof.
  unfold is_component.
  rewrite !andb_true_iff, negb_true_iff, String.eqb_neq, !Nat.eqb_eq. tauto.
Qed.

Lemma replace_char_app (c : ascii) (new a b : string) :
  Py.replace (String c "") new (a ++ b)
  = Py.replace (String c "") new a ++ Py.replace (String c "") new b.
Proof.
  induction a as [|d a IH]; [done |].
  cbn [String.append]. rewrite !replace_char_cons, IH.
  by rewrite append_assoc.
Qed.

Lemma replace_char_absent (c : ascii) (new s : string) :
  count_char c s = O -> Py.replace (String c "") new s = s.
Proof.
  induction s as [|d s IH]; [done |]. cbn [count_char].
  rewrite replace_char_cons. destruct (Ascii.eqb d c); [done |].
  intros H. by rewrite (IH H).
Qed.

Lemma replace_join (comps : list string) :
  Forall (fun s => is_component s = true) comps ->
  Py.replace "." "/" (Py.join "." comps) = Py.join "/" comps.
Proof.
  induction 1 as [|s comps Hs _ IH]; [done |].
  apply is_component_spec in Hs as (_ & Hs & _).
  destruct comps as [|s2 comps].
  - by apply (replace_char_absent "." "/").
  - change (Py.join "." (s :: s2 :: comps))
      with (s ++ "." ++ Py.join "." (s2 :: comps)).
    change (Py.join "/" (s :: s2 :: comps))
      with (s ++ "/" ++ Py.join "/" (s2 :: comps)).
    rewrite !(replace_char_app "." "/"), IH.
    by rewrite (replace_char_absent "." "/" s Hs).
Qed.

Lemma join_snoc (sep : string) (comps : list string) (s : string) :
  comps <> [] ->
  Py.join sep (comps ++ [s]) = Py.join sep comps ++ sep ++ s.
Proof.
  induction comps as [|a comps IH]; [done |]. intros _.
  destruct comps as [|b comps]; [done |].
  change (Py.join sep ((a :: b :: comps) ++ [s]))
    with (a ++ sep ++ Py.join sep ((b :: comps) ++ [s])).
  rewrite IH by done.
  change (Py.join sep (a :: b :: comps))
    with (a ++ sep ++ Py.join sep (b :: comps)).
  by rewrite !append_assoc.
Qed.

Lemma endswith_char_absent (c : ascii) (s : string) :
  count_char c s = O -> Py.endswith s (String c "") = false.
Proof.
  induction s as [|d s IH]; [done |]. cbn [count_char Py.endswith].
  destruct (Ascii.eqb_spec d c) as [-> | Hne]; [done |]. intros H.
  rewrite (IH H), orb_false_r. apply String.eqb_neq. congruence.
Qed.

Lemma endswith_app_r (a b : string) (c : ascii) :
  b <> "" ->
  Py.endswith (a ++ b) (String c "") = Py.endswith b (String c "").
Proof.
  intros Hb. induction a as [|d a IH]; [done |].
  cbn [String.append Py.endswith]. rewrite IH.
  assert (String.eqb (String d (a ++ b)) (String c "") = false) as ->; [| done].
  apply String.eqb_neq. intros [= _ H]. destruct a; [done | done].
Qed.

Lemma endswith_join (comps : list string) :
  comps <> [] -> Forall (fun s => is_component s = true) comps ->
  Py.endswith (Py.join "/" comps) "/" = false.
Proof.
  intros Hne H. induction H as [|s comps Hs H IH]; [done |].
  destruct comps as [|s2 comps].
  - apply is_component_spec in Hs as (_ & _ & Hs).
    by apply endswith_char_absent.
  - change (Py.join "/" (s :: s2 :: comps))
      with (s ++ "/" ++ Py.join "/" (s2 :: comps)).
    rewrite <- append_assoc, endswith_app_r; [by apply IH |].
    inversion H as [|? ? H2 _]; subst.
    apply is_component_spec in H2 as (H2 & _).
    intros E. destruct s2; [done |]. by destruct comps.
Qed.

Lemma head_to_last_slash_none (f : string) :
  count_char "/" f = O -> Py.head_to_last_slash f = "".
Proof.
  destruct f as [|c f]; [done |]. intros Hf.
  cbn [Py.head_to_last_slash].
  assert (Py.occurs "/" (String c f) = false) as ->; [| done].
  revert Hf. generalize (String c f). clear. intros s.
  induction s as [|d s IH]; [done |]. cbn [count_char].
  rewrite occurs_cons, prefix_cons, prefix_nil, andb_true_r,
    (Ascii.eqb_sym "/" d).
  destruct (Ascii.eqb d "/"); [done |]. exact IH.
Qed.

Lemma occurs_slash_app (d f : string) :
  Py.occurs "/" (d ++ String "/" f) = true.
Proof.
  induction d as [|c d IH].
  - cbn [String.append]. by rewrite occurs_cons, prefix_cons, prefix_nil.
  - cbn [String.append]. by rewrite occurs_cons, IH, orb_true_r.
Qed.

Lemma head_to_last_slash_app (d f : string) :
  count_char "/" f = O ->
  Py.head_to_last_slash (d ++ String "/" f) = d ++ "/".
Proof.
  intros Hf. induction d as [|c d IH].
  - pose proof (occurs_slash_app "" f) as Ho.
    cbn [String.append Py.head_to_last_slash] in *.
    by rewrite Ho, (head_to_last_slash_none f Hf).
  - pose proof (occurs_slash_app (String c d) f) as Ho.
    cbn [String.append Py.head_to_last_slash] in *.
    by rewrite Ho, IH.
Qed.

Lemma rstrip_slashes_app (d : string) :
  Py.endswith d "/" = false -> Py.rstrip_slashes (d ++ "/") = d.
Proof.
  induction d as [|c d IH]; [done |].
  cbn [Py.endswith String.append Py.rstrip_slashes].
  intros [Hc Hd]%orb_false_iff. rewrite (IH Hd).
  destruct d as [|e d]; [| done].
  destruct (Ascii.eqb_spec c "/") as [-> | _]; done.
Qed.

Lemma repeat_slash_endswith (n : nat) (d : string) :
  d <> "" -> d ++ "/" = Py.repeat_string "/" n -> Py.endswith d "/" = true.
Proof.
  revert d. induction n as [|n IH]; intros d Hd H.
  - by destruct d.
  - destruct d as [|c d]; [done |].
    change (Py.repeat_string "/" (S n))
      with (String "/" (Py.repeat_string "/" n)) in H.
    cbn [String.append] in H. injection H as -> H.
    cbn [Py.endswith]. destruct d as [|e d]; [done |].
    by rewrite (IH (String e d)), orb_true_r.
Qed.

(** The directory of a path that ends in a file name. *)
Lemma os_path_dirname_app (d f : string) :
  d <> "" -> Py.endswith d "/" = false -> count_char "/" f = O ->
  Py.os_path_dirname (d ++ "/" ++ f) = d.
Proof.
  intros Hd He Hf. unfold Py.os_path_dirname.
  change (d ++ "/" ++ f) with (d ++ String "/" f).
  rewrite (head_to_last_slash_app d f Hf).
  assert (String.eqb (d ++ "/") "" = false) as ->
    by (apply String.eqb_neq; by destruct d).
  assert (String.eqb (d ++ "/")
            (Py.repeat_string "/" (String.length (d ++ "/"))) = false) as ->.
  { apply String.eqb_neq. intros E.
    by rewrite (repeat_slash_endswith _ d Hd E) in He. }
  cbn [negb andb]. by apply rstrip_slashes_app.
Qed.

(** X17: the directory that is made for a type mirrors its namespace: for a
    name of components without dots and separators, it is the destination
    directory followed by the namespace components with the separator
    between them; for a name without namespace it is the destination
    directory itself. *)
Theorem directory_mirrors_namespace (root : string) (t : CompoundType)
    (namespace : list string) (name : string) :
  full_name t = Py.join "." (namespace ++ [name]) ->
  Forall (fun s => is_component s = true) namespace ->
  is_component name = true ->
  root <> "" -> Py.endswith root "/" = false ->
  file_path_of root t
  = root ++ "/" ++ Py.join "/" (namespace ++ [name]) ++ ".hpp"
  /\ Py.os_path_dirname (file_path_of root t)
     = match namespace with
       | [] => root
       | _ :: _ => root ++ "/" ++ Py.join "/" namespace
       end.
Proof.
  intros Hfn Hns Hname Hroot Hend.
  assert (Forall (fun s => is_component s = true) (namespace ++ [name])) as Hall
    by (apply Forall_app; split; [done | by constructor]).
  assert (file_path_of root t
          = root ++ "/" ++ Py.join "/" (namespace ++ [name]) ++ ".hpp") as Hp.
  { unfold file_path_of, Py.os_path_join.
    change Py.os_path_sep with "/". rewrite Hfn, (replace_join _ Hall).
    rewrite Hend, orb_false_r.
    assert (String.eqb root "" = false) as -> by by apply String.eqb_neq.
    assert (Py.startswith
              (Py.join "/" (namespace ++ [name]) ++ "." ++ CPP_HEADER_EXTENSION)
              "/" = false) as ->; [| done].
    unfold Py.startswith.
    assert (exists c s, Py.join "/" (namespace ++ [name]) = String c s
                        /\ c <> "/"%char) as (c & s & -> & Hc).
    { destruct namespace as [|a ns].
      - apply is_component_spec in Hname as (H1 & _ & H2).
        destruct name as [|c s]; [done |]. exists c, s. split; [done |].
        intros ->. cbn [count_char] in H2. by rewrite Ascii.eqb_refl in H2.
      - inversion Hns as [|? ? Ha _]; subst.
        apply is_component_spec in Ha as (H1 & _ & H2).
        destruct a as [|c s]; [done |].
        exists c. destruct ns; eexists; (split; [reflexivity |]);
          intros ->; cbn [count_char] in H2; by rewrite Ascii.eqb_refl in H2. }
    cbn [String.append]. rewrite prefix_cons.
    by rewrite (proj2 (Ascii.eqb_neq "/" c)) by congruence. }
  split; [exact Hp |]. rewrite Hp.
  apply is_component_spec in Hname as (_ & Hdot & Hslash).
  destruct namespace as [|a ns].
  - cbn [app Py.join]. apply os_path_dirname_app; try done.
    rewrite count_char_app, Hslash. reflexivity.
  - rewrite join_snoc by done.
    replace (root ++ "/" ++ (Py.join "/" (a :: ns) ++ "/" ++ name) ++ ".hpp")
      with ((root ++ "/" ++ Py.join "/" (a :: ns)) ++ "/" ++ (name ++ ".hpp"))
      by by rewrite !append_assoc.
    apply os_path_dirname_app.
    + by destruct root.
    + rewrite endswith_app_r.
      * rewrite endswith_app_r; [by apply endswith_join |].
        inversion Hns as [|? ? Ha _]; subst.
        apply is_component_spec in Ha as (Ha & _).
        destruct a; [done |]. by destruct ns.
      * done.
    + rewrite count_char_app, Hslash. reflexivity.
Qed.

Lemma directory_mirrors_namespace_witness :
  Py.os_path_dirname
    (file_path_of "/w/out"
       {| full_name := "a.b.Foo"; default_dtid := None; body := Message [] [] |})
  = "/w/out/a/b".
Proof.
  apply (proj2 (directory_mirrors_namespace "/w/out"
                  {| full_name := "a.b.Foo"; default_dtid := None;
                     body := Message [] [] |} ["a"; "b"] "Foo"
                  eq_refl ltac:(repeat constructor) eq_refl
                  ltac:(discriminate) eq_refl)).
Defined.

(** ** The texts that the normalisation leaves as they are *)

Lemma replace_length (old new s : string) :
  old <> "" -> (String.length new < String.length old)%nat ->
  (String.length (Py.replace old new s) <= String.length s)%nat
  /\ (Py.occurs old s = true ->
      (String.length (Py.replace old new s) < String.length s)%nat).
Proof.
  intros Hne Hlen.
  apply (replace_ind old new Hne
           (fun s r =>
              (String.length r <= String.length s)%nat
              /\ (Py.occurs old s = true ->
                  (String.length r < String.length s)%nat))).
  - split; [done |]. cbn [Py.occurs]. rewrite orb_false_r.
    destruct old; [done | done].
  - intros c t Hp [IH1 IH2]. cbn [String.length]. split; [lia |].
    rewrite occurs_cons, Hp. cbn [orb]. intros H. specialize (IH2 H). lia.
  - intros t [IH1 _]. rewrite !append_length. split; [lia | intros _; lia].
Qed.

Lemma rstrip_length (l : string) :
  (String.length (Py.rstrip l) <= String.length l)%nat.
Proof.
  induction l as [|c l IH]; [done |]. cbn [Py.rstrip].
  destruct (Py.rstrip l); [destruct (Py.isspace c) |];
    cbn [String.length] in *; lia.
Qed.

Lemma join_length_cons (sep l : string) (ls : list string) :
  String.length (Py.join sep (l :: ls))
  = (String.length l
     + match ls with
       | [] => 0
       | _ :: _ => String.length sep + String.length (Py.join sep ls)
       end)%nat.
Proof.
  destruct ls as [|l2 ls]; cbn [Py.join]; [lia |].
  by rewrite !append_length.
Qed.

Lemma strip_lines_length (x : string) :
  (String.length (strip_lines x) <= String.length x)%nat.
Proof.
  unfold strip_lines.
  assert (forall ls, (String.length (Py.join NL (List.map Py.rstrip ls))
                      <= String.length (Py.join NL ls))%nat) as Hr.
  { induction ls as [|l ls IH]; [done |].
    cbn [List.map]. rewrite !join_length_cons.
    pose proof (rstrip_length l).
    destruct ls as [|l2 ls]; cbn [List.map] in *; lia. }
  etrans; [apply Hr |]. clear Hr.
  induction x as [|c x IH]; [done |]. cbn [Py.splitlines String.length].
  destruct (Py.is_linebreak c).
  - destruct (_ && _); [lia |].
    rewrite join_length_cons. destruct (Py.splitlines x); cbn in *; lia.
  - destruct (Py.splitlines x) as [|l ls]; [cbn; lia |].
    rewrite join_length_cons in *. cbn [String.length]. lia.
Qed.

(** X18: the normalisation never makes a text longer. *)
Theorem normalize_length (x : string) :
  (String.length (normalize x) <= String.length x)%nat.
Proof.
  unfold normalize, close_up_brace, collapse_blank_lines.
  pose proof (strip_lines_length x) as H0.
  set (s0 := strip_lines x) in *.
  destruct (replace_length (NL ++ NL ++ NL ++ NL) (NL ++ NL) s0
              ltac:(done) ltac:(cbn; lia)) as [H1 _].
  set (s1 := Py.replace (NL ++ NL ++ NL ++ NL) (NL ++ NL) s0) in *.
  destruct (replace_length (NL ++ NL ++ NL) (NL ++ NL) s1
              ltac:(done) ltac:(cbn; lia)) as [H2 _].
  set (s2 := Py.replace (NL ++ NL ++ NL) (NL ++ NL) s1) in *.
  destruct (replace_length ("{" ++ NL ++ NL ++ " ") ("{" ++ NL ++ " ") s2
              ltac:(done) ltac:(cbn; lia)) as [H3 _].
  lia.
Qed.

Lemma stripped_tidy (y : string) :
  stripped y = true -> Py.endswith y NL = false -> tidy y = true.
Proof.
  induction y as [|c y IH]; [done |]. cbn [stripped tidy Py.endswith].
  intros [[H1 H2]%andb_true_iff H3]%andb_true_iff [He1 He2]%orb_false_iff.
  rewrite H1, (IH H3 He2), andb_true_r. cbn [andb].
  destruct y as [|d y]; [| exact H2].
  destruct (Ascii.eqb_spec c Py.LF) as [-> | _]; [done | exact H2].
Qed.

Lemma endswith_split (y : string) (c : ascii) :
  Py.endswith y (String c "") = true -> exists z, y = z ++ String c "".
Proof.
  induction y as [|d y IH]; [done |]. cbn [Py.endswith].
  intros [H | H]%orb_true_iff.
  - apply String.eqb_eq in H as ->. by exists "".
  - destruct (IH H) as [z ->]. by exists (String d z).
Qed.

Lemma stripped_app_l (y : string) :
  stripped (y ++ NL) = true -> stripped y = true.
Proof.
  induction y as [|c y IH]; [done |].
  cbn [String.append stripped].
  intros [[H1 H2]%andb_true_iff H3]%andb_true_iff.
  rewrite H1, (IH H3), andb_true_r. cbn [andb].
  destruct y as [|d y]; [| exact H2].
  cbn [String.append] in H2. change (Ascii.eqb Py.LF Py.LF) with true in H2.
  exact H2.
Qed.

Lemma splitlines_app_nonempty (y : string) : Py.splitlines (y ++ NL) <> [].
Proof. destruct y; [done | apply splitlines_nonempty]. Qed.

(** A final line feed is lost. *)
Lemma strip_lines_final_lf (y : string) :
  stripped y = true -> strip_lines (y ++ NL) = y.
Proof.
  unfold strip_lines. induction y as [|c y IH]; [done |].
  intros Hy. pose proof (stripped_tail _ _ Hy) as Hy'. specialize (IH Hy').
  cbn [stripped] in Hy.
  apply andb_true_iff in Hy as [[H1 H2]%andb_true_iff _].
  cbn [String.append Py.splitlines].
  destruct (Py.splitlines (y ++ NL)) as [|l ls] eqn:E;
    [by apply splitlines_app_nonempty in E |].
  destruct (Ascii.eqb_spec c Py.LF) as [-> | Hc].
  - change (Py.is_linebreak Py.LF) with true.
    change (Ascii.eqb Py.LF Py.CR) with false. cbn [andb].
    cbn [List.map Py.rstrip Py.join] in *. by rewrite IH.
  - cbn [orb] in H1. apply negb_true_iff in H1. rewrite H1.
    cbn [List.map] in *.
    assert (Py.rstrip (String c l) = String c (Py.rstrip l)) as ->.
    { cbn [Py.rstrip]. destruct (Py.rstrip l) as [|e r] eqn:El; [| done].
      assert (negb (Py.isspace c) = true) as Hs.
      { destruct (List.map Py.rstrip ls) as [|l2 ls2].
        - cbn [Py.join] in IH. subst y. exact H2.
        - destruct y as [|d y]; [exact H2 |].
          injection IH as <- _. by rewrite Ascii.eqb_refl in H2. }
      apply negb_true_iff in Hs. by rewrite Hs. }
    by rewrite join_cons_char, IH.
Qed.

(** X19: a text is left as it is exactly when it is tidy and holds neither
    three line feeds in a row nor a blank line after an opening brace. *)
Theorem normalize_fixed_iff (y : string) :
  normalize y = y
  <-> tidy y = true
      /\ Py.occurs (NL ++ NL ++ NL) y = false
      /\ Py.occurs ("{" ++ NL ++ NL ++ " ") y = false.
Proof.
  split; [| intros (? & ? & ?); by apply normalize_fixed].
  intros H.
  assert (stripped y = true) as Hs by (rewrite <- H; apply normalize_stripped).
  pose proof (strip_lines_length y) as H0.
  unfold normalize, close_up_brace, collapse_blank_lines in H.
  set (s0 := strip_lines y) in *.
  destruct (replace_length (NL ++ NL ++ NL ++ NL) (NL ++ NL) s0
              ltac:(done) ltac:(cbn; lia)) as [H1 H1'].
  set (s1 := Py.replace (NL ++ NL ++ NL ++ NL) (NL ++ NL) s0) in *.
  destruct (replace_length (NL ++ NL ++ NL) (NL ++ NL) s1
              ltac:(done) ltac:(cbn; lia)) as [H2 H2'].
  set (s2 := Py.replace (NL ++ NL ++ NL) (NL ++ NL) s1) in *.
  destruct (replace_length ("{" ++ NL ++ NL ++ " ") ("{" ++ NL ++ " ") s2
              ltac:(done) ltac:(cbn; lia)) as [H3 H3'].
  rewrite H in H3, H3'.
  assert (tidy y = true) as Ht.
  { apply stripped_tidy; [done |].
    destruct (Py.endswith y NL) eqn:E; [| done].
    apply endswith_split in E as [z ->].
    pose proof (strip_lines_final_lf z (stripped_app_l z Hs)) as Hz.
    assert (String.length s0 = String.length z) as Hl
      by exact (f_equal String.length Hz).
    rewrite append_length in H3. cbn [String.length] in H3. lia. }
  assert (s0 = y) as E0 by by apply strip_lines_tidy.
  assert (Py.occurs (NL ++ NL ++ NL ++ NL) s0 = false) as O4.
  { destruct (Py.occurs _ s0); [| done]. specialize (H1' eq_refl).
    rewrite E0 in *. lia. }
  assert (s1 = y) as E1 by (subst s1; by rewrite replace_absent, E0).
  assert (Py.occurs (NL ++ NL ++ NL) s1 = false) as O3.
  { destruct (Py.occurs _ s1); [| done]. specialize (H2' eq_refl).
    rewrite E1 in *. lia. }
  assert (s2 = y) as E2 by (subst s2; by rewrite replace_absent, E1).
  assert (Py.occurs ("{" ++ NL ++ NL ++ " ") s2 = false) as OB.
  { destruct (Py.occurs _ s2); [| done]. specialize (H3' eq_refl).
    rewrite E2 in *. lia. }
  rewrite E1 in O3. rewrite E2 in OB. by repeat split.
Qed.

(** ** Absolute paths *)

Lemma os_path_normpath_absolute (path : string) :
  Py.startswith path "/" = true ->
  Py.startswith (Py.os_path_normpath path) "/" = true.
Proof.
  intros H. unfold Py.os_path_normpath.
  destruct (String.eqb_spec path "") as [-> | _]; [done |]. rewrite H.
  destruct (Py.startswith path "//" && negb (Py.startswith path "///"));
    cbn [Py.repeat_string String.append String.eqb];
    unfold Py.startswith; by rewrite prefix_cons, prefix_nil.
Qed.

Lemma os_path_abspath_absolute (cwd path : string) :
  Py.startswith cwd "/" = true ->
  Py.startswith (Py.os_path_abspath cwd path) "/" = true.
Proof.
  intros Hc. unfold Py.os_path_abspath, Py.os_path_isabs.
  apply os_path_normpath_absolute.
  destruct (Py.startswith path "/") eqn:Hp; [done |].
  unfold Py.os_path_join. rewrite Hp.
  destruct cwd as [|c cwd]; [done |].
  unfold Py.startswith in *. rewrite prefix_cons, prefix_nil, andb_true_r in Hc.
  destruct (_ || _); cbn [String.append];
    by rewrite prefix_cons, prefix_nil, andb_true_r.
Qed.

Lemma os_path_join_absolute (a b : string) :
  Py.startswith a "/" = true -> Py.startswith (Py.os_path_join a b) "/" = true.
Proof.
  intros Ha. unfold Py.os_path_join.
  destruct (Py.startswith b "/") eqn:Hb; [done |].
  destruct a as [|c a]; [done |].
  unfold Py.startswith in *. rewrite prefix_cons, prefix_nil, andb_true_r in Ha.
  destruct (_ || _); cbn [String.append];
    by rewrite prefix_cons, prefix_nil, andb_true_r.
Qed.

(** X20: started in an absolute working directory, [run_generator] makes an
    absolute destination directory and writes files with absolute paths
    only. *)
Theorem run_generator_paths_absolute (render : Annotated -> Result string)
    (fs : list FsOp -> FsOp -> option Exception)
    (cwd : string) (types : list CompoundType) (dest_dir : string) :
  Py.startswith cwd "/" = true ->
  Py.startswith (Py.os_path_abspath cwd dest_dir) "/" = true
  /\ Forall (fun path => Py.startswith path "/" = true)
       (written_paths (fst (run_generator render fs cwd types dest_dir))).
Proof.
  intros Hc. pose proof (os_path_abspath_absolute cwd dest_dir Hc) as Hroot.
  split; [exact Hroot |].
  rewrite run_generator_eq. cbn zeta.
  generalize dependent (Py.os_path_abspath cwd dest_dir). intros root Hroot.
  destruct (fs [] _); [constructor |]. cbn [fst].
  change (written_paths (Makedirs root :: ?l)) with (written_paths l).
  generalize [Makedirs root]. intros log. revert log.
  induction types as [|t ts IH]; intros log; [constructor |].
  rewrite run_generator_loop_cons. cbn zeta.
  destruct (fs log _); [constructor |].
  destruct (generate_one_type render t); [| constructor].
  destruct (fs (log ++ _)%list _); [constructor |]. cbn [fst].
  change (written_paths (Makedirs ?d :: WriteFile ?p ?x :: ?ops))
    with (p :: written_paths ops).
  constructor; [| apply IH]. by apply os_path_join_absolute.
Qed.

Lemma run_generator_paths_absolute_witness :
  Forall (fun path => Py.startswith path "/" = true)
    (written_paths (fst (run_generator (fun _ => Ok "") (fun _ _ => None)
                           "/w" [ns_Foo] "out"))).
Proof.
  apply (proj2 (run_generator_paths_absolute (fun _ => Ok "")
                  (fun _ _ => None) "/w" [ns_Foo] "out" eq_refl)).
Defined.
